(** * ModisRequestProject: a shallow embedding of the NASA web-service client

    The development follows the layout of the Python package
    [nasawebservice]:

    - [Py]         the Python primitives the package relies on (exceptions,
                   [str] methods, [int], [min], [list.index], slicing,
                   JSON values and [dict] operations);
    - [Utils]      [utils/utils.py]: the date interval resolver;
    - [Parameters] [parameters/parameters.py]: the enumerations;
    - [Requests]   the observable interface of the [requests] library;
    - [Provider]   [dataprovider/provider.py]: the client itself.

    Python integers are unbounded, hence [Z].  Strings are [string]
    (sequences of bytes).  A Python [dict] is an association list with
    unique keys kept in insertion order. *)

From Stdlib Require Import ZArith List String Ascii Lia Bool Sorted Permutation.
From Stdlib Require Import Decimal DecimalString DecimalZ DecimalFacts.
From Stdlib Require Import OrderedTypeEx NArith DecimalPos.
Import ListNotations.
Local Open Scope string_scope.
Local Open Scope Z_scope.

(* ================================================================== *)
(** * Python primitives *)
(* ================================================================== *)

Module Py.

(** JSON values, as produced by [response.json()].  Python [None] is
    [JNull].  A float is carried by its literal text: the client never
    computes with one. *)
#[warnings="-register-all"]
Inductive json : Type :=
| JNull
| JBool (b : bool)
| JInt (n : Z)
| JFloat (lexeme : string)
| JStr (s : string)
| JList (l : list json)
| JDict (d : list (string * json)).

(** The exceptions that can leave the package.  Several of them are the
    same Python class ([ValueError]); the constructor records the raise
    site, which is what the properties below distinguish. *)
Inductive exn : Type :=
| InvalidRange (msg : string)      (* ValueError, utils.compute_date_interval *)
| IntLiteral (literal : string)    (* ValueError, int() on a malformed literal *)
| MinEmpty                         (* ValueError, min() of an empty sequence *)
| MaxEmpty                         (* ValueError, max() of an empty sequence *)
| NotInList (x : string)           (* ValueError, list.index *)
| RangeZeroStep                    (* ValueError, range() with step 0 *)
| ConcurrencyLimit (msg : string)  (* ValueError, maximum_concurrent_number *)
| AttributeError (what : string)
| KeyError (key : string)
| TypeError (what : string)
| InvalidJSON                      (* response.json() on a body that is not JSON *)
| NameError (msg : string)
| ClientError (msg : string)       (* an aiohttp exception that no clause catches *)
| RequestFailure (msg : json).     (* requests' RequestException, raised by is_present *)

Definition result (A : Type) : Type := (exn + A)%type.

Definition ret {A} (a : A) : result A := inr a.
Definition raise {A} (e : exn) : result A := inl e.
Definition bind {A B} (m : result A) (k : A -> result B) : result B :=
  match m with
  | inl e => inl e
  | inr a => k a
  end.

Declare Scope py_scope.
Delimit Scope py_scope with py.
Notation "x <- m ;; k" := (bind m (fun x => k))
  (at level 61, m at next level, right associativity) : py_scope.
Local Open Scope py_scope.

(** [[f(x) for x in l]] where [f] may raise: the first failure wins. *)
Fixpoint traverse {A B} (f : A -> result B) (l : list A) : result (list B) :=
  match l with
  | [] => ret []
  | x :: r => y <- f x ;; ys <- traverse f r ;; ret (y :: ys)
  end.

(** ** [str] methods *)

(** [s.replace(c, '')] for a one-character [c]. *)
Fixpoint remove_char (c : ascii) (s : string) : string :=
  match s with
  | EmptyString => EmptyString
  | String a r =>
      if Ascii.eqb a c then remove_char c r else String a (remove_char c r)
  end.

(** [s.rstrip(c)] for a one-character [c]. *)
Fixpoint rstrip_char (c : ascii) (s : string) : string :=
  match s with
  | EmptyString => EmptyString
  | String a r =>
      match rstrip_char c r with
      | EmptyString => if Ascii.eqb a c then EmptyString else String a EmptyString
      | r' => String a r'
      end
  end.

Definition upper_char (a : ascii) : ascii :=
  let n := nat_of_ascii a in
  if (97 <=? n)%nat && (n <=? 122)%nat then ascii_of_nat (n - 32) else a.

(** Text made of ASCII characters only (every byte below 128). *)
Definition is_ascii_char (a : ascii) : bool := (nat_of_ascii a <? 128)%nat.

Fixpoint is_ascii (s : string) : bool :=
  match s with
  | EmptyString => true
  | String a r => is_ascii_char a && is_ascii r
  end.

(** [s.upper()] on ASCII text: the letters [a] to [z] are mapped, every
    other byte is kept.  Python's [str.upper] is this function on the
    strings of [is_ascii]; it also maps letters outside ASCII, which this
    function leaves alone, so a statement on [upper] speaks for the code
    on ASCII text only. *)
Fixpoint upper (s : string) : string :=
  match s with
  | EmptyString => EmptyString
  | String a r => String (upper_char a) (upper r)
  end.

Definition is_space (a : ascii) : bool :=
  let n := nat_of_ascii a in
  (n =? 32)%nat || ((9 <=? n)%nat && (n <=? 13)%nat).

Fixpoint lstrip (s : string) : string :=
  match s with
  | String a r => if is_space a then lstrip r else s
  | EmptyString => EmptyString
  end.

Fixpoint rstrip (s : string) : string :=
  match s with
  | EmptyString => EmptyString
  | String a r =>
      match rstrip r with
      | EmptyString => if is_space a then EmptyString else String a EmptyString
      | r' => String a r'
      end
  end.

Definition strip (s : string) : string := rstrip (lstrip s).

(** [needle in s] on strings. *)
Definition contains (needle s : string) : bool :=
  match String.index 0 needle s with
  | Some _ => true
  | None => false
  end.

(** ** [int(s)] and [str(n)]

    [int] accepts surrounding ASCII whitespace, an optional sign and
    ASCII decimal digits.  Python's [int] accepts more: single underscores
    between digits, decimal digits and whitespace outside ASCII.  Hence a
    value returned here is the value Python returns, while a raise here is
    a raise of Python only on literals that hold a character no integer
    literal can hold (see [is_foreign] below). *)
Definition int (s : string) : result Z :=
  let t := strip s in
  let parse (neg : bool) (body : string) : result Z :=
    match NilZero.uint_of_string body with
    | Some d => ret (if neg then - Z.of_uint d else Z.of_uint d)
    | None => raise (IntLiteral s)
    end in
  match t with
  | String "-" body => parse true body
  | String "+" body => parse false body
  | _ => parse false t
  end.

Definition str (n : Z) : string := NilZero.string_of_int (Z.to_int n).

(** ** Sequences *)

(** [min(l, key=key)]: the first element whose key is minimal. *)
Fixpoint min_from {A} (key : A -> Z) (best : A) (l : list A) : A :=
  match l with
  | [] => best
  | x :: r => if key x <? key best then min_from key x r else min_from key best r
  end.

Definition min_by {A} (key : A -> Z) (l : list A) : result A :=
  match l with
  | [] => raise MinEmpty
  | x :: r => ret (min_from key x r)
  end.

(** [l.index(x)]: position of the first element equal to [x]. *)
Fixpoint find_index (x : string) (l : list string) : option nat :=
  match l with
  | [] => None
  | y :: r => if String.eqb y x then Some O else option_map S (find_index x r)
  end.

Definition index (x : string) (l : list string) : result nat :=
  match find_index x l with
  | Some i => ret i
  | None => raise (NotInList x)
  end.

(** [l[i:j]] for non-negative [i] and [j]. *)
Definition slice {A} (i j : nat) (l : list A) : list A :=
  firstn (j - i) (skipn i l).

(** [x in l] on a list of strings. *)
Definition mem (x : string) (l : list string) : bool :=
  existsb (String.eqb x) l.

(** [l[i:j]] for arbitrary integers, negative ones counting from the end. *)
Definition slice_z {A} (i j : Z) (l : list A) : list A :=
  let len := Z.of_nat (List.length l) in
  let clip k := if k <? 0 then Z.max 0 (len + k) else Z.min k len in
  slice (Z.to_nat (clip i)) (Z.to_nat (clip j)) l.

Fixpoint range_from (fuel : nat) (i stop step : Z) : list Z :=
  match fuel with
  | O => []
  | S fuel' =>
      if (if 0 <? step then i <? stop else stop <? i)
      then i :: range_from fuel' (i + step) stop step
      else []
  end.

(** [range(start, stop, step)]; at most [|stop - start|] elements. *)
Definition range (start stop step : Z) : result (list Z) :=
  if step =? 0 then raise RangeZeroStep
  else ret (range_from (Z.abs_nat (stop - start)) start stop step).

(** [sorted(l, key=key)] with string keys: stable, by [<] on strings. *)
Fixpoint insert_by {A} (key : A -> string) (x : A) (l : list A) : list A :=
  match l with
  | [] => [x]
  | y :: r => if String.ltb (key y) (key x) then y :: insert_by key x r
              else x :: y :: r
  end.

Definition sorted_by {A} (key : A -> string) (l : list A) : list A :=
  fold_right (insert_by key) [] l.

(** ** [dict] operations *)

Fixpoint dict_find (k : string) (d : list (string * json)) : option json :=
  match d with
  | [] => None
  | (k', v) :: r => if String.eqb k' k then Some v else dict_find k r
  end.

Definition dict_has (k : string) (d : list (string * json)) : bool :=
  match dict_find k d with Some _ => true | None => false end.

(** [d[k] = v]: an existing key keeps its position. *)
Fixpoint dict_set (k : string) (v : json) (d : list (string * json))
  : list (string * json) :=
  match d with
  | [] => [(k, v)]
  | (k', v') :: r =>
      if String.eqb k' k then (k, v) :: r else (k', v') :: dict_set k v r
  end.

(** [d.update(other)], also [{**d, **other}]. *)
Definition dict_update (d other : list (string * json)) : list (string * json) :=
  fold_left (fun acc kv => dict_set (fst kv) (snd kv) acc) other d.

(** ** Operations on values whose type is only known at run time *)

(** [v.get(k)] *)
Definition py_get (k : string) (v : json) : result json :=
  match v with
  | JDict d => ret (match dict_find k d with Some x => x | None => JNull end)
  | _ => raise (AttributeError "get")
  end.

(** [k in v] for a string [k] *)
Definition py_in (k : string) (v : json) : result bool :=
  match v with
  | JDict d => ret (dict_has k d)
  | JList l =>
      ret (existsb (fun x => match x with JStr s => String.eqb s k | _ => false end) l)
  | JStr s => ret (contains k s)
  | _ => raise (TypeError "argument is not iterable")
  end.

(** [for x in v] *)
Definition py_iter (v : json) : result (list json) :=
  match v with
  | JList l => ret l
  | JDict d => ret (map (fun kv => JStr (fst kv)) d)
  | JStr s => ret (map (fun a => JStr (String a EmptyString)) (list_ascii_of_string s))
  | _ => raise (TypeError "object is not iterable")
  end.

(** [v.upper()] *)
Definition py_upper (v : json) : result string :=
  match v with
  | JStr s => ret (upper s)
  | _ => raise (AttributeError "upper")
  end.

(** A value used where the package needs a string (a sort key, an
    argument of [compute_date_interval]). *)
Definition as_str (v : json) : result string :=
  match v with
  | JStr s => ret s
  | _ => raise (TypeError "str expected")
  end.

(** [sorted(items, key=lambda x: x.get(k))]: the keys are computed first,
    then compared.  The keys of the service's schema are strings, and on
    string keys this is Python's [sorted].  A key of another type is a
    [TypeError] here, whereas Python fails only when two keys that cannot
    be compared meet: the statements below that sort take entries with
    string keys. *)
Definition sorted_by_get (k : string) (items : list json) : result (list json) :=
  keyed <- traverse (fun x => v <- py_get k x ;; s <- as_str v ;; ret (s, x)) items ;;
  ret (map snd (sorted_by fst keyed)).

(** A float argument is carried by the text that [str] renders for it. *)
Definition float : Type := string.

(** [v[k]] for a string [k] *)
Definition py_item (k : string) (v : json) : result json :=
  match v with
  | JDict d =>
      match dict_find k d with
      | Some x => ret x
      | None => raise (KeyError k)
      end
  | JList _ => raise (TypeError "list indices must be integers")
  | JStr _ => raise (TypeError "string indices must be integers")
  | _ => raise (TypeError "object is not subscriptable")
  end.

(** [max(l)] on strings: the first element that no other exceeds. *)
Fixpoint max_from (best : string) (l : list string) : string :=
  match l with
  | [] => best
  | x :: r => if String.ltb best x then max_from x r else max_from best r
  end.

Definition max_str (l : list string) : result string :=
  match l with
  | [] => raise MaxEmpty
  | x :: r => ret (max_from x r)
  end.

(** [f'{v}']: a string is inserted as it is, an integer in decimal.
    The renderings of the other values (floats, lists and mappings need
    [repr]) are left to [render]. *)
Definition format (render : json -> string) (v : json) : string :=
  match v with
  | JStr s => s
  | JInt n => str n
  | _ => render v
  end.

End Py.

Import Py.
Local Open Scope py_scope.

(* ================================================================== *)
(** * utils/utils.py *)
(* ================================================================== *)

Module Utils.

(** [int(d.replace('A', ''))]: the numeric value of a composite date. *)
Definition numeric (d : string) : result Z := int (remove_char "A" d).

Definition _find_closest_composite_date (items : list string) (pivot : string)
  : result string :=
  pivot' <- numeric pivot ;;
  items' <- traverse numeric items ;;
  closest <- min_by (fun x => Z.abs (x - pivot')) items' ;;
  ret ("A" ++ str closest).

(** The generator runs no [yield] before its last loop, and that loop
    cannot fail: draining it gives either the exception or the whole
    slice. *)
Definition compute_date_interval (all_dates : list string)
  (start_date end_date : string) : result (list string) :=
  s <- numeric start_date ;;
  e <- numeric end_date ;;
  if s - e >? 0 then
    raise (InvalidRange ("End date " ++ start_date ++
                         " is not greater than start date " ++ start_date ++ "."))
  else
    start_closest_date <- _find_closest_composite_date all_dates start_date ;;
    end_closest_date <- _find_closest_composite_date all_dates end_date ;;
    index_start_closest_date <- index start_closest_date all_dates ;;
    index_end_closest_date <- index end_closest_date all_dates ;;
    ret (slice index_start_closest_date (index_end_closest_date + 1) all_dates).

(** ** Composite dates: ['A'] followed by seven decimal digits *)

Definition is_digit (a : ascii) : bool :=
  let n := nat_of_ascii a in (48 <=? n)%nat && (n <=? 57)%nat.

Fixpoint all_digits (s : string) : bool :=
  match s with
  | EmptyString => true
  | String a r => is_digit a && all_digits r
  end.

Definition is_composite_date (d : string) : bool :=
  match d with
  | String "A" ds => (String.length ds =? 7)%nat && all_digits ds
  | _ => false
  end.

(** A composite date whose year does not start with the digit 0. *)
Definition is_plain_composite_date (d : string) : bool :=
  match d with
  | String "A" (String "0" _) => false
  | _ => is_composite_date d
  end.

End Utils.

Import Utils.

(* ================================================================== *)
(** * utils/httphandlerexception.py *)
(* ================================================================== *)

Module HttpHandlerException.

(** [switcher.get(status_code, 'Unknown status code')] *)
Definition aiohttp_handler_exception (status_code : Z) : string :=
  match status_code with
  | 200 => "HTTPOk"
  | 201 => "HTTPCreated"
  | 202 => "HTTPAccepted"
  | 203 => "HTTPNonAuthoritativeInformation"
  | 204 => "HTTPNoContent"
  | 205 => "HTTPResetContent"
  | 206 => "HTTPPartialContent"
  | 304 => "HTTPNotModified"
  | 300 => "HTTPMultipleChoices"
  | 301 => "HTTPMovedPermanently"
  | 302 => "HTTPFound"
  | 303 => "HTTPSeeOther"
  | 305 => "HTTPUseProxy"
  | 307 => "HTTPTemporaryRedirect"
  | 308 => "HTTPPermanentRedirect"
  | 400 => "HTTPBadRequest"
  | 401 => "HTTPUnauthorized"
  | 402 => "HTTPPaymentRequired"
  | 403 => "HTTPForbidden"
  | 404 => "HTTPNotFound"
  | 405 => "HTTPMethodNotAllowed"
  | 406 => "HTTPNotAcceptable"
  | 407 => "HTTPProxyAuthenticationRequired"
  | 408 => "HTTPRequestTimeout"
  | 409 => "HTTPConflict"
  | 410 => "HTTPGone"
  | 411 => "HTTPLengthRequired"
  | 412 => "HTTPPreconditionFailed"
  | 413 => "HTTPRequestEntityTooLarge"
  | 414 => "HTTPRequestURITooLong"
  | 415 => "HTTPUnsupportedMediaType"
  | 416 => "HTTPRequestRangeNotSatisfiable"
  | 417 => "HTTPExpectationFailed"
  | 421 => "HTTPMisdirectedRequest"
  | 422 => "HTTPUnprocessableEntity"
  | 424 => "HTTPFailedDependency"
  | 426 => "HTTPUpgradeRequired"
  | 428 => "HTTPPreconditionRequired"
  | 429 => "HTTPTooManyRequests"
  | 431 => "HTTPRequestHeaderFieldsTooLarge"
  | 451 => "HTTPUnavailableForLegalReasons"
  | 500 => "HTTPInternalServerError"
  | 501 => "HTTPNotImplemented"
  | 502 => "HTTPBadGateway"
  | 503 => "HTTPServiceUnavailable"
  | 504 => "HTTPGatewayTimeout"
  | 505 => "HTTPVersionNotSupported"
  | 506 => "HTTPVariantAlsoNegotiates"
  | 507 => "HTTPInsufficientStorage"
  | 510 => "HTTPNotExtended"
  | 511 => "HTTPNetworkAuthenticationRequired"
  | _ => "Unknown status code"
  end.

End HttpHandlerException.

Import HttpHandlerException.

(* ================================================================== *)
(** * parameters/parameters.py *)
(* ================================================================== *)

(** Each enumeration is decorated with [@stringformat], so [str(m)] is
    the member's value. *)

Module Sensors.
Inductive t : Type :=
| MODIS_TERRA | MODIS_AQUA | MODIS_TERRA_AQUA | VIIRS_SNPP | DAYMET | SMAP
| ECOSTRESS | SIFESDR | ALL.

Definition value (m : t) : string :=
  match m with
  | MODIS_TERRA => "MODIS-Terra"
  | MODIS_AQUA => "MODIS-Aqua"
  | MODIS_TERRA_AQUA => "MODIS-TerraAqua"
  | VIIRS_SNPP => "VIIRS-SNPP"
  | DAYMET => "Daymet"
  | SMAP => "SMAP"
  | ECOSTRESS => "ECOSTRESS"
  | SIFESDR => "SIFESDR"
  | ALL => ""
  end.
End Sensors.

Module Tools.
Inductive t : Type := FIXEDSSITE | GLOBALSUBSET | ALL.

Definition value (m : t) : string :=
  match m with
  | FIXEDSSITE => "FixedSite"
  | GLOBALSUBSET => "GlobalSubset"
  | ALL => ""
  end.
End Tools.

Module Products.
Inductive t : Type :=
| MOD09A1 | MOD11A2 | MOD13Q1 | MOD14A2 | MOD15A2H | MOD16A2
| MOD17A2H | MOD17A3HGF | MOD21A2 | MOD44B | MYD09A1 | MYD11A2
| MYD13Q1 | MYD14A2 | MYD15A2H | MYD16A2 | MYD17A2H | MYD17A3HGF
| MYD21A2 | MCD12Q1 | MCD12Q2 | MCD15A2H | MCD15A3H | MCD19A3
| MCD43A | MCD43A1 | MCD43A4 | MCD64A1 | VNP09A1 | VNP09H1
| VNP13A1 | VNP15A2H | VNP21A2 | VNP22Q2 | DAYMET | SPL3SMP_E
| SPL4CMDL | ECO4ESIPTJPL | ECO4WUE | SIF005 | SIF_ANN | GEDI03
| GEDI04_B.

Definition name (m : t) : string :=
  match m with
  | MOD09A1 => "MOD09A1"
  | MOD11A2 => "MOD11A2"
  | MOD13Q1 => "MOD13Q1"
  | MOD14A2 => "MOD14A2"
  | MOD15A2H => "MOD15A2H"
  | MOD16A2 => "MOD16A2"
  | MOD17A2H => "MOD17A2H"
  | MOD17A3HGF => "MOD17A3HGF"
  | MOD21A2 => "MOD21A2"
  | MOD44B => "MOD44B"
  | MYD09A1 => "MYD09A1"
  | MYD11A2 => "MYD11A2"
  | MYD13Q1 => "MYD13Q1"
  | MYD14A2 => "MYD14A2"
  | MYD15A2H => "MYD15A2H"
  | MYD16A2 => "MYD16A2"
  | MYD17A2H => "MYD17A2H"
  | MYD17A3HGF => "MYD17A3HGF"
  | MYD21A2 => "MYD21A2"
  | MCD12Q1 => "MCD12Q1"
  | MCD12Q2 => "MCD12Q2"
  | MCD15A2H => "MCD15A2H"
  | MCD15A3H => "MCD15A3H"
  | MCD19A3 => "MCD19A3"
  | MCD43A => "MCD43A"
  | MCD43A1 => "MCD43A1"
  | MCD43A4 => "MCD43A4"
  | MCD64A1 => "MCD64A1"
  | VNP09A1 => "VNP09A1"
  | VNP09H1 => "VNP09H1"
  | VNP13A1 => "VNP13A1"
  | VNP15A2H => "VNP15A2H"
  | VNP21A2 => "VNP21A2"
  | VNP22Q2 => "VNP22Q2"
  | DAYMET => "DAYMET"
  | SPL3SMP_E => "SPL3SMP_E"
  | SPL4CMDL => "SPL4CMDL"
  | ECO4ESIPTJPL => "ECO4ESIPTJPL"
  | ECO4WUE => "ECO4WUE"
  | SIF005 => "SIF005"
  | SIF_ANN => "SIF_ANN"
  | GEDI03 => "GEDI03"
  | GEDI04_B => "GEDI04_B"
  end.

(** Every member's value is its name, except [DAYMET = 'Daymet']. *)
Definition value (m : t) : string :=
  match m with
  | DAYMET => "Daymet"
  | _ => name m
  end.

(** The members in definition order, as [for product in Products] visits
    them. *)
Definition members : list t :=
  [MOD09A1; MOD11A2; MOD13Q1; MOD14A2; MOD15A2H; MOD16A2;
   MOD17A2H; MOD17A3HGF; MOD21A2; MOD44B; MYD09A1; MYD11A2;
   MYD13Q1; MYD14A2; MYD15A2H; MYD16A2; MYD17A2H; MYD17A3HGF;
   MYD21A2; MCD12Q1; MCD12Q2; MCD15A2H; MCD15A3H; MCD19A3;
   MCD43A; MCD43A1; MCD43A4; MCD64A1; VNP09A1; VNP09H1;
   VNP13A1; VNP15A2H; VNP21A2; VNP22Q2; DAYMET; SPL3SMP_E;
   SPL4CMDL; ECO4ESIPTJPL; ECO4WUE; SIF005; SIF_ANN; GEDI03;
   GEDI04_B].

(** [getattr(Products, n)]: lookup by member name. *)
Definition getattr (n : string) : result t :=
  match find (fun m => String.eqb (name m) n) members with
  | Some m => ret m
  | None => raise (AttributeError n)
  end.
End Products.

(** The band enumerations are only ever rendered by [str]: a band is
    carried by its value. *)
Module Bands.
Record t : Type := Band { value : string }.
End Bands.

(* ================================================================== *)
(** * The [requests] library, as far as the client observes it *)
(* ================================================================== *)

Module Requests.

Record Response : Type := {
  status_code : Z;
  reason : string;
  url : string;
  date_header : option string;   (* headers.get('Date') *)
  text : string;
  decoded : option json          (* json(); [None] when the body is not JSON *)
}.

(** [raise_for_status] raises [HTTPError] for the 4xx and 5xx codes and
    for no other; [ok] is its negation. *)
Definition is_error_status (r : Response) : bool :=
  (400 <=? status_code r) && (status_code r <? 600).

Definition ok (r : Response) : bool := negb (is_error_status r).

(** The classes of [requests.exceptions] that a [GET] can raise. *)
Inductive exception_class : Type :=
| RequestException | HTTPError | ConnectionError | ProxyError | SSLError
| Timeout | ConnectTimeout | ReadTimeout | TooManyRedirects | MissingSchema
| InvalidSchema | InvalidURL | ChunkedEncodingError | ContentDecodingError
| JSONDecodeError.

(** [isinstance], following the class hierarchy: [ConnectTimeout] derives
    from both [ConnectionError] and [Timeout]. *)
Definition is_HTTPError (c : exception_class) : bool :=
  match c with HTTPError => true | _ => false end.

Definition is_ConnectionError (c : exception_class) : bool :=
  match c with
  | ConnectionError | ProxyError | SSLError | ConnectTimeout => true
  | _ => false
  end.

Definition is_Timeout (c : exception_class) : bool :=
  match c with
  | Timeout | ConnectTimeout | ReadTimeout => true
  | _ => false
  end.

(** An exception object: [request] holds [request.url] when a request is
    attached, [response] the attached response. *)
Record exception : Type := {
  class : exception_class;
  request : option string;
  response : option Response
}.

(** What [session.get(query)] does. *)
Inductive attempt : Type :=
| Returned (r : Response)
| Failed (e : exception).

End Requests.

Import Requests.

(* ================================================================== *)
(** * The [aiohttp] library, as far as the client observes it *)
(* ================================================================== *)

Module Aiohttp.

(** What [await response.json()] does: it returns the decoded body,
    raises [ContentTypeError] (a [ClientResponseError]) when the content
    type is not JSON, or raises [json.JSONDecodeError] when the body does
    not parse. *)
Inductive decoding : Type :=
| Decoded (v : json)
| WrongContentType (msg : string)
| Malformed.

Record Response : Type := {
  status : Z;
  reason : string;
  url : string;                  (* str(response.url) *)
  date_header : option string;   (* headers.get('Date') *)
  body : decoding
}.

(** [response.ok]: the status is below 400. *)
Definition ok (r : Response) : bool := status r <? 400.

Inductive exception_class : Type :=
| ClientConnectorError | ClientProxyConnectionError | ClientSSLError
| ClientResponseError | ContentTypeError | TooManyRedirects
| ClientPayloadError | InvalidURL
| ClientOSError | ServerDisconnectedError | ServerTimeoutError.

Definition is_ClientConnectorError (c : exception_class) : bool :=
  match c with
  | ClientConnectorError | ClientProxyConnectionError | ClientSSLError => true
  | _ => false
  end.

Definition is_ClientResponseError (c : exception_class) : bool :=
  match c with
  | ClientResponseError | ContentTypeError | TooManyRedirects => true
  | _ => false
  end.

Definition is_ClientPayloadError (c : exception_class) : bool :=
  match c with ClientPayloadError => true | _ => false end.

Definition is_InvalidURL (c : exception_class) : bool :=
  match c with InvalidURL => true | _ => false end.

(** An exception object: its class and [str(error_obj)]. *)
Record exception : Type := {
  class : exception_class;
  message : string
}.

(** What [session.get(request_url)] does. *)
Inductive attempt : Type :=
| Returned (r : Response)
| Failed (e : exception).

End Aiohttp.

(* ================================================================== *)
(** * dataprovider/provider.py *)
(* ================================================================== *)

Module Provider.

(** The attributes of [NasaWebServiceAPIProvider].  [wire] is a ghost
    field: the queries handed to the session so far, oldest first. *)
Record provider : Type := {
  _MAXIMUM_CONCURRENT_NUMBER : Z;
  _base_url : string;
  _current_version : Z;
  _url_path : string;
  _url : string;
  _requests_time : json;
  _requests_url : string;
  wire : list string
}.

Definition _DATES_SLOT : string := "dates".
Definition _MODIS_DATE : string := "modis_date".
Definition _PRODUCTS : string := "products".

Definition __init__ (base_url : string) (version : Z) : provider :=
  let url_path := "rst/api/v" ++ str version in
  {| _MAXIMUM_CONCURRENT_NUMBER := 10;
     _base_url := base_url;
     _current_version := version;
     _url_path := url_path;
     _url := base_url ++ "/" ++ url_path;
     _requests_time := JStr "";
     _requests_url := "";
     wire := [] |}.

Definition set_last_request (time : json) (u : string) (self : provider)
  : provider :=
  {| _MAXIMUM_CONCURRENT_NUMBER := _MAXIMUM_CONCURRENT_NUMBER self;
     _base_url := _base_url self;
     _current_version := _current_version self;
     _url_path := _url_path self;
     _url := _url self;
     _requests_time := time;
     _requests_url := u;
     wire := wire self |}.

Definition sending (query : string) (self : provider) : provider :=
  {| _MAXIMUM_CONCURRENT_NUMBER := _MAXIMUM_CONCURRENT_NUMBER self;
     _base_url := _base_url self;
     _current_version := _current_version self;
     _url_path := _url_path self;
     _url := _url self;
     _requests_time := _requests_time self;
     _requests_url := _requests_url self;
     wire := wire self ++ [query] |}.

Definition set_maximum (n : Z) (self : provider) : provider :=
  {| _MAXIMUM_CONCURRENT_NUMBER := n;
     _base_url := _base_url self;
     _current_version := _current_version self;
     _url_path := _url_path self;
     _url := _url self;
     _requests_time := _requests_time self;
     _requests_url := _requests_url self;
     wire := wire self |}.

(** A method: it returns or raises, and leaves the object in a new state
    either way. *)
Definition M (A : Type) : Type := provider -> result A * provider.

Definition retM {A} (a : A) : M A := fun self => (ret a, self).
Definition raiseM {A} (e : exn) : M A := fun self => (raise e, self).
Definition bindM {A B} (m : M A) (k : A -> M B) : M B :=
  fun self =>
    match m self with
    | (inl e, self') => (inl e, self')
    | (inr a, self') => k a self'
    end.
Definition lift {A} (r : result A) : M A := fun self => (r, self).

Notation "x <~ m ;; k" := (bindM m (fun x => k))
  (at level 61, m at next level, right associativity) : py_scope.

(** A drained generator: the values it yielded, then how it stopped
    ([None]: exhausted; [Some e]: [e] was raised). *)
Definition G (A : Type) : Type := provider -> (list A * option exn) * provider.

(** [for x in items: yield body(x)] *)
Fixpoint yield_each {A B} (body : A -> M B) (items : list A) : G B :=
  fun self =>
    match items with
    | [] => (([], None), self)
    | x :: r =>
        match body x self with
        | (inl e, self') => (([], Some e), self')
        | (inr y, self') =>
            let '((ys, stop), self'') := yield_each body r self' in
            ((y :: ys, stop), self'')
        end
    end.

(** ** The [maximum_concurrent_number] property *)

Definition maximum_concurrent_number (self : provider) : Z :=
  _MAXIMUM_CONCURRENT_NUMBER self.

Definition maximum_concurrent_number_setter (concurrent_number : Z) : M unit :=
  fun self =>
    if concurrent_number >? 10 then
      (raise (ConcurrencyLimit
                ("the maximum number of concurrent cannot be " ++
                 str concurrent_number ++
                 ", since the API service cannot process more than 10 " ++
                 "concurrent requests from the same host.")), self)
    else (ret tt, set_maximum concurrent_number self).

(** ** Fault handling *)

Definition quote : ascii := "034"%char.
Definition newline : ascii := "010"%char.

Definition _response_fault_handling (response : Response) : result json :=
  let error_response :=
    [("status", JInt (status_code response));
     ("title", JStr (reason response));
     ("url", JStr (url response))] in
  match decoded response with
  | None => raise InvalidJSON
  | Some (JDict body) =>
      ret (JDict (dict_update error_response
                    [("detail", match dict_find "detail" body with
                                | Some x => x
                                | None => JNull
                                end)]))
  | Some (JStr _) =>
      ret (JDict (dict_update error_response
                    [("detail",
                      JStr (remove_char quote
                              (rstrip_char newline (text response))))]))
  | Some _ =>
      ret (JDict (dict_update error_response
                    [("detail", JStr "something wrong")]))
  end.

Definition _error_fault_handling (error_obj : exception) (status_code : Z)
  (title : string) : result json :=
  match request error_obj with
  | None => raise (AttributeError "url")
  | Some base_url =>
      ret (JDict [("status", JInt status_code);
                  ("title", JStr title);
                  ("url", JStr base_url);
                  ("detail", JStr ("Exception for " ++ base_url))])
  end.

(** The [except] clauses of [_response], in their order. *)
Definition handle (err : exception) : result json :=
  if is_HTTPError (class err) then
    match response err with
    | None => _error_fault_handling err 400 "HTTP ERROR"
    | Some r => _response_fault_handling r
    end
  else if is_ConnectionError (class err) then
    _error_fault_handling err 777 "CONNECTION ERROR"
  else if is_Timeout (class err) then
    _error_fault_handling err 777 "TIMEOUT ERROR"
  else
    _error_fault_handling err 777 "AMBIGUOUS ERROR".

Section Client.

(** The remote service: what the session answers to a query, given the
    queries it has been sent before. *)
Variable session_get : list string -> string -> attempt.

Definition _response (query : string) : M json :=
  fun self =>
    let history := wire self in
    let self := sending query (set_last_request (JStr "") "" self) in
    match session_get history query with
    | Failed err => (handle err, self)
    | Returned response =>
        let self :=
          set_last_request
            (match date_header response with Some d => JStr d | None => JNull end)
            (url response) self in
        if ok response then
          match decoded response with
          | Some response_result => (ret response_result, self)
          | None =>
              (* json() raises requests' JSONDecodeError, with no request *)
              (handle {| class := JSONDecodeError; request := None;
                         response := None |}, self)
          end
        else
          (* raise_for_status() raises HTTPError(response=response) *)
          (handle {| class := HTTPError; request := Some (url response);
                     response := Some response |}, self)
    end.

Definition get_request_http_time : M json :=
  fun self =>
    match _requests_time self with
    | JStr "" =>
        (raise (NameError "The HTML header time is not found. Try to make a valid request first."), self)
    | t => (ret t, self)
    end.

Definition get_request_url : M string :=
  fun self =>
    if String.eqb (_requests_url self) "" then
      (raise (NameError "The URL is not found. Try to make a valid request first."), self)
    else (ret (_requests_url self), self).

(** ** The endpoints *)

Definition products (sensor : Sensors.t) (tool : Tools.t) : M json :=
  fun self =>
    _response (_url self ++ "/products?sensor=" ++ Sensors.value sensor ++
               "&tool=" ++ Tools.value tool) self.

Definition bands (product : Products.t) : M json :=
  fun self =>
    _response (_url self ++ "/" ++ Products.value product ++ "/bands") self.

Definition dates_query (self : provider) (product : Products.t)
  (latitude longitude : float) : string :=
  _url self ++ "/" ++ Products.value product ++ "/dates?latitude=" ++
  latitude ++ "&longitude=" ++ longitude.

Definition dates (product : Products.t) (latitude longitude : float) : M json :=
  fun self => _response (dates_query self product latitude longitude) self.

Definition subset_query (self : provider) (product : Products.t)
  (latitude longitude : float) (band : Bands.t) (start_date end_date : string)
  (km_above_below km_left_right : Z) : string :=
  _url self ++ "/" ++ Products.value product ++ "/subset?latitude=" ++
  latitude ++ "&longitude=" ++ longitude ++ "&band=" ++ Bands.value band ++
  "&startDate=" ++ start_date ++ "&endDate=" ++ end_date ++
  "&kmAboveBelow=" ++ str km_above_below ++
  "&kmLeftRight=" ++ str km_left_right.

Definition subset (product : Products.t) (latitude longitude : float)
  (band : Bands.t) (start_date end_date : string)
  (km_above_below km_left_right : Z) : M json :=
  fun self =>
    _response (subset_query self product latitude longitude band
                 start_date end_date km_above_below km_left_right) self.

(** ** The sequential batch entry point *)

(** [sorted(all_dates.get('dates'), key=lambda x: x.get('modis_date'))]
    followed by [[d.get('modis_date') for d in time_dates]].  The tokens
    are handed to [compute_date_interval] as strings: on a date set whose
    entries all carry a string [modis_date] this is what the code
    computes; the statements below take such date sets. *)
Definition sorted_time_dates (all_dates : json) : result (list string) :=
  slot <- py_get _DATES_SLOT all_dates ;;
  items <- py_iter slot ;;
  time_dates <- sorted_by_get _MODIS_DATE items ;;
  traverse (fun d => v <- py_get _MODIS_DATE d ;; as_str v) time_dates.

Definition execute_many (product : Products.t) (latitude longitude : float)
  (band : Bands.t) (start_date end_date : string)
  (km_above_below km_left_right : Z) : G json :=
  fun self =>
    match dates product latitude longitude self with
    | (inl e, self) => (([], Some e), self)
    | (inr all_dates, self) =>
        match py_in "status" all_dates with
        | inl e => (([], Some e), self)
        | inr false =>
            match (time_dates <- sorted_time_dates all_dates ;;
                   compute_date_interval time_dates start_date end_date) with
            | inl e => (([], Some e), self)
            | inr interval =>
                yield_each
                  (fun time_date =>
                     subset product latitude longitude band time_date time_date
                       km_above_below km_left_right)
                  interval self
            end
        | inr true => (([all_dates], None), self)
        end
    end.

(** [x in l] for a string [x] and a list of run-time values. *)
Definition str_in (x : string) (l : list json) : bool :=
  existsb (fun v => match v with JStr s => String.eqb s x | _ => false end) l.

(** [[d.get('modis_date') for d in v.get('dates')]] *)
Definition modis_dates (v : json) : result (list json) :=
  slot <- py_get _DATES_SLOT v ;;
  items <- py_iter slot ;;
  traverse (py_get _MODIS_DATE) items.

Definition is_present (product : Products.t) (latitude longitude : float)
  (reference_date : string) : M bool :=
  interval_dates <~ dates product latitude longitude ;;
  failed <~ lift (py_in "status" interval_dates) ;;
  if failed then
    detail <~ lift (py_get "detail" interval_dates) ;;
    raiseM (RequestFailure detail)
  else
    time_dates <~ lift (modis_dates interval_dates) ;;
    retM (str_in reference_date time_dates).

(** ** The availability report *)

(** [{**a, **b}] and [a.update(b)] *)
Definition py_merge (a b : json) : result json :=
  match a, b with
  | JDict da, JDict db => ret (JDict (dict_update da db))
  | _, _ => raise (TypeError "mapping expected")
  end.

Definition product_report (reference_date : string)
  (available not_available : list json) : json :=
  JDict [("date", JStr reference_date);
         ("available", JList available);
         ("not_available", JList not_available)].

(** [set([str(product) for product in Products])] *)
Definition all_products : list string := map Products.value Products.members.

(** The body of [for product in products_lst], for one product and the
    report as it is before the first iteration (both lists empty).  Its
    last statement is [return product_report]. *)
Definition report_product (latitude longitude : float) (reference_date : string)
  (product : json) : M json :=
  product_code <~ lift (c <- py_get "product" product ;; py_upper c) ;;
  if mem product_code all_products then
    member <~ lift (Products.getattr product_code) ;;
    product_date <~ dates member latitude longitude ;;
    failed <~ lift (py_in "status" product_date) ;;
    if negb failed then
      product_date <~ lift (modis_dates product_date) ;;
      if str_in reference_date product_date then
        retM (product_report reference_date [product] [])
      else
        fun self =>
          let add_dict :=
            JDict [("status", JInt 777);
                   ("title", JStr "NO DATA AVAILABLE");
                   ("url", JStr (_requests_url self));
                   ("detail",
                    JStr ("No data available for day " ++ reference_date ++
                          " for " ++ product_code ++ " " ++ latitude ++
                          " " ++ longitude ++ " combination."))] in
          lift (product <- py_merge product add_dict ;;
                ret (product_report reference_date [] [product])) self
    else
      lift (up_dict <- py_merge product product_date ;;
            ret (product_report reference_date [] [up_dict]))
  else retM (product_report reference_date [] []).

(** The loop returns in its first iteration; a loop over no product at
    all falls off the end of the function, which returns [None]. *)
Definition available_products_by_date (latitude longitude : float)
  (reference_date : string) : M json :=
  products <~ products Sensors.ALL Tools.ALL ;;
  failed <~ lift (py_in "status" products) ;;
  if failed then retM products
  else
    products_lst <~ lift (slot <- py_get "products" products ;; py_iter slot) ;;
    match products_lst with
    | [] => retM JNull
    | product :: _ => report_product latitude longitude reference_date product
    end.

(** ** Chunk splitting of the concurrent entry points *)

(** [(dates[i:i + n] for i in range(0, len(dates), n))] with
    [n = self._MAXIMUM_CONCURRENT_NUMBER]: the [range] is built when the
    generator expression is evaluated. *)
Definition chunks {A} (self : provider) (dates : list A)
  : result (list (list A)) :=
  let n := _MAXIMUM_CONCURRENT_NUMBER self in
  starts <- range 0 (Z.of_nat (List.length dates)) n ;;
  ret (map (fun i => slice_z i (i + n) dates) starts).

(** ** The sequential entry point over all dates *)

Section Rendering.

(** Python's rendering of the values that [format] leaves out. *)
Variable render : json -> string.

(** The generator expression [(d['modis_date'] for d in ...)] is consumed
    by the loop: each date is looked up just before its subset call. *)
Definition execute_all (product : Products.t) (latitude longitude : float)
  (band : Bands.t) (km_above_below km_left_right : Z) : G json :=
  fun self =>
    match dates product latitude longitude self with
    | (inl e, self) => (([], Some e), self)
    | (inr dates_intervals, self) =>
        match py_in "status" dates_intervals with
        | inl e => (([], Some e), self)
        | inr false =>
            match (slot <- py_get _DATES_SLOT dates_intervals ;; py_iter slot) with
            | inl e => (([], Some e), self)
            | inr items =>
                yield_each
                  (fun d =>
                     time_date <~ lift (py_item _MODIS_DATE d) ;;
                     subset product latitude longitude band
                       (format render time_date) (format render time_date)
                       km_above_below km_left_right)
                  items self
            end
        | inr true => (([dates_intervals], None), self)
        end
    end.

End Rendering.

(** ** The last acquisition *)

(** [max([d['modis_date'] for d in v.get('dates')])].  The dates of the
    service's schema are strings; a date of another type is a
    [TypeError] here. *)
Definition last_date (v : json) : result string :=
  slot <- py_get _DATES_SLOT v ;;
  items <- py_iter slot ;;
  tokens <- traverse (py_item _MODIS_DATE) items ;;
  tokens <- traverse as_str tokens ;;
  max_str tokens.

Definition last_product (product : Products.t) (latitude longitude : float)
  (band : Bands.t) (km_above_below km_left_right : Z) : M json :=
  all_dates_intervals <~ dates product latitude longitude ;;
  failed <~ lift (py_in "status" all_dates_intervals) ;;
  if failed then retM all_dates_intervals
  else
    last_dates <~ lift (last_date all_dates_intervals) ;;
    subset product latitude longitude band last_dates last_dates
      km_above_below km_left_right.

End Client.

(** ** Normalization in the concurrent entry points *)

Definition _asynchronous_exception_handling (error_obj : Aiohttp.exception)
  (request_url : string) (status_code : Z) (title : string) : json :=
  JDict [("status", JInt status_code);
         ("title", JStr title);
         ("url", JStr request_url);
         ("detail", JStr (Aiohttp.message error_obj))].

(** The [except] clauses of [_asynchronous_response], in their order; an
    exception of another class is not caught. *)
Definition handle_asynchronous (err : Aiohttp.exception) (request_url : string)
  : result json :=
  if Aiohttp.is_ClientConnectorError (Aiohttp.class err) then
    ret (_asynchronous_exception_handling err request_url 777
           "CLIENT CONNECTION ERROR")
  else if Aiohttp.is_ClientResponseError (Aiohttp.class err) then
    ret (_asynchronous_exception_handling err request_url 777
           "CLIENT RESPONSE ERROR")
  else if Aiohttp.is_ClientPayloadError (Aiohttp.class err) then
    ret (_asynchronous_exception_handling err request_url 777
           "CLIENT PAYLOAD ERROR")
  else if Aiohttp.is_InvalidURL (Aiohttp.class err) then
    ret (_asynchronous_exception_handling err request_url 777
           "INVALID URL ERROR")
  else raise (ClientError (Aiohttp.message err)).

(** One task of [_asynchronous_response], run on its own: [session_get]
    is what the [aiohttp] session does with the URL. *)
Definition _asynchronous_response (session_get : string -> Aiohttp.attempt)
  (request_url : string) : M json :=
  fun self =>
    let self := set_last_request (JStr "") "" self in
    match session_get request_url with
    | Aiohttp.Failed err => (handle_asynchronous err request_url, self)
    | Aiohttp.Returned response =>
        if Aiohttp.ok response then
          let self :=
            set_last_request
              (match Aiohttp.date_header response with
               | Some d => JStr d
               | None => JNull
               end)
              (Aiohttp.url response) self in
          match Aiohttp.body response with
          | Aiohttp.Decoded response_result => (ret response_result, self)
          | Aiohttp.WrongContentType msg =>
              (handle_asynchronous
                 {| Aiohttp.class := Aiohttp.ContentTypeError;
                    Aiohttp.message := msg |} request_url, self)
          | Aiohttp.Malformed => (raise InvalidJSON, self)
          end
        else
          (ret (JDict [("status", JInt (Aiohttp.status response));
                       ("title", JStr (Aiohttp.reason response));
                       ("url", JStr (Aiohttp.url response));
                       ("detail",
                        JStr (aiohttp_handler_exception
                                (Aiohttp.status response)))]), self)
    end.

End Provider.

Import Provider.

(* ================================================================== *)
(** * Vocabulary of the statements, and concrete services *)
(* ================================================================== *)

(** The category of a failed attempt, by the first [except] clause that
    matches it. *)
Definition failure_title (c : exception_class) : string :=
  if is_HTTPError c then "HTTP ERROR"
  else if is_ConnectionError c then "CONNECTION ERROR"
  else if is_Timeout c then "TIMEOUT ERROR"
  else "AMBIGUOUS ERROR".

(** An attempt is a failure when no response arrives or the response
    carries a 4xx or 5xx status. *)
Definition is_failure (a : attempt) : bool :=
  match a with
  | Returned r => is_error_status r
  | Failed _ => true
  end.

Definition is_some {A} (o : option A) : bool :=
  match o with Some _ => true | None => false end.

(** An attempt the client can normalize: a response whose body is JSON,
    or an exception that carries its request (and, for an [HTTPError]
    with a response, a JSON body). *)
Definition normalizable (a : attempt) : bool :=
  match a with
  | Returned r => is_some (decoded r)
  | Failed e =>
      is_some (request e) &&
      (if is_HTTPError (class e)
       then match response e with
            | Some r => is_some (decoded r)
            | None => true
            end
       else true)
  end.

(** A printable ASCII character that no integer literal holds: neither a
    digit, nor a sign, nor an underscore (and no whitespace).  Python's
    [int] raises on every string that holds one. *)
Definition is_foreign (a : ascii) : bool :=
  let n := nat_of_ascii a in
  (33 <=? n)%nat && (n <=? 126)%nat && negb (is_digit a) &&
  negb (Ascii.eqb a "+") && negb (Ascii.eqb a "-") && negb (Ascii.eqb a "_").

(** Some character of [s] satisfies [p]. *)
Fixpoint mentions (p : ascii -> bool) (s : string) : bool :=
  match s with
  | EmptyString => false
  | String a r => p a || mentions p r
  end.

(** Ascending order on tokens, as [sorted] leaves them. *)
Definition str_le (a b : string) : Prop := String.leb a b = true.

(** Dates in ascending order of their numeric values. *)
Definition numeric_le (a b : string) : Prop :=
  exists va vb, numeric a = inr va /\ numeric b = inr vb /\ va <= vb.

(** The title of a caught [aiohttp] exception, by the first [except]
    clause that matches it; [None] when no clause does. *)
Definition asynchronous_title (c : Aiohttp.exception_class) : option string :=
  if Aiohttp.is_ClientConnectorError c then Some "CLIENT CONNECTION ERROR"
  else if Aiohttp.is_ClientResponseError c then Some "CLIENT RESPONSE ERROR"
  else if Aiohttp.is_ClientPayloadError c then Some "CLIENT PAYLOAD ERROR"
  else if Aiohttp.is_InvalidURL c then Some "INVALID URL ERROR"
  else None.

(** What a user does with a client between two observations: assign the
    concurrency limit, or send a query. *)
Inductive action : Type :=
| Assign (n : Z)
| Request (query : string).

Definition perform (session_get : list string -> string -> attempt)
  (self : provider) (a : action) : provider :=
  match a with
  | Assign n => snd (maximum_concurrent_number_setter n self)
  | Request query => snd (_response session_get query self)
  end.

Module Scenarios.

Definition client : provider := __init__ "https://modis.ornl.gov" 1.

Definition reply (code : Z) (phrase : string) (u : string) (body : json)
  : Response :=
  {| status_code := code; reason := phrase; url := u;
     date_header := Some "Mon, 21 Mar 2022 10:06:49 GMT";
     text := ""; decoded := Some body |}.

(** No connection can be made. *)
Definition unreachable (_ : list string) (query : string) : attempt :=
  Failed {| class := ConnectionError; request := Some query; response := None |}.

(** An [HTTPError] that carries a request and no response. *)
Definition http_error_no_response (_ : list string) (query : string) : attempt :=
  Failed {| class := HTTPError; request := Some query; response := None |}.

(** Status 500 with the body [{"detail": "bad band"}]. *)
Definition bad_band (_ : list string) (query : string) : attempt :=
  Returned (reply 500 "INTERNAL SERVER ERROR" query
              (JDict [("detail", JStr "bad band")])).

(** Status 500 with the body [{}]. *)
Definition empty_object (_ : list string) (query : string) : attempt :=
  Returned (reply 500 "INTERNAL SERVER ERROR" query (JDict [])).

(** Status 200 with a body that has a member named [status]. *)
Definition under_maintenance (_ : list string) (query : string) : attempt :=
  Returned (reply 200 "OK" query
              (JDict [("status", JStr "maintenance"); ("products", JList [])])).

Definition product_entry (code : string) : json :=
  JDict [("product", JStr code); ("description", JStr "");
         ("frequency", JStr ""); ("resolution_meters", JInt 250)].

Definition date_entry (d : string) : json :=
  JDict [("calendar_date", JStr ""); ("modis_date", JStr d)].

(** The catalog lists Daymet first; every product has the same dates. *)
Definition daymet_first (history : list string) (query : string) : attempt :=
  match history with
  | [] => Returned (reply 200 "OK" query
                      (JDict [("products", JList [product_entry "Daymet";
                                                  product_entry "MOD13Q1"])]))
  | _ => Returned (reply 200 "OK" query
                     (JDict [("dates", JList [date_entry "A2020337"])]))
  end.

(** The catalog lists first a product that the enumeration does not
    know. *)
Definition unknown_first (history : list string) (query : string) : attempt :=
  match history with
  | [] => Returned (reply 200 "OK" query
                      (JDict [("products", JList [product_entry "MOD99Z9";
                                                  product_entry "MOD13Q1"])]))
  | _ => Returned (reply 200 "OK" query
                     (JDict [("dates", JList [date_entry "A2020337"])]))
  end.

(** The catalog lists MOD13Q1 first. *)
Definition mod13q1_first (history : list string) (query : string) : attempt :=
  match history with
  | [] => Returned (reply 200 "OK" query
                      (JDict [("products", JList [product_entry "MOD13Q1";
                                                  product_entry "MOD11A2"])]))
  | _ => Returned (reply 200 "OK" query
                     (JDict [("dates", JList [date_entry "A2020337"])]))
  end.

(** Three dates, sent out of order; a subset echoes its query. *)
Definition three_dates (history : list string) (query : string) : attempt :=
  match history with
  | [] => Returned (reply 200 "OK" query
                      (JDict [("dates", JList [date_entry "A2020345";
                                               date_entry "A2020330";
                                               date_entry "A2020337"])]))
  | _ => Returned (reply 200 "OK" query (JDict [("subset", JStr query)]))
  end.

(** A response without a [Date] header. *)
Definition no_date_header (_ : list string) (query : string) : attempt :=
  Returned {| status_code := 200; reason := "OK"; url := query;
              date_header := None; text := ""; decoded := Some (JDict []) |}.

(** Status 200 with a body that is not JSON. *)
Definition not_json (_ : list string) (query : string) : attempt :=
  Returned {| status_code := 200; reason := "OK"; url := query;
              date_header := None; text := "<html></html>"; decoded := None |}.

(** The URL has no scheme: the exception has no request attached. *)
Definition no_request (_ : list string) (_ : string) : attempt :=
  Failed {| class := MissingSchema; request := None; response := None |}.

(** An empty date set; a subset echoes its query. *)
Definition no_dates (history : list string) (query : string) : attempt :=
  match history with
  | [] => Returned (reply 200 "OK" query (JDict [("dates", JList [])]))
  | _ => Returned (reply 200 "OK" query (JDict [("subset", JStr query)]))
  end.

(** Three date entries, the second without [modis_date]. *)
Definition date_without_token (history : list string) (query : string)
  : attempt :=
  match history with
  | [] => Returned (reply 200 "OK" query
                      (JDict [("dates",
                               JList [date_entry "A2020345";
                                      JDict [("calendar_date", JStr "2020-11-25")];
                                      date_entry "A2020337"])]))
  | _ => Returned (reply 200 "OK" query (JDict [("subset", JStr query)]))
  end.

Definition ndvi : Bands.t := Bands.Band "250m_16_days_NDVI".

Definition three_dates_payload : json :=
  JDict [("dates", JList [date_entry "A2020345"; date_entry "A2020330";
                          date_entry "A2020337"])].

(** The [aiohttp] session gets status 503 for every URL. *)
Definition unavailable (request_url : string) : Aiohttp.attempt :=
  Aiohttp.Returned
    {| Aiohttp.status := 503; Aiohttp.reason := "Service Unavailable";
       Aiohttp.url := request_url; Aiohttp.date_header := Some "Mon";
       Aiohttp.body := Aiohttp.Decoded (JDict [("detail", JStr "down")]) |}.

(** The [aiohttp] session cannot connect. *)
Definition cannot_connect (_ : string) : Aiohttp.attempt :=
  Aiohttp.Failed {| Aiohttp.class := Aiohttp.ClientConnectorError;
                    Aiohttp.message := "Cannot connect to host" |}.


(** The catalog lists no product. *)
Definition empty_catalog (_ : list string) (query : string) : attempt :=
  Returned (reply 200 "OK" query (JDict [("products", JList [])])).

End Scenarios.

(* ================================================================== *)
(** * Properties of the Python primitives *)
(* ================================================================== *)

Ltac ascii_cases a :=
  destruct a as [[|] [|] [|] [|] [|] [|] [|] [|]]; try discriminate; try reflexivity.

Lemma digit_not_A (a : ascii) : is_digit a = true -> Ascii.eqb a "A" = false.
Proof. ascii_cases a. Qed.

Lemma digit_not_space (a : ascii) : is_digit a = true -> is_space a = false.
Proof. ascii_cases a. Qed.

Lemma digit_parses (a : ascii) (u : uint) :
  is_digit a = true -> exists u', uint_of_char a (Some u) = Some u'.
Proof. ascii_cases a; intros _; eexists; reflexivity. Qed.

Lemma all_digits_remove_A (ds : string) :
  all_digits ds = true -> remove_char "A" ds = ds.
Proof.
  induction ds as [|a r IH]; simpl; [reflexivity|].
  intros H. apply andb_prop in H. destruct H as [Ha Hr].
  rewrite (digit_not_A a Ha), (IH Hr). reflexivity.
Qed.

Lemma all_digits_rstrip (ds : string) : all_digits ds = true -> rstrip ds = ds.
Proof.
  induction ds as [|a r IH]; simpl; [reflexivity|].
  intros H. apply andb_prop in H. destruct H as [Ha Hr].
  rewrite (IH Hr), (digit_not_space a Ha). destruct r; reflexivity.
Qed.

Lemma all_digits_strip (ds : string) : all_digits ds = true -> strip ds = ds.
Proof.
  intros H. unfold strip.
  assert (L : lstrip ds = ds).
  { destruct ds as [|a r]; [reflexivity|]. simpl in *.
    apply andb_prop in H. destruct H as [Ha _].
    rewrite (digit_not_space a Ha). reflexivity. }
  rewrite L. apply all_digits_rstrip. exact H.
Qed.

Lemma all_digits_parse (ds : string) :
  all_digits ds = true -> exists u, NilEmpty.uint_of_string ds = Some u.
Proof.
  induction ds as [|a r IH]; simpl.
  - intros _. exists Nil. reflexivity.
  - intros H. apply andb_prop in H. destruct H as [Ha Hr].
    destruct (IH Hr) as [u Hu]. rewrite Hu. apply digit_parses. exact Ha.
Qed.

(** [int] on a non-empty string of digits is the value of the digits. *)
Lemma int_digits (a : ascii) (r : string) :
  all_digits (String a r) = true ->
  exists u, NilZero.uint_of_string (String a r) = Some u /\
            int (String a r) = inr (Z.of_uint u).
Proof.
  intros H. destruct (all_digits_parse _ H) as [u Hu].
  exists u. split; [exact Hu|].
  unfold int. rewrite (all_digits_strip _ H).
  simpl in H. apply andb_prop in H. destruct H as [Ha _].
  change (NilEmpty.uint_of_string (String a r) = Some u) in Hu.
  assert (E : NilZero.uint_of_string (String a r) = Some u) by exact Hu.
  revert E. ascii_cases a; intros E; rewrite E; reflexivity.
Qed.

(** [int] raises nothing but the malformed-literal error. *)
Lemma int_raises (s : string) (e : exn) :
  int s = inl e -> e = IntLiteral s.
Proof.
  unfold int.
  destruct (strip s) as [|a r].
  - simpl. intros H. inversion H. reflexivity.
  - assert (P : forall (neg : bool) (body : string),
        match NilZero.uint_of_string body with
        | Some d => inr (if neg then - Z.of_uint d else Z.of_uint d)
        | None => inl (IntLiteral s)
        end = (inl e : result Z) -> e = IntLiteral s).
    { intros neg body. destruct (NilZero.uint_of_string body); intros H;
        inversion H; reflexivity. }
    ascii_cases a; first [apply (P false) | apply (P true)].
Qed.

Lemma traverse_raises {A B} (f : A -> result B) (l : list A) (e : exn) :
  traverse f l = inl e -> exists x, In x l /\ f x = inl e.
Proof.
  induction l as [|x r IH]; simpl; [discriminate|].
  destruct (f x) as [e'|y] eqn:Fx; simpl.
  - intros H. inversion H. subst. exists x. auto.
  - destruct (traverse f r) as [e'|ys]; simpl; [|discriminate].
    intros H. inversion H. subst. destruct (IH eq_refl) as [x' [Hin Hx]].
    exists x'. auto.
Qed.

Lemma traverse_Forall2 {A B} (f : A -> result B) (l : list A) (ys : list B) :
  traverse f l = inr ys -> Forall2 (fun x y => f x = inr y) l ys.
Proof.
  revert ys. induction l as [|x r IH]; simpl; intros ys H.
  - inversion H. constructor.
  - destruct (f x) as [e|y] eqn:Fx; simpl in H; [discriminate|].
    destruct (traverse f r) as [e|ys'] eqn:T; simpl in H; [discriminate|].
    inversion H. subst. constructor; auto.
Qed.

Lemma traverse_total {A B} (f : A -> result B) (l : list A) :
  Forall (fun x => exists y, f x = inr y) l -> exists ys, traverse f l = inr ys.
Proof.
  induction 1 as [|x r [y Hy] _ [ys Hys]]; simpl.
  - eexists; reflexivity.
  - rewrite Hy, Hys. eexists; reflexivity.
Qed.

Lemma min_from_spec {A} (key : A -> Z) (l : list A) (best : A) :
  let m := min_from key best l in
  (m = best \/ In m l) /\ key m <= key best /\ (forall x, In x l -> key m <= key x).
Proof.
  revert best. induction l as [|x r IH]; intros best; simpl.
  - split; [auto|]. split; [lia|]. intros x [].
  - destruct (key x <? key best) eqn:C.
    + apply Z.ltb_lt in C. destruct (IH x) as [H1 [H2 H3]].
      repeat split.
      * destruct H1 as [->|H1]; auto.
      * lia.
      * intros y [<-|Hy]; auto.
    + apply Z.ltb_ge in C. destruct (IH best) as [H1 [H2 H3]].
      repeat split.
      * destruct H1 as [->|H1]; auto.
      * lia.
      * intros y [<-|Hy]; auto. lia.
Qed.

Lemma min_by_spec {A} (key : A -> Z) (l : list A) :
  l <> [] ->
  exists m, min_by key l = inr m /\ In m l /\ forall x, In x l -> key m <= key x.
Proof.
  destruct l as [|x r]; [congruence|]. intros _.
  exists (min_from key x r). destruct (min_from_spec key r x) as [H1 [H2 H3]].
  split; [reflexivity|]. split.
  - simpl. destruct H1 as [->|H1]; auto.
  - intros y [<-|Hy]; auto.
Qed.

Lemma find_index_In (x : string) (l : list string) :
  In x l -> exists i, find_index x l = Some i /\ nth_error l i = Some x.
Proof.
  induction l as [|y r IH]; simpl; [intros []|].
  intros H. destruct (String.eqb y x) eqn:E.
  - apply String.eqb_eq in E. subst. exists O. auto.
  - destruct H as [->|H]; [rewrite String.eqb_refl in E; discriminate|].
    destruct (IH H) as [i [Hi Hn]]. rewrite Hi. exists (S i). auto.
Qed.

(** [l[i:j]] holds the elements at the positions [i], ..., [j - 1]. *)
Lemma slice_nth_error {A} (i j k : nat) (l : list A) :
  nth_error (slice i j l) k =
  if (k <? j - i)%nat then nth_error l (i + k) else None.
Proof.
  unfold slice. destruct (k <? j - i)%nat eqn:C.
  - apply Nat.ltb_lt in C. rewrite nth_error_firstn.
    assert (E : (k <? j - i)%nat = true) by (apply Nat.ltb_lt; exact C).
    rewrite E. apply nth_error_skipn.
  - apply Nat.ltb_ge in C. apply nth_error_None.
    rewrite length_firstn. lia.
Qed.

(* ================================================================== *)
(** * Properties of the date interval resolver *)
(* ================================================================== *)

Lemma composite_date_inv (d : string) :
  is_composite_date d = true ->
  exists a r, d = String "A" (String a r) /\ all_digits (String a r) = true.
Proof.
  destruct d as [|c ds]; [discriminate|].
  ascii_cases c. simpl. intros H. apply andb_prop in H. destruct H as [L D].
  destruct ds as [|a r]; [discriminate|]. exists a, r. auto.
Qed.

Lemma plain_composite_date_inv (d : string) :
  is_plain_composite_date d = true ->
  exists a r, d = String "A" (String a r) /\ all_digits (String a r) = true /\
              a <> "0"%char.
Proof.
  intros H.
  assert (C : is_composite_date d = true).
  { destruct d as [|c ds]; [discriminate|]. revert H. ascii_cases c.
    destruct ds as [|a r]; [discriminate|]. ascii_cases a; auto. }
  destruct (composite_date_inv d C) as [a [r [E D]]]. subst d.
  exists a, r. repeat split; auto.
  intros ->. discriminate.
Qed.

Lemma plain_is_composite (d : string) :
  is_plain_composite_date d = true -> is_composite_date d = true.
Proof.
  intros H. destruct (plain_composite_date_inv d H) as [a [r [-> [D N]]]].
  revert H N. ascii_cases a; auto.
Qed.

(** A composite date has a numeric value. *)
Lemma composite_numeric (d : string) :
  is_composite_date d = true -> exists v, numeric d = inr v.
Proof.
  intros H. destruct (composite_date_inv d H) as [a [r [-> D]]].
  unfold numeric.
  change (remove_char "A" (String "A" (String a r)))
    with (remove_char "A" (String a r)).
  rewrite (all_digits_remove_A _ D).
  destruct (int_digits a r D) as [u [_ E]]. eauto.
Qed.

Lemma unorm_nonzero_head (a : ascii) (u0 u : uint) :
  a <> "0"%char -> uint_of_char a (Some u0) = Some u -> unorm u = u.
Proof.
  intros N H. apply uint_of_char_spec in H.
  destruct H as [[E _]|H]; [contradiction|].
  repeat (destruct H as [[_ ->]|H]; [reflexivity|]).
  destruct H as [_ ->]. reflexivity.
Qed.

(** A composite date whose year does not start with 0 is rebuilt from
    its numeric value by [f'A{value}']. *)
Lemma plain_roundtrip (d : string) :
  is_plain_composite_date d = true ->
  exists v, numeric d = inr v /\ "A" ++ str v = d.
Proof.
  intros H. destruct (plain_composite_date_inv d H) as [a [r [-> [D N]]]].
  unfold numeric.
  change (remove_char "A" (String "A" (String a r)))
    with (remove_char "A" (String a r)).
  rewrite (all_digits_remove_A _ D).
  destruct (int_digits a r D) as [u [P E]].
  exists (Z.of_uint u). split; [exact E|].
  unfold str. change (Z.of_uint u) with (Z.of_int (Pos u)).
  rewrite DecimalZ.to_of. simpl norm.
  assert (U : unorm u = u).
  { change (NilEmpty.uint_of_string (String a r) = Some u) in P. simpl in P.
    destruct (NilEmpty.uint_of_string r) as [u0|] eqn:R.
    - eapply unorm_nonzero_head; eauto.
    - simpl in P. discriminate. }
  rewrite U. simpl. f_equal. apply NilZero.sus. exact P.
Qed.

Lemma numeric_raises (d : string) (e : exn) (msg : string) :
  numeric d = inl e -> e <> InvalidRange msg.
Proof.
  unfold numeric. intros H. apply int_raises in H. subst. discriminate.
Qed.

Lemma closest_raises (items : list string) (pivot : string) (e : exn)
  (msg : string) :
  _find_closest_composite_date items pivot = inl e -> e <> InvalidRange msg.
Proof.
  unfold _find_closest_composite_date.
  destruct (numeric pivot) as [e1|p] eqn:P; simpl.
  - intros H. inversion H. subst. eapply numeric_raises; eauto.
  - destruct (traverse numeric items) as [e2|vs] eqn:T; simpl.
    + intros H. inversion H. subst.
      destruct (traverse_raises _ _ _ T) as [x [_ Hx]].
      eapply numeric_raises; eauto.
    + destruct vs as [|v vs]; simpl; intros H; inversion H. discriminate.
Qed.

(** The closest date of a non-empty list of plain composite dates. *)
Lemma closest_spec (items : list string) (pivot : string) (p : Z) :
  items <> [] ->
  Forall (fun d => is_plain_composite_date d = true) items ->
  numeric pivot = inr p ->
  exists c, _find_closest_composite_date items pivot = inr c /\
            In c items /\ (In pivot items -> c = pivot).
Proof.
  intros NE Hall P.
  destruct (traverse_total numeric items) as [vs T].
  { eapply Forall_impl; [|exact Hall]. intros d Hd.
    destruct (plain_roundtrip d Hd) as [v [Hv _]]. eauto. }
  pose proof (traverse_Forall2 _ _ _ T) as F.
  assert (NEv : vs <> []).
  { intros ->. inversion F. subst. congruence. }
  destruct (min_by_spec (fun x => Z.abs (x - p)) vs NEv) as [m [Hm [Min Hle]]].
  unfold _find_closest_composite_date. rewrite P, T. simpl. rewrite Hm. simpl.
  exists ("A" ++ str m). split; [reflexivity|].
  assert (Back : forall v, In v vs -> exists d, In d items /\ numeric d = inr v).
  { clear - F. induction F as [|d v ds vs' H _ IH]; intros w; [intros []|].
    intros [<-|Hw]; [exists d; simpl; auto|].
    destruct (IH w Hw) as [d' [Hin Hd']]. exists d'. simpl. auto. }
  assert (Fwd : forall d, In d items -> exists v, In v vs /\ numeric d = inr v).
  { clear - F. induction F as [|d v ds vs' H _ IH]; intros w; [intros []|].
    intros [<-|Hw]; [exists v; simpl; auto|].
    destruct (IH w Hw) as [v' [Hin Hv']]. exists v'. simpl. auto. }
  assert (Canon : forall d v, In d items -> numeric d = inr v -> "A" ++ str v = d).
  { intros d v Hin Hv. rewrite Forall_forall in Hall.
    destruct (plain_roundtrip d (Hall d Hin)) as [v' [Hv' R]].
    rewrite Hv in Hv'. congruence. }
  destruct (Back m Min) as [d [Hin Hd]].
  split.
  - rewrite (Canon d m Hin Hd). exact Hin.
  - intros Hp. destruct (Fwd pivot Hp) as [v [Hv Ev]].
    rewrite P in Ev. inversion Ev. subst v.
    pose proof (Hle p Hv) as L. simpl in L.
    replace (p - p) with 0 in L by lia. simpl in L.
    assert (m = p) by lia. subst m. apply Canon; assumption.
Qed.

(** C4.  [compute_date_interval] raises the invalid-range error exactly
    when the numeric value of the raw start date exceeds that of the raw
    end date.  The test is made on the raw arguments, before any date is
    snapped: it holds whatever the date list is. *)
Theorem invalid_range_iff (all_dates : list string) (start_date end_date : string)
  (s e : Z) :
  numeric start_date = inr s ->
  numeric end_date = inr e ->
  (exists msg,
      compute_date_interval all_dates start_date end_date = inl (InvalidRange msg))
  <-> s > e.
Proof.
  intros Hs He. unfold compute_date_interval. rewrite Hs, He. simpl.
  destruct (s - e >? 0) eqn:C.
  - apply Z.gtb_lt in C. split; [lia|]. intros _. eexists. reflexivity.
  - assert (Hse : s <= e).
    { destruct (Z.gtb_spec (s - e) 0); [discriminate|lia]. }
    split; [|lia]. intros [msg H]. exfalso.
    destruct (_find_closest_composite_date all_dates start_date) as [e1|sc] eqn:S1;
      simpl in H.
    { inversion H. subst. eapply closest_raises; eauto. }
    destruct (_find_closest_composite_date all_dates end_date) as [e2|ec] eqn:S2;
      simpl in H.
    { inversion H. subst. eapply closest_raises; eauto. }
    unfold index in H.
    destruct (find_index sc all_dates); simpl in H; [|discriminate].
    destruct (find_index ec all_dates); simpl in H; discriminate.
Qed.

Lemma invalid_range_iff_witness :
  (exists msg,
      compute_date_interval ["A2020330"; "A2020337"] "A2020340" "A2020330"
      = inl (InvalidRange msg))
  <-> 2020340 > 2020330.
Proof.
  apply (invalid_range_iff ["A2020330"; "A2020337"] "A2020340" "A2020330");
    reflexivity.
Defined.

Example invalid_range_scenario :
  compute_date_interval ["A2020330"; "A2020337"; "A2020345"] "A2020340" "A2020330"
  = inl (InvalidRange "End date A2020340 is not greater than start date A2020340.").
Proof. vm_compute. reflexivity. Qed.

Example interval_scenario :
  compute_date_interval ["A2020330"; "A2020337"; "A2020345"] "A2020331" "A2020340"
  = inr ["A2020330"; "A2020337"].
Proof. vm_compute. reflexivity. Qed.

(** C5, as the code has it.  For a non-empty list of composite dates
    whose years do not start with 0 and raw dates with
    [numeric start <= numeric end], the interval is the slice of the list
    from the first position of the date closest to [start] up to and
    including the first position of the date closest to [end]; and the
    interval of ["A2020331"], ["A2020340"] in the three dates
    ["A2020330"], ["A2020337"], ["A2020345"] is the first two. *)
Theorem interval_is_slice :
  (forall (all_dates : list string) (start_date end_date : string) (s e : Z),
     all_dates <> [] ->
     Forall (fun d => is_plain_composite_date d = true) all_dates ->
     numeric start_date = inr s ->
     numeric end_date = inr e ->
     s <= e ->
     exists sc ec i j,
       _find_closest_composite_date all_dates start_date = inr sc /\
       _find_closest_composite_date all_dates end_date = inr ec /\
       find_index sc all_dates = Some i /\ nth_error all_dates i = Some sc /\
       find_index ec all_dates = Some j /\ nth_error all_dates j = Some ec /\
       compute_date_interval all_dates start_date end_date
       = inr (slice i (j + 1) all_dates)) /\
  compute_date_interval ["A2020330"; "A2020337"; "A2020345"] "A2020331" "A2020340"
  = inr ["A2020330"; "A2020337"].
Proof.
  split; [|vm_compute; reflexivity].
  intros all_dates start_date end_date s e NE Hall Hs He Hle.
  destruct (closest_spec all_dates start_date s NE Hall Hs) as [sc [S1 [I1 _]]].
  destruct (closest_spec all_dates end_date e NE Hall He) as [ec [S2 [I2 _]]].
  destruct (find_index_In sc all_dates I1) as [i [Fi Ni]].
  destruct (find_index_In ec all_dates I2) as [j [Fj Nj]].
  exists sc, ec, i, j. repeat split; auto.
  unfold compute_date_interval. rewrite Hs, He. simpl.
  assert (C : (s - e >? 0) = false).
  { destruct (Z.gtb_spec (s - e) 0); [lia|reflexivity]. }
  rewrite C, S1, S2. simpl. unfold index. rewrite Fi, Fj. reflexivity.
Qed.

Lemma interval_is_slice_witness :
  exists sc ec i j,
    _find_closest_composite_date ["A2020330"; "A2020337"; "A2020345"] "A2020331"
    = inr sc /\
    _find_closest_composite_date ["A2020330"; "A2020337"; "A2020345"] "A2020340"
    = inr ec /\
    find_index sc ["A2020330"; "A2020337"; "A2020345"] = Some i /\
    nth_error ["A2020330"; "A2020337"; "A2020345"] i = Some sc /\
    find_index ec ["A2020330"; "A2020337"; "A2020345"] = Some j /\
    nth_error ["A2020330"; "A2020337"; "A2020345"] j = Some ec /\
    compute_date_interval ["A2020330"; "A2020337"; "A2020345"] "A2020331" "A2020340"
    = inr (slice i (j + 1) ["A2020330"; "A2020337"; "A2020345"]).
Proof.
  apply (proj1 interval_is_slice ["A2020330"; "A2020337"; "A2020345"]
           "A2020331" "A2020340" 2020331 2020340).
  - discriminate.
  - repeat constructor.
  - reflexivity.
  - reflexivity.
  - lia.
Defined.

(** On the empty date list [min] has nothing to choose from: the
    interval is not a slice, the call raises. *)
Lemma interval_of_no_dates :
  numeric "A2020331" = inr 2020331 /\ numeric "A2020340" = inr 2020340 /\
  2020331 <= 2020340 /\
  compute_date_interval [] "A2020331" "A2020340" = inl MinEmpty.
Proof. repeat split; try reflexivity. lia. Qed.

(** Where the rendering of the closest date gives back the token it was
    read from (composite dates whose years do not start with 0, and a
    composite pivot), the closest date is an element of the list, and it
    is the pivot when the pivot is in the list. *)
Theorem closest_in_list (items : list string) (pivot : string) :
  items <> [] ->
  Forall (fun d => is_plain_composite_date d = true) items ->
  is_composite_date pivot = true ->
  exists c, _find_closest_composite_date items pivot = inr c /\
            In c items /\ (In pivot items -> c = pivot).
Proof.
  intros NE Hall Hp. destruct (composite_numeric pivot Hp) as [p P].
  exact (closest_spec items pivot p NE Hall P).
Qed.

Lemma closest_in_list_witness :
  exists c, _find_closest_composite_date ["A2020330"; "A2020337"] "A2020337" = inr c /\
            In c ["A2020330"; "A2020337"] /\
            (In "A2020337" ["A2020330"; "A2020337"] -> c = "A2020337").
Proof.
  apply (closest_in_list ["A2020330"; "A2020337"] "A2020337").
  - discriminate.
  - repeat constructor.
  - reflexivity.
Defined.

(** C6.  The function is documented to return the date of the list that
    is closest to the pivot, but it returns [f'A{closest}'], the closest
    value rendered from an integer, and the rendering drops leading
    zeros.  On the one-element list ["A0999001"] with that same date as
    pivot (a composite date: 'A' and seven digits, element of the list)
    it returns ["A999001"], which is neither an element of the list nor
    the pivot; the interval resolver, which looks the result up in the
    list, then fails in [list.index]. *)
Theorem closest_drops_leading_zero :
  is_composite_date "A0999001" = true /\
  In "A0999001" ["A0999001"] /\
  _find_closest_composite_date ["A0999001"] "A0999001" = inr "A999001" /\
  ~ In "A999001" ["A0999001"] /\
  "A999001" <> "A0999001" /\
  compute_date_interval ["A0999001"] "A0999001" "A0999001"
  = inl (NotInList "A999001").
Proof.
  repeat split; try reflexivity.
  - simpl. auto.
  - simpl. intros [H|[]]. discriminate.
  - discriminate.
Qed.

(* ================================================================== *)
(** * Properties of the client *)
(* ================================================================== *)

Section ClientProperties.

Variable session_get : list string -> string -> attempt.

Lemma _response_state (query : string) (self : provider) :
  let self' := snd (_response session_get query self) in
  wire self' = (wire self ++ [query])%list /\
  _url self' = _url self /\
  _MAXIMUM_CONCURRENT_NUMBER self' = _MAXIMUM_CONCURRENT_NUMBER self.
Proof.
  unfold _response.
  destruct (session_get (wire self) query) as [r|err]; simpl.
  - destruct (ok r); [destruct (decoded r)|]; simpl; auto.
  - auto.
Qed.

Lemma handle_normalizable (err : exception) :
  normalizable (Failed err) = true -> exists v, handle err = inr v.
Proof.
  unfold normalizable, handle, _error_fault_handling.
  intros H. apply andb_prop in H. destruct H as [Hq Hr].
  destruct (request err) as [u|]; [|discriminate].
  destruct (is_HTTPError (class err)).
  - destruct (response err) as [r|]; [|eexists; reflexivity].
    unfold _response_fault_handling.
    destruct (decoded r) as [body|]; [|discriminate].
    destruct body; eexists; reflexivity.
  - destruct (is_ConnectionError (class err)); [eexists; reflexivity|].
    destruct (is_Timeout (class err)); eexists; reflexivity.
Qed.

(** The client returns on every attempt it can normalize. *)
Lemma _response_returns (query : string) (self : provider) :
  normalizable (session_get (wire self) query) = true ->
  exists v, fst (_response session_get query self) = inr v.
Proof.
  unfold _response.
  destruct (session_get (wire self) query) as [r|err] eqn:A; intros N.
  - simpl in N. destruct (decoded r) as [body|] eqn:D; [|discriminate].
    destruct (ok r) eqn:K; simpl.
    + eexists; reflexivity.
    + apply handle_normalizable. simpl. rewrite D. reflexivity.
  - simpl. apply handle_normalizable. exact N.
Qed.

End ClientProperties.

(** ** The concurrency limit *)

Lemma setter_accepts (n : Z) (self : provider) :
  n <= 10 ->
  maximum_concurrent_number_setter n self = (inr tt, set_maximum n self).
Proof.
  intros H. unfold maximum_concurrent_number_setter.
  destruct (Z.gtb_spec n 10); [lia|reflexivity].
Qed.

(** C8.  Assigning a value above 10 raises at the assignment and leaves
    the object as it was; assigning a value of at most 10 succeeds, and
    the accessor then returns that value. *)
Theorem maximum_concurrent_number_cap (n : Z) (self : provider) :
  (n > 10 ->
   exists msg,
     maximum_concurrent_number_setter n self = (inl (ConcurrencyLimit msg), self)) /\
  (n <= 10 ->
   exists self',
     maximum_concurrent_number_setter n self = (inr tt, self') /\
     maximum_concurrent_number self' = n).
Proof.
  split; intros H.
  - unfold maximum_concurrent_number_setter.
    destruct (Z.gtb_spec n 10); [|lia]. eexists. reflexivity.
  - exists (set_maximum n self). split; [apply setter_accepts; exact H|reflexivity].
Qed.

Lemma maximum_concurrent_number_cap_witness :
  (exists msg,
     maximum_concurrent_number_setter 11 Scenarios.client
     = (inl (ConcurrencyLimit msg), Scenarios.client)) /\
  (exists self',
     maximum_concurrent_number_setter 10 Scenarios.client = (inr tt, self') /\
     maximum_concurrent_number self' = 10).
Proof.
  split.
  - apply (maximum_concurrent_number_cap 11 Scenarios.client). lia.
  - apply (maximum_concurrent_number_cap 10 Scenarios.client). lia.
Defined.

Lemma range_negative_step (stop step : Z) :
  0 <= stop -> step < 0 -> range 0 stop step = inr [].
Proof.
  intros Hs Hn. unfold range.
  destruct (Z.eqb_spec step 0); [lia|].
  destruct (Z.abs_nat (stop - 0)); simpl; [reflexivity|].
  destruct (Z.ltb_spec 0 step); [lia|].
  destruct (Z.ltb_spec stop 0); [lia|reflexivity].
Qed.

(** C10.  The setter has no lower bound: every [n <= 10], zero and
    negative values included, is stored and returned by the accessor.
    With [0] stored the chunk splitting raises; with a negative value it
    produces no chunk at all, whatever the dates are. *)
Theorem setter_has_no_lower_bound (n : Z) (self : provider) :
  n <= 10 ->
  exists self',
    maximum_concurrent_number_setter n self = (inr tt, self') /\
    maximum_concurrent_number self' = n /\
    (n = 0 -> forall dates : list string, chunks self' dates = inl RangeZeroStep) /\
    (n < 0 -> forall dates : list string, chunks self' dates = inr []).
Proof.
  intros H. exists (set_maximum n self).
  split; [apply setter_accepts; exact H|].
  split; [reflexivity|]. split.
  - intros -> dates. reflexivity.
  - intros Hn dates. unfold chunks. simpl.
    rewrite range_negative_step; [reflexivity|lia|exact Hn].
Qed.

Lemma setter_has_no_lower_bound_witness :
  exists self',
    maximum_concurrent_number_setter (-3) Scenarios.client = (inr tt, self') /\
    maximum_concurrent_number self' = -3 /\
    (-3 = 0 -> forall dates : list string, chunks self' dates = inl RangeZeroStep) /\
    (-3 < 0 -> forall dates : list string, chunks self' dates = inr []).
Proof.
  apply (setter_has_no_lower_bound (-3) Scenarios.client). lia.
Defined.

Example chunks_with_zero :
  chunks (set_maximum 0 Scenarios.client) ["A2020330"; "A2020337"]
  = inl RangeZeroStep.
Proof. reflexivity. Qed.

Example chunks_with_three :
  chunks (set_maximum 3 Scenarios.client)
    ["A1"; "A2"; "A3"; "A4"; "A5"; "A6"; "A7"]
  = inr [["A1"; "A2"; "A3"]; ["A4"; "A5"; "A6"]; ["A7"]].
Proof. vm_compute. reflexivity. Qed.

(** ** Normalization of failures *)

(** C1, as the code has it.  An attempt that fails with an exception
    carrying its request and no response is normalized to the mapping with
    the title of its category, the URL of the request, the detail
    ["Exception for <url>"], and the status 777, except for the
    [HTTPError] category, whose status is 400.  The last-request state is
    left blank. *)
Theorem transport_failure_normalized
  (session_get : list string -> string -> attempt)
  (query : string) (self : provider) (err : exception) (u : string) :
  session_get (wire self) query = Failed err ->
  request err = Some u ->
  response err = None ->
  exists self',
    _response session_get query self
    = (inr (JDict [("status", JInt (if is_HTTPError (class err) then 400 else 777));
                   ("title", JStr (failure_title (class err)));
                   ("url", JStr u);
                   ("detail", JStr ("Exception for " ++ u))]), self') /\
    _requests_time self' = JStr "" /\ _requests_url self' = "".
Proof.
  intros A Q R. unfold _response. rewrite A.
  exists (sending query (set_last_request (JStr "") "" self)).
  split; [|split; reflexivity].
  f_equal. unfold handle, failure_title, _error_fault_handling. rewrite Q, R.
  destruct (is_HTTPError (class err)); [reflexivity|].
  destruct (is_ConnectionError (class err)); [reflexivity|].
  destruct (is_Timeout (class err)); reflexivity.
Qed.

Lemma transport_failure_normalized_witness :
  exists self',
    _response Scenarios.unreachable "https://modis.ornl.gov/rst/api/v1/MOD13Q1/dates"
      Scenarios.client
    = (inr (JDict [("status", JInt 777);
                   ("title", JStr "CONNECTION ERROR");
                   ("url", JStr "https://modis.ornl.gov/rst/api/v1/MOD13Q1/dates");
                   ("detail",
                    JStr "Exception for https://modis.ornl.gov/rst/api/v1/MOD13Q1/dates")]),
       self') /\
    _requests_time self' = JStr "" /\ _requests_url self' = "".
Proof.
  apply (transport_failure_normalized Scenarios.unreachable
           "https://modis.ornl.gov/rst/api/v1/MOD13Q1/dates" Scenarios.client
           {| class := ConnectionError;
              request := Some "https://modis.ornl.gov/rst/api/v1/MOD13Q1/dates";
              response := None |}); reflexivity.
Defined.

(** An [HTTPError] without a response has no HTTP status either, and its
    normalized status is 400, not 777. *)
Lemma http_error_without_response_is_400 :
  fst (_response Scenarios.http_error_no_response "https://modis.ornl.gov/x"
         Scenarios.client)
  = inr (JDict [("status", JInt 400);
                ("title", JStr "HTTP ERROR");
                ("url", JStr "https://modis.ornl.gov/x");
                ("detail", JStr "Exception for https://modis.ornl.gov/x")]) /\
  JInt 400 <> JInt 777.
Proof. split; [reflexivity|discriminate]. Qed.

(** [ConnectTimeout] is both a connection error and a timeout; the
    connection clause comes first. *)
Example connect_timeout_title : failure_title ConnectTimeout = "CONNECTION ERROR".
Proof. reflexivity. Qed.

(** C2, as the code has it.  A response with a 4xx or 5xx status and a
    JSON body is normalized to the mapping with its status code, its
    reason phrase, its URL and a detail: the [detail] member of the body
    when the body is an object ([None] when the object has no such
    member); the text of the body without its trailing newlines and its
    double quotes when the body is a bare string; ["something wrong"]
    otherwise. *)
Theorem http_error_normalized
  (session_get : list string -> string -> attempt)
  (query : string) (self : provider) (r : Response) (body : json) :
  session_get (wire self) query = Returned r ->
  is_error_status r = true ->
  decoded r = Some body ->
  exists detail self',
    _response session_get query self
    = (inr (JDict [("status", JInt (status_code r));
                   ("title", JStr (reason r));
                   ("url", JStr (url r));
                   ("detail", detail)]), self') /\
    _requests_url self' = url r /\
    (forall d, body = JDict d ->
               detail = match dict_find "detail" d with
                        | Some x => x
                        | None => JNull
                        end) /\
    (forall s, body = JStr s ->
               detail = JStr (remove_char quote (rstrip_char newline (text r)))) /\
    ((forall d, body <> JDict d) -> (forall s, body <> JStr s) ->
     detail = JStr "something wrong").
Proof.
  intros A E D. unfold _response. rewrite A. unfold ok. rewrite E. simpl.
  unfold handle. simpl. unfold _response_fault_handling. rewrite D.
  destruct body as [|b|n|x|s|l|d];
    do 2 eexists; (split; [reflexivity|]); (split; [reflexivity|]);
    (split; [intros d' Hd|split; [intros s' Hs|intros Hd Hs]]);
    try discriminate; try reflexivity;
    try (inversion Hd; subst; reflexivity);
    try (exfalso; eapply Hd; reflexivity);
    try (exfalso; eapply Hs; reflexivity).
Qed.

Lemma http_error_normalized_witness :
  exists detail self',
    _response Scenarios.bad_band "https://modis.ornl.gov/rst/api/v1/MOD13Q1/subset"
      Scenarios.client
    = (inr (JDict [("status", JInt 500);
                   ("title", JStr "INTERNAL SERVER ERROR");
                   ("url", JStr "https://modis.ornl.gov/rst/api/v1/MOD13Q1/subset");
                   ("detail", detail)]), self') /\
    _requests_url self' = "https://modis.ornl.gov/rst/api/v1/MOD13Q1/subset" /\
    (forall d, JDict [("detail", JStr "bad band")] = JDict d ->
               detail = match dict_find "detail" d with
                        | Some x => x
                        | None => JNull
                        end) /\
    (forall s, JDict [("detail", JStr "bad band")] = JStr s ->
               detail = JStr (remove_char quote (rstrip_char newline ""))) /\
    ((forall d, JDict [("detail", JStr "bad band")] <> JDict d) ->
     (forall s, JDict [("detail", JStr "bad band")] <> JStr s) ->
     detail = JStr "something wrong").
Proof.
  apply (http_error_normalized Scenarios.bad_band
           "https://modis.ornl.gov/rst/api/v1/MOD13Q1/subset" Scenarios.client
           (Scenarios.reply 500 "INTERNAL SERVER ERROR"
              "https://modis.ornl.gov/rst/api/v1/MOD13Q1/subset"
              (JDict [("detail", JStr "bad band")]))
           (JDict [("detail", JStr "bad band")])); reflexivity.
Defined.

Example bad_band_scenario :
  fst (_response Scenarios.bad_band "https://modis.ornl.gov/rst/api/v1/MOD13Q1/subset"
         Scenarios.client)
  = inr (JDict [("status", JInt 500);
                ("title", JStr "INTERNAL SERVER ERROR");
                ("url", JStr "https://modis.ornl.gov/rst/api/v1/MOD13Q1/subset");
                ("detail", JStr "bad band")]).
Proof. reflexivity. Qed.

(** The body [{}] is an object without a [detail] member and is no bare
    string: the detail is [None], not ["something wrong"]. *)
Lemma object_without_detail_gives_none :
  fst (_response Scenarios.empty_object "https://modis.ornl.gov/x" Scenarios.client)
  = inr (JDict [("status", JInt 500);
                ("title", JStr "INTERNAL SERVER ERROR");
                ("url", JStr "https://modis.ornl.gov/x");
                ("detail", JNull)]) /\
  dict_has "detail" [] = false /\
  JNull <> JStr "something wrong".
Proof. split; [reflexivity|]. split; [reflexivity|discriminate]. Qed.

(** A bare string loses its quotes and its trailing newline. *)
Example bare_string_detail :
  _response_fault_handling
    {| status_code := 404; reason := "NOT FOUND"; url := "u"; date_header := None;
       text := String quote ("No data" ++ String quote (String newline ""));
       decoded := Some (JStr "No data") |}
  = inr (JDict [("status", JInt 404); ("title", JStr "NOT FOUND");
                ("url", JStr "u"); ("detail", JStr "No data")]).
Proof. reflexivity. Qed.

(** ** The availability report *)

Lemma upper_char_not_lower (b : ascii) : upper_char b <> "a"%char.
Proof. ascii_cases b. Qed.

Lemma upper_not_Daymet (s : string) : upper s <> "Daymet".
Proof.
  destruct s as [|a [|b r]]; simpl; try discriminate.
  intros H. inversion H. eapply upper_char_not_lower; eauto.
Qed.

Lemma getattr_value (m : Products.t) :
  m <> Products.DAYMET -> Products.getattr (Products.value m) = inr m.
Proof. destruct m; intros H; try reflexivity. congruence. Qed.

(** An upper-cased code that is a product token names a member. *)
Lemma upper_code_member (product : json) (code : string) :
  (c <- py_get "product" product ;; py_upper c) = inr code ->
  mem code all_products = true ->
  exists member,
    Products.getattr code = inr member /\ Products.value member = code.
Proof.
  intros C H. unfold mem, all_products in H. apply existsb_exists in H.
  destruct H as [v [Hin Hv]]. apply String.eqb_eq in Hv. subst v.
  apply in_map_iff in Hin. destruct Hin as [m [Hm _]].
  assert (U : exists s, code = upper s).
  { destruct (py_get "product" product) as [e|c]; simpl in C; [discriminate|].
    destruct c; simpl in C; try discriminate. inversion C. eauto. }
  destruct U as [s U].
  assert (N : m <> Products.DAYMET).
  { intros ->. simpl in Hm. rewrite U in Hm. symmetry in Hm.
    exact (upper_not_Daymet s Hm). }
  exists m. split; [|exact Hm]. rewrite <- Hm. apply getattr_value. exact N.
Qed.

Section AvailabilityReport.

Variable session_get : list string -> string -> attempt.
Variables latitude longitude : float.
Variable reference_date : string.

Lemma product_is_dict (product : json) (code : string) :
  (c <- py_get "product" product ;; py_upper c) = inr code ->
  exists d, product = JDict d.
Proof. destruct product; simpl; try discriminate. eauto. Qed.

(** What one iteration of the loop does with its product. *)
Lemma report_product_spec (product : json) (code : string) (self : provider) :
  (c <- py_get "product" product ;; py_upper c) = inr code ->
  let run := report_product session_get latitude longitude reference_date
               product self in
  (mem code all_products = false ->
   run = (inr (product_report reference_date [] []), self)) /\
  (mem code all_products = true ->
   exists member,
     Products.getattr code = inr member /\ Products.value member = code /\
     snd run = snd (dates session_get member latitude longitude self) /\
     (forall report, fst run = inr report ->
        report = product_report reference_date [product] [] \/
        exists entry extra,
          report = product_report reference_date [] [entry] /\
          py_merge product extra = inr entry) /\
     (forall pd,
        fst (dates session_get member latitude longitude self) = inr (JDict pd) ->
        dict_has "status" pd = true \/
        (exists ds, modis_dates (JDict pd) = inr ds) ->
        exists report, fst run = inr report)).
Proof.
  intros C run. subst run. unfold report_product, bindM, lift.
  rewrite C. split; intros Hm; rewrite Hm.
  - reflexivity.
  - destruct (upper_code_member product code C Hm) as [member [G V]].
    destruct (product_is_dict product code C) as [d ->].
    exists member. rewrite G. repeat split; auto.
    + destruct (dates session_get member latitude longitude self) as [[e|pd] s2];
        simpl; [reflexivity|].
      destruct (py_in "status" pd) as [e|[|]]; simpl; try reflexivity.
      destruct (modis_dates pd) as [e|ds]; simpl; [reflexivity|].
      destruct (str_in reference_date ds); reflexivity.
    + intros report.
      destruct (dates session_get member latitude longitude self) as [[e|pd] s2];
        simpl; [discriminate|].
      destruct (py_in "status" pd) as [e|[|]]; simpl; try discriminate.
      * destruct pd as [| | | | | |pd']; simpl; try discriminate.
        intros H. inversion H. right.
        exists (JDict (dict_update d pd')), (JDict pd'). auto.
      * destruct (modis_dates pd) as [e|ds]; simpl; [discriminate|].
        destruct (str_in reference_date ds); simpl.
        -- intros H. inversion H. left. reflexivity.
        -- intros H. inversion H. right. eexists.
           eexists (JDict [("status", JInt 777);
                          ("title", JStr "NO DATA AVAILABLE");
                          ("url", JStr (_requests_url s2));
                          ("detail", JStr _)]).
           split; reflexivity.
    + intros pd.
      destruct (dates session_get member latitude longitude self) as [[e|pd'] s2];
        simpl; [discriminate|].
      intros E. inversion E. subst pd'. simpl.
      intros [S|[ds M]].
      * rewrite S. simpl. eexists; reflexivity.
      * destruct (dict_has "status" pd); simpl; [eexists; reflexivity|].
        rewrite M. simpl.
        destruct (str_in reference_date ds); simpl; eexists; reflexivity.
Qed.

(** C3, as the code has it.  When the products call succeeds with a
    non-empty list, only the first product is processed, and the other
    products of the list play no part.  If the first entry is not a
    mapping whose product code is a string, the call raises
    [AttributeError] and nothing more is queried.  If it is, and the code
    is ASCII text: when the upper-cased code is not a product token, the
    report is returned with both lists empty and nothing more is
    queried; when it is, the dates of that one product are queried, and
    a returned report holds exactly one entry, the first product
    (available) or the first product extended with an error (not
    available). *)
Theorem report_covers_first_product_only
  (self self1 : provider) (products_payload first : json) (rest : list json) :
  products session_get Sensors.ALL Tools.ALL self = (inr products_payload, self1) ->
  py_in "status" products_payload = inr false ->
  (slot <- py_get "products" products_payload ;; py_iter slot) = inr (first :: rest) ->
  let run := available_products_by_date session_get latitude longitude
               reference_date self in
  ((forall raw, py_get "product" first <> inr (JStr raw)) ->
   exists what, run = (inl (AttributeError what), self1)) /\
  (forall raw,
     py_get "product" first = inr (JStr raw) ->
     is_ascii raw = true ->
     let code := upper raw in
     (mem code all_products = false ->
      run = (inr (product_report reference_date [] []), self1)) /\
     (mem code all_products = true ->
      exists member,
        Products.getattr code = inr member /\ Products.value member = code /\
        wire (snd run)
        = (wire self1 ++ [dates_query self1 member latitude longitude])%list /\
        (forall report, fst run = inr report ->
           report = product_report reference_date [first] [] \/
           exists entry extra,
             report = product_report reference_date [] [entry] /\
             py_merge first extra = inr entry) /\
        (forall pd,
           fst (dates session_get member latitude longitude self1) = inr (JDict pd) ->
           dict_has "status" pd = true \/
           (exists ds, modis_dates (JDict pd) = inr ds) ->
           exists report, fst run = inr report))).
Proof.
  intros P S L run.
  assert (E : run = report_product session_get latitude longitude reference_date
                      first self1).
  { subst run. unfold available_products_by_date, bindM, lift.
    rewrite P, S, L. reflexivity. }
  rewrite E. clear E run. split.
  - intros N. unfold report_product, bindM, lift.
    destruct first as [| | | | | |d]; simpl; try (eexists; reflexivity).
    destruct (match dict_find "product" d with Some x => x | None => JNull end)
      as [| | | |raw| |] eqn:G; simpl; try (eexists; reflexivity).
    exfalso. apply (N raw). simpl. rewrite G. reflexivity.
  - intros raw G _ code.
    assert (C : (c <- py_get "product" first ;; py_upper c) = inr code).
    { rewrite G. reflexivity. }
    destruct (report_product_spec first code self1 C) as [A B].
    split; [exact A|]. intros Hm.
    destruct (B Hm) as [member [V [W [St [R T]]]]].
    exists member. repeat split; auto.
    rewrite St. unfold dates.
    apply (_response_state session_get
             (dates_query self1 member latitude longitude) self1).
Qed.

End AvailabilityReport.

Lemma report_covers_first_product_only_witness :
  let run := available_products_by_date Scenarios.mod13q1_first "44.0" "10.3"
               "A2020337" Scenarios.client in
  exists member,
    Products.getattr "MOD13Q1" = inr member /\ Products.value member = "MOD13Q1" /\
    wire (snd run)
    = (wire (snd (products Scenarios.mod13q1_first Sensors.ALL Tools.ALL
                    Scenarios.client))
       ++ [dates_query (snd (products Scenarios.mod13q1_first Sensors.ALL Tools.ALL
                               Scenarios.client)) member "44.0" "10.3"])%list /\
    (forall report, fst run = inr report ->
       report = product_report "A2020337" [Scenarios.product_entry "MOD13Q1"] [] \/
       exists entry extra,
         report = product_report "A2020337" [] [entry] /\
         py_merge (Scenarios.product_entry "MOD13Q1") extra = inr entry) /\
    (forall pd,
       fst (dates Scenarios.mod13q1_first member "44.0" "10.3"
              (snd (products Scenarios.mod13q1_first Sensors.ALL Tools.ALL
                      Scenarios.client))) = inr (JDict pd) ->
       dict_has "status" pd = true \/
       (exists ds, modis_dates (JDict pd) = inr ds) ->
       exists report, fst run = inr report).
Proof.
  refine (proj2 (proj2 (report_covers_first_product_only Scenarios.mod13q1_first
                          "44.0" "10.3" "A2020337" Scenarios.client
                          (snd (products Scenarios.mod13q1_first Sensors.ALL
                                  Tools.ALL Scenarios.client))
                          (JDict [("products",
                                   JList [Scenarios.product_entry "MOD13Q1";
                                          Scenarios.product_entry "MOD11A2"])])
                          (Scenarios.product_entry "MOD13Q1")
                          [Scenarios.product_entry "MOD11A2"]
                          eq_refl eq_refl eq_refl)
                   "MOD13Q1" eq_refl eq_refl) eq_refl).
Defined.

(** The first product of the list is not a member of the enumeration:
    the report is returned with both lists empty, the first product is in
    neither, and no dates are queried. *)
Lemma first_product_not_classified :
  available_products_by_date Scenarios.unknown_first "44.0" "10.3" "A2020337"
    Scenarios.client
  = (inr (product_report "A2020337" [] []),
     snd (products Scenarios.unknown_first Sensors.ALL Tools.ALL Scenarios.client)) /\
  wire (snd (available_products_by_date Scenarios.unknown_first "44.0" "10.3"
               "A2020337" Scenarios.client))
  = ["https://modis.ornl.gov/rst/api/v1/products?sensor=&tool="].
Proof. split; reflexivity. Qed.

(** The same happens for Daymet: its upper-cased code is ["DAYMET"], the
    token of the enumeration is ["Daymet"]. *)
Example daymet_not_classified :
  fst (available_products_by_date Scenarios.daymet_first "44.0" "10.3" "A2020337"
         Scenarios.client)
  = inr (product_report "A2020337" [] []) /\
  mem "DAYMET" all_products = false /\ mem "Daymet" all_products = true.
Proof. repeat split. Qed.

Example first_product_available :
  fst (available_products_by_date Scenarios.mod13q1_first "44.0" "10.3" "A2020337"
         Scenarios.client)
  = inr (product_report "A2020337" [Scenarios.product_entry "MOD13Q1"] []).
Proof. reflexivity. Qed.

(** ** The discriminator *)

Lemma report_product_returns_report
  (session_get : list string -> string -> attempt) (latitude longitude : float)
  (reference_date : string) (product : json) (self : provider) (v : json) :
  fst (report_product session_get latitude longitude reference_date product self)
  = inr v ->
  exists available not_available,
    v = product_report reference_date available not_available.
Proof.
  destruct (c <- py_get "product" product ;; py_upper c) as [e|code] eqn:C.
  - unfold report_product, bindM, lift. rewrite C. discriminate.
  - destruct (report_product_spec session_get latitude longitude reference_date
                product code self C) as [A B].
    destruct (mem code all_products) eqn:Hm.
    + destruct (B eq_refl) as [member [_ [_ [_ [R _]]]]].
      intros H. destruct (R v H) as [->|[entry [extra [-> _]]]]; eauto.
    + rewrite (A eq_refl). simpl. intros H. inversion H. eauto.
Qed.

(** C9, as the code has it.  For an attempt that the client can
    normalize, and a service whose success bodies have no [status]
    member, the result of the single-request client has a [status] key
    exactly when the attempt failed.  The availability report returns the
    error mapping of a failed products call unchanged, and a report
    returned for a non-empty product list has no [status] key. *)
Theorem status_key_discriminates
  (session_get : list string -> string -> attempt) (self : provider) :
  (forall query,
     normalizable (session_get (wire self) query) = true ->
     (forall r body,
        session_get (wire self) query = Returned r -> ok r = true ->
        decoded r = Some body -> py_in "status" body = inr false) ->
     exists v,
       fst (_response session_get query self) = inr v /\
       (py_in "status" v = inr true <->
        is_failure (session_get (wire self) query) = true)) /\
  (forall latitude longitude reference_date payload self1,
     products session_get Sensors.ALL Tools.ALL self = (inr payload, self1) ->
     let run := available_products_by_date session_get latitude longitude
                  reference_date self in
     (py_in "status" payload = inr true -> run = (inr payload, self1)) /\
     (py_in "status" payload = inr false ->
      forall first rest v,
        (slot <- py_get "products" payload ;; py_iter slot) = inr (first :: rest) ->
        fst run = inr v -> py_in "status" v = inr false)).
Proof.
  split.
  - intros query N Hok. unfold _response.
    destruct (session_get (wire self) query) as [r|err] eqn:A.
    + simpl in N. destruct (decoded r) as [body|] eqn:D; [|discriminate].
      unfold is_failure, ok in *.
      destruct (is_error_status r) eqn:E; simpl.
      * unfold handle. simpl. unfold _response_fault_handling. rewrite D.
        destruct body; eexists; (split; [reflexivity|]); split; reflexivity.
      * exists body. split; [reflexivity|].
        assert (K : negb (is_error_status r) = true) by (rewrite E; reflexivity).
        rewrite (Hok r body eq_refl K D).
        split; discriminate.
    + simpl. simpl in N. apply andb_prop in N. destruct N as [Q R].
      unfold handle, _error_fault_handling.
      destruct (request err) as [u|]; [|discriminate].
      destruct (is_HTTPError (class err)).
      * destruct (response err) as [r|].
        -- unfold _response_fault_handling.
           destruct (decoded r) as [body|]; [|discriminate].
           destruct body; eexists; (split; [reflexivity|]); split; reflexivity.
        -- eexists; (split; [reflexivity|]); split; reflexivity.
      * destruct (is_ConnectionError (class err));
          [eexists; (split; [reflexivity|]); split; reflexivity|].
        destruct (is_Timeout (class err));
          eexists; (split; [reflexivity|]); split; reflexivity.
  - intros latitude longitude reference_date payload self1 P run. subst run.
    unfold available_products_by_date, bindM, lift. rewrite P. split.
    + intros S. rewrite S. reflexivity.
    + intros S first rest v L. rewrite S, L. simpl. intros H.
      destruct (report_product_returns_report _ _ _ _ _ _ _ H) as [a [n ->]].
      reflexivity.
Qed.

Lemma status_key_discriminates_witness :
  (exists v,
     fst (_response Scenarios.three_dates "https://modis.ornl.gov/rst/api/v1/MOD13Q1/dates"
            Scenarios.client) = inr v /\
     (py_in "status" v = inr true <->
      is_failure (Scenarios.three_dates (wire Scenarios.client)
                    "https://modis.ornl.gov/rst/api/v1/MOD13Q1/dates") = true)) /\
  (let run := available_products_by_date Scenarios.mod13q1_first "44.0" "10.3"
                "A2020337" Scenarios.client in
   forall first rest v,
     (slot <- py_get "products"
                (JDict [("products", JList [Scenarios.product_entry "MOD13Q1";
                                            Scenarios.product_entry "MOD11A2"])]) ;;
      py_iter slot) = inr (first :: rest) ->
     fst run = inr v -> py_in "status" v = inr false).
Proof.
  split.
  - apply (proj1 (status_key_discriminates Scenarios.three_dates Scenarios.client)
             "https://modis.ornl.gov/rst/api/v1/MOD13Q1/dates").
    + reflexivity.
    + intros r body H _ D. inversion H. subst r. simpl in D. inversion D.
      reflexivity.
  - refine (proj2 (proj2 (status_key_discriminates Scenarios.mod13q1_first
                            Scenarios.client)
                     "44.0" "10.3" "A2020337"
                     (JDict [("products", JList [Scenarios.product_entry "MOD13Q1";
                                                 Scenarios.product_entry "MOD11A2"])])
                     (snd (products Scenarios.mod13q1_first Sensors.ALL Tools.ALL
                             Scenarios.client))
                     eq_refl) eq_refl).
Defined.

(** A success body passes through unchanged, [status] member included:
    the attempt did not fail, and the result has a [status] key. *)
Lemma success_body_with_status_key :
  fst (products Scenarios.under_maintenance Sensors.ALL Tools.ALL Scenarios.client)
  = inr (JDict [("status", JStr "maintenance"); ("products", JList [])]) /\
  py_in "status" (JDict [("status", JStr "maintenance"); ("products", JList [])])
  = inr true /\
  is_failure (Scenarios.under_maintenance (wire Scenarios.client)
                "https://modis.ornl.gov/rst/api/v1/products?sensor=&tool=") = false.
Proof. repeat split. Qed.

(* ================================================================== *)
(** * Properties of the sequential batch entry point *)
(* ================================================================== *)

Section Sorting.

Context {A : Type} (key : A -> string).

Let by_key (a b : A) : Prop := str_le (key a) (key b).

Lemma not_ltb_le (a b : string) : String.ltb a b = false -> str_le b a.
Proof.
  unfold String.ltb, str_le, String.leb. rewrite (String.compare_antisym b a).
  destruct (String.compare a b); simpl; congruence.
Qed.

Lemma ltb_le (a b : string) : String.ltb a b = true -> str_le a b.
Proof.
  unfold String.ltb, str_le, String.leb.
  destruct (String.compare a b); congruence.
Qed.

Lemma insert_by_perm (x : A) (l : list A) :
  Permutation (insert_by key x l) (x :: l).
Proof.
  induction l as [|y r IH]; simpl; [reflexivity|].
  destruct (String.ltb (key y) (key x)); [|reflexivity].
  rewrite IH. apply perm_swap.
Qed.

Lemma sorted_by_perm (l : list A) : Permutation (sorted_by key l) l.
Proof.
  induction l as [|x r IH]; simpl; [reflexivity|].
  rewrite insert_by_perm. constructor. exact IH.
Qed.

Lemma insert_by_hd (x y : A) (l : list A) :
  by_key y x -> HdRel by_key y l -> HdRel by_key y (insert_by key x l).
Proof.
  intros Hyx H. destruct l as [|z r]; simpl.
  - constructor. exact Hyx.
  - inversion H; subst. destruct (String.ltb (key z) (key x)); constructor; auto.
Qed.

Lemma insert_by_sorted (x : A) (l : list A) :
  Sorted by_key l -> Sorted by_key (insert_by key x l).
Proof.
  induction 1 as [|y r S IH H]; simpl.
  - repeat constructor.
  - destruct (String.ltb (key y) (key x)) eqn:C.
    + constructor; [exact IH|]. apply insert_by_hd; [|exact H].
      apply ltb_le. exact C.
    + constructor; [constructor; assumption|]. constructor.
      apply not_ltb_le. exact C.
Qed.

Lemma sorted_by_sorted (l : list A) : Sorted by_key (sorted_by key l).
Proof.
  induction l as [|x r IH]; simpl; [constructor|].
  apply insert_by_sorted. exact IH.
Qed.

End Sorting.

Lemma Sorted_map_fst {A} (l : list (string * A)) :
  Sorted (fun a b => str_le (fst a) (fst b)) l -> Sorted str_le (map fst l).
Proof.
  induction 1 as [|x r S IH H]; simpl; constructor; auto.
  destruct H; simpl; constructor; auto.
Qed.




(** A returned interval is a slice of the date list. *)
Lemma interval_is_some_slice (all_dates interval : list string)
  (start_date end_date : string) :
  compute_date_interval all_dates start_date end_date = inr interval ->
  exists i j, interval = slice i j all_dates.
Proof.
  unfold compute_date_interval.
  destruct (numeric start_date) as [e|s]; simpl; [discriminate|].
  destruct (numeric end_date) as [e'|e]; simpl; [discriminate|].
  destruct (s - e >? 0); [discriminate|].
  destruct (_find_closest_composite_date all_dates start_date) as [e1|sc];
    simpl; [discriminate|].
  destruct (_find_closest_composite_date all_dates end_date) as [e2|ec];
    simpl; [discriminate|].
  destruct (index sc all_dates) as [e3|i]; simpl; [discriminate|].
  destruct (index ec all_dates) as [e4|j]; simpl; [discriminate|].
  intros H. inversion H. eauto.
Qed.

(** The tokens of a date set, sorted: ascending, and a rearrangement of
    the tokens as the service sent them. *)
Lemma sorted_time_dates_spec (all_dates : json) (time_dates : list string) :
  sorted_time_dates all_dates = inr time_dates ->
  Sorted str_le time_dates /\
  exists tokens,
    modis_dates all_dates = inr (map JStr tokens) /\
    Permutation time_dates tokens.
Proof.
  unfold sorted_time_dates, modis_dates.
  destruct (py_get _DATES_SLOT all_dates) as [e|slot]; simpl; [discriminate|].
  destruct (py_iter slot) as [e|items]; simpl; [discriminate|].
  unfold sorted_by_get.
  destruct (traverse
              (fun x => v <- py_get _MODIS_DATE x ;; s <- as_str v ;; ret (s, x))
              items) as [e|keyed] eqn:T; simpl; [discriminate|].
  pose proof (traverse_Forall2 _ _ _ T) as F.
  assert (K : Forall (fun p => py_get _MODIS_DATE (snd p) = inr (JStr (fst p))) keyed
              /\ traverse (py_get _MODIS_DATE) items = inr (map JStr (map fst keyed))).
  { clear T. induction F as [|x p xs ps H _ [IH1 IH2]]; simpl.
    - split; [constructor|reflexivity].
    - destruct (py_get _MODIS_DATE x) as [e|v] eqn:G; simpl in H; [discriminate|].
      destruct v; simpl in H; try discriminate. inversion H. subst p.
      rewrite IH2. simpl. split; [|reflexivity]. constructor; [exact G|exact IH1]. }
  destruct K as [K1 K2].
  assert (R : forall l, Forall (fun p => py_get _MODIS_DATE (snd p) = inr (JStr (fst p))) l ->
                traverse (fun d => v <- py_get _MODIS_DATE d ;; as_str v) (map snd l)
                = inr (map fst l)).
  { induction 1 as [|p l Hp _ IH]; simpl; [reflexivity|].
    rewrite Hp. simpl. rewrite IH. reflexivity. }
  rewrite R.
  - intros H. inversion H. subst time_dates. split.
    + apply Sorted_map_fst. apply (sorted_by_sorted fst).
    + exists (map fst keyed). split; [exact K2|].
      apply Permutation_map. apply sorted_by_perm.
  - rewrite Forall_forall in *. intros p Hp. apply K1.
    eapply Permutation_in; [apply sorted_by_perm|exact Hp].
Qed.

(** A date set whose entries all carry a string token is sorted without
    an error: the result is ascending and a rearrangement of the tokens. *)
Lemma sorted_time_dates_tokens (all_dates : json) (entries : list json)
  (tokens : list string) :
  (slot <- py_get _DATES_SLOT all_dates ;; py_iter slot) = inr entries ->
  Forall2 (fun e t => py_get _MODIS_DATE e = inr (JStr t)) entries tokens ->
  exists time_dates,
    sorted_time_dates all_dates = inr time_dates /\
    Sorted str_le time_dates /\ Permutation time_dates tokens.
Proof.
  intros I F.
  assert (K : exists keyed,
             traverse (fun x => v <- py_get _MODIS_DATE x ;; s <- as_str v ;; ret (s, x))
               entries = inr keyed /\
             map fst keyed = tokens /\
             Forall (fun p => py_get _MODIS_DATE (snd p) = inr (JStr (fst p))) keyed).
  { clear I. induction F as [|e t es ts H _ [keyed [T [M A]]]]; simpl.
    - exists []. repeat split. constructor.
    - exists ((t, e) :: keyed). rewrite H. simpl. rewrite T. simpl.
      repeat split; [congruence|]. constructor; [exact H|exact A]. }
  destruct K as [keyed [T [M A]]].
  assert (R : forall l,
             Forall (fun p => py_get _MODIS_DATE (snd p) = inr (JStr (fst p))) l ->
             traverse (fun d => v <- py_get _MODIS_DATE d ;; as_str v) (map snd l)
             = inr (map fst l)).
  { induction 1 as [|p l Hp _ IH]; simpl; [reflexivity|].
    rewrite Hp. simpl. rewrite IH. reflexivity. }
  exists (map fst (sorted_by fst keyed)). split; [|split].
  - unfold sorted_time_dates.
    destruct (py_get _DATES_SLOT all_dates) as [e|slot]; simpl in *; [discriminate|].
    rewrite I. simpl. unfold sorted_by_get. rewrite T. simpl. apply R.
    rewrite Forall_forall in *. intros p Hp. apply A.
    eapply Permutation_in; [apply sorted_by_perm|exact Hp].
  - apply Sorted_map_fst. apply (sorted_by_sorted fst).
  - rewrite <- M. apply Permutation_map. apply sorted_by_perm.
Qed.

Section ExecuteMany.

Variable session_get : list string -> string -> attempt.
Variable product : Products.t.
Variables latitude longitude : float.
Variable band : Bands.t.
Variables km_above_below km_left_right : Z.

(** One iteration of the loop of [execute_many]. *)
Let step (time_date : string) : M json :=
  subset session_get product latitude longitude band time_date time_date
    km_above_below km_left_right.

Let query_of (self : provider) (time_date : string) : string :=
  subset_query self product latitude longitude band time_date time_date
    km_above_below km_left_right.

Lemma query_of_url (a b : provider) (d : string) :
  _url a = _url b -> query_of a d = query_of b d.
Proof. intros E. unfold query_of, subset_query. rewrite E. reflexivity. Qed.

(** A loop that runs to exhaustion yielded once per date, and sent the
    subset queries of the dates, in order. *)
Lemma yield_each_exhausted (items : list string) (self self' : provider)
  (ys : list json) :
  yield_each step items self = ((ys, None), self') ->
  List.length ys = List.length items /\
  wire self' = (wire self ++ map (query_of self) items)%list.
Proof.
  revert self ys. induction items as [|d r IH]; intros self ys; simpl.
  - intros H. inversion H. subst. rewrite List.app_nil_r. auto.
  - unfold step at 1. unfold subset.
    pose proof (_response_state session_get (query_of self d) self) as St.
    fold (query_of self d).
    destruct (_response session_get (query_of self d) self) as [[e|y] s1];
      [discriminate|].
    simpl in St. destruct St as [W [U _]].
    destruct (yield_each step r s1) as [[ys' stop] s2] eqn:Y.
    intros H. inversion H. subst.
    destruct (IH s1 ys' Y) as [L W'].
    split; [simpl; congruence|].
    rewrite W', W, <- List.app_assoc. simpl. f_equal. f_equal.
    apply map_ext. intros t. apply query_of_url. exact U.
Qed.

(** Against a service whose every attempt can be normalized, the loop
    runs to exhaustion. *)
Lemma yield_each_total (items : list string) (self : provider) :
  (forall history query, normalizable (session_get history query) = true) ->
  exists ys self', yield_each step items self = ((ys, None), self').
Proof.
  intros N. revert self. induction items as [|d r IH]; intros self; simpl.
  - eauto.
  - unfold step at 1. unfold subset.
    destruct (_response_returns session_get (query_of self d) self (N _ _))
      as [y Hy].
    fold (query_of self d).
    destruct (_response session_get (query_of self d) self) as [res s1].
    simpl in Hy. subst res.
    destruct (IH s1) as [ys [s2 Y]]. rewrite Y. eauto.
Qed.

(** A loop that stops with an exception after [k] results has sent the
    subset queries of the first [k + 1] dates and no other: the attempt
    for the last of them is one that the client cannot normalize. *)
Lemma yield_each_stopped (items : list string) (self self' : provider)
  (ys : list json) (e : exn) :
  yield_each step items self = ((ys, Some e), self') ->
  exists d,
    nth_error items (List.length ys) = Some d /\
    wire self'
    = (wire self ++ map (query_of self) (firstn (S (List.length ys)) items))%list /\
    normalizable
      (session_get
         (wire self ++ map (query_of self) (firstn (List.length ys) items))%list
         (query_of self d)) = false.
Proof.
  revert self ys. induction items as [|d r IH]; intros self ys; simpl.
  - discriminate.
  - unfold step at 1. unfold subset. fold (query_of self d).
    pose proof (_response_state session_get (query_of self d) self) as St.
    pose proof (_response_returns session_get (query_of self d) self) as Rt.
    destruct (_response session_get (query_of self d) self) as [[e1|y] s1].
    + intros H. inversion H. subst. simpl in St. destruct St as [W _].
      exists d. simpl. split; [reflexivity|]. split; [exact W|].
      rewrite List.app_nil_r.
      destruct (normalizable (session_get (wire self) (query_of self d)));
        [|reflexivity].
      destruct (Rt eq_refl) as [y Hy]. discriminate.
    + simpl in St. destruct St as [W [U _]].
      destruct (yield_each step r s1) as [[ys' stop] s2] eqn:Y.
      intros H. inversion H. subst.
      destruct (IH s1 ys' Y) as [d' [N [W' B]]].
      assert (Q : forall l, map (query_of s1) l = map (query_of self) l).
      { intros l. apply map_ext. intros t. apply query_of_url. exact U. }
      exists d'. simpl List.length. split; [exact N|]. split.
      * rewrite W', W, Q, <- List.app_assoc. reflexivity.
      * rewrite W, Q, <- List.app_assoc, (query_of_url s1 self d' U) in B.
        exact B.
Qed.


End ExecuteMany.



Example execute_many_scenario :
  fst (execute_many Scenarios.three_dates Products.MOD13Q1 "44.0" "10.3"
         (Bands.Band "250m_16_days_NDVI") "A2020331" "A2020340" 0 0
         Scenarios.client)
  = ([JDict [("subset", JStr "https://modis.ornl.gov/rst/api/v1/MOD13Q1/subset?latitude=44.0&longitude=10.3&band=250m_16_days_NDVI&startDate=A2020330&endDate=A2020330&kmAboveBelow=0&kmLeftRight=0")];
      JDict [("subset", JStr "https://modis.ornl.gov/rst/api/v1/MOD13Q1/subset?latitude=44.0&longitude=10.3&band=250m_16_days_NDVI&startDate=A2020337&endDate=A2020337&kmAboveBelow=0&kmLeftRight=0")]],
     None).
Proof. vm_compute. reflexivity. Qed.

Example execute_many_on_error :
  fst (execute_many Scenarios.unreachable Products.MOD13Q1 "44.0" "10.3"
         (Bands.Band "250m_16_days_NDVI") "A2020331" "A2020340" 0 0
         Scenarios.client)
  = ([JDict [("status", JInt 777);
             ("title", JStr "CONNECTION ERROR");
             ("url", JStr "https://modis.ornl.gov/rst/api/v1/MOD13Q1/dates?latitude=44.0&longitude=10.3");
             ("detail", JStr "Exception for https://modis.ornl.gov/rst/api/v1/MOD13Q1/dates?latitude=44.0&longitude=10.3")]],
     None).
Proof. vm_compute. reflexivity. Qed.

(** [is_present] on top of a failed dates call raises, with the detail of
    the normalized error as its message. *)
Example is_present_on_failure :
  fst (is_present Scenarios.unreachable Products.MOD13Q1 "44.0" "10.3" "A2019305"
         Scenarios.client)
  = inl (RequestFailure
           (JStr "Exception for https://modis.ornl.gov/rst/api/v1/MOD13Q1/dates?latitude=44.0&longitude=10.3")).
Proof. vm_compute. reflexivity. Qed.

Example is_present_on_dates :
  fst (is_present Scenarios.three_dates Products.MOD13Q1 "44.0" "10.3" "A2020337"
         Scenarios.client) = inr true /\
  fst (is_present Scenarios.three_dates Products.MOD13Q1 "44.0" "10.3" "A2020338"
         Scenarios.client) = inr false.
Proof. split; vm_compute; reflexivity. Qed.

(* ================================================================== *)
(** * Further properties of the date interval resolver *)
(* ================================================================== *)

(** [min] returns the first of the elements whose key is least. *)
Lemma min_from_first {A} (key : A -> Z) (l : list A) (best : A) :
  let m := min_from key best l in
  (m = best /\ Forall (fun x => key best <= key x) l) \/
  (exists pre post,
      l = (pre ++ m :: post)%list /\ key m < key best /\
      Forall (fun x => key m < key x) pre /\
      Forall (fun x => key m <= key x) post).
Proof.
  revert best. induction l as [|x r IH]; intros best; simpl.
  - left. auto.
  - destruct (key x <? key best) eqn:C.
    + apply Z.ltb_lt in C. right.
      destruct (IH x) as [[E F]|[pre [post [E [L [F1 F2]]]]]].
      * exists [], r. rewrite E. simpl. auto.
      * exists (x :: pre), post. simpl. rewrite <- E.
        repeat split; auto; try lia;
          try (constructor; [lia|exact F1]).
    + apply Z.ltb_ge in C.
      destruct (IH best) as [[E F]|[pre [post [E [L [F1 F2]]]]]].
      * left. split; [exact E|]. constructor; [exact C|exact F].
      * right. exists (x :: pre), post. simpl. rewrite <- E.
        repeat split; auto; try (constructor; [lia|exact F1]).
Qed.

Lemma min_by_first {A} (key : A -> Z) (l : list A) (m : A) :
  min_by key l = inr m ->
  exists pre post,
    l = (pre ++ m :: post)%list /\
    Forall (fun x => key m < key x) pre /\
    Forall (fun x => key m <= key x) post.
Proof.
  destruct l as [|x r]; simpl; [discriminate|].
  intros H. inversion H as [E]. clear H. subst m.
  destruct (min_from_first key r x) as [[E' F]|[pre [post [E' [L [F1 F2]]]]]].
  - exists [], r. simpl. rewrite E'. auto.
  - exists (x :: pre), post. simpl. rewrite <- E'.
    repeat split; auto; try (constructor; [exact L|exact F1]).
Qed.

Lemma Forall2_numeric_split (items : list string) (pre post : list Z) (m : Z) :
  Forall2 (fun d v => numeric d = inr v) items (pre ++ m :: post)%list ->
  exists ipre d ipost,
    items = (ipre ++ d :: ipost)%list /\ numeric d = inr m /\
    Forall2 (fun d v => numeric d = inr v) ipre pre /\
    Forall2 (fun d v => numeric d = inr v) ipost post.
Proof.
  intros F. apply Forall2_app_inv_r in F.
  destruct F as [ipre [rest [F1 [F2 E]]]].
  inversion F2 as [|d v ipost post' Hd F3]; subst.
  exists ipre, d, ipost. auto.
Qed.

Lemma Forall2_numeric_bound (P : Z -> Prop) (ds : list string) (vs : list Z) :
  Forall2 (fun d v => numeric d = inr v) ds vs ->
  Forall P vs ->
  Forall (fun d => exists v, numeric d = inr v /\ P v) ds.
Proof.
  induction 1 as [|d v ds vs H _ IH]; intros F; constructor;
    inversion F; subst; eauto.
Qed.

Lemma closest_first_nearest (items : list string) (pivot : string) (p : Z) :
  items <> [] ->
  Forall (fun d => exists v, numeric d = inr v) items ->
  numeric pivot = inr p ->
  exists pre d post m,
    items = (pre ++ d :: post)%list /\ numeric d = inr m /\
    _find_closest_composite_date items pivot = inr ("A" ++ str m) /\
    Forall (fun x => exists v, numeric x = inr v /\
                               Z.abs (m - p) < Z.abs (v - p)) pre /\
    Forall (fun x => exists v, numeric x = inr v /\
                               Z.abs (m - p) <= Z.abs (v - p)) post.
Proof.
  intros NE Hall P.
  destruct (traverse_total numeric items Hall) as [vs T].
  pose proof (traverse_Forall2 _ _ _ T) as F.
  assert (NEv : vs <> []).
  { intros ->. inversion F. subst. congruence. }
  destruct (min_by_spec (fun x => Z.abs (x - p)) vs NEv) as [m [Hm _]].
  destruct (min_by_first _ _ _ Hm) as [vpre [vpost [E [F1 F2]]]].
  rewrite E in F.
  destruct (Forall2_numeric_split _ _ _ _ F) as [pre [d [post [Ei [Hd [G1 G2]]]]]].
  exists pre, d, post, m. split; [exact Ei|]. split; [exact Hd|]. split.
  - unfold _find_closest_composite_date. rewrite P, T. simpl. rewrite Hm.
    reflexivity.
  - split.
    + exact (Forall2_numeric_bound _ _ _ G1 F1).
    + exact (Forall2_numeric_bound _ _ _ G2 F2).
Qed.


(** X1.  The closest date is rendered from the value of the first item of the
    list whose distance to the pivot is least: the items before it are
    strictly farther from the pivot, the items after it are not nearer. *)
Theorem closest_is_first_nearest (items : list string) (pivot : string) (p : Z) :
  items <> [] ->
  Forall (fun d => exists v, numeric d = inr v) items ->
  numeric pivot = inr p ->
  exists pre d post m,
    items = (pre ++ d :: post)%list /\ numeric d = inr m /\
    _find_closest_composite_date items pivot = inr ("A" ++ str m) /\
    Forall (fun x => exists v, numeric x = inr v /\
                               Z.abs (m - p) < Z.abs (v - p)) pre /\
    Forall (fun x => exists v, numeric x = inr v /\
                               Z.abs (m - p) <= Z.abs (v - p)) post.
Proof. exact (closest_first_nearest items pivot p). Qed.

Lemma closest_is_first_nearest_witness :
  exists pre d post m,
    ["A2020330"; "A2020336"; "A2020345"] = (pre ++ d :: post)%list /\
    numeric d = inr m /\
    _find_closest_composite_date ["A2020330"; "A2020336"; "A2020345"] "A2020333"
    = inr ("A" ++ str m) /\
    Forall (fun x => exists v, numeric x = inr v /\
                               Z.abs (m - 2020333) < Z.abs (v - 2020333)) pre /\
    Forall (fun x => exists v, numeric x = inr v /\
                               Z.abs (m - 2020333) <= Z.abs (v - 2020333)) post.
Proof.
  apply (closest_is_first_nearest ["A2020330"; "A2020336"; "A2020345"]
           "A2020333" 2020333).
  - discriminate.
  - repeat constructor; eexists; reflexivity.
  - reflexivity.
Defined.

(** Two dates at the same distance: the one that comes first wins. *)
Example closest_tie :
  _find_closest_composite_date ["A2020330"; "A2020336"] "A2020333" = inr "A2020330" /\
  _find_closest_composite_date ["A2020336"; "A2020330"] "A2020333" = inr "A2020336".
Proof. split; vm_compute; reflexivity. Qed.

(** X2.  On the empty date list the resolver raises for every pair of dates:
    it never returns an empty interval. *)
Theorem interval_of_empty_list_raises (start_date end_date : string) :
  exists e, compute_date_interval [] start_date end_date = inl e.
Proof.
  unfold compute_date_interval.
  destruct (numeric start_date) as [e1|s] eqn:S; simpl; [eauto|].
  destruct (numeric end_date) as [e2|e] eqn:E; simpl; [eauto|].
  destruct (s - e >? 0); [eauto|].
  unfold _find_closest_composite_date. rewrite S. simpl. eauto.
Qed.

Lemma slice_decompose {A} (i j : nat) (l : list A) :
  l = (firstn i l ++ slice i j l ++ skipn (j - i) (skipn i l))%list.
Proof.
  unfold slice. rewrite (firstn_skipn (j - i) (skipn i l)).
  symmetry. apply firstn_skipn.
Qed.

(** X3.  A returned interval is a contiguous part of the date list, in the
    order of the list, whatever the list holds. *)
Theorem interval_is_contiguous (all_dates interval : list string)
  (start_date end_date : string) :
  compute_date_interval all_dates start_date end_date = inr interval ->
  exists before after, all_dates = (before ++ interval ++ after)%list.
Proof.
  intros H. destruct (interval_is_some_slice _ _ _ _ H) as [i [j ->]].
  eexists; eexists. apply slice_decompose.
Qed.

Lemma interval_is_contiguous_witness :
  exists before after,
    ["A2020345"; "A2020330"; "A2020337"; "A2020353"]
    = (before ++ ["A2020330"; "A2020337"] ++ after)%list.
Proof.
  apply (interval_is_contiguous ["A2020345"; "A2020330"; "A2020337"; "A2020353"]
           ["A2020330"; "A2020337"] "A2020331" "A2020340").
  vm_compute. reflexivity.
Defined.

Lemma closest_depends_on_value (items : list string) (p1 p2 : string) :
  numeric p1 = numeric p2 ->
  _find_closest_composite_date items p1 = _find_closest_composite_date items p2.
Proof. intros E. unfold _find_closest_composite_date. rewrite E. reflexivity. Qed.

Lemma plain_canonical (d : string) (v : Z) :
  is_plain_composite_date d = true -> numeric d = inr v -> "A" ++ str v = d.
Proof.
  intros P N. destruct (plain_roundtrip d P) as [v' [N' R]].
  rewrite N in N'. congruence.
Qed.

(** Among plain composite dates the closest date is an item of the list
    that no item beats. *)
Lemma closest_bound (items : list string) (pivot : string) (p : Z) :
  items <> [] ->
  Forall (fun d => is_plain_composite_date d = true) items ->
  numeric pivot = inr p ->
  exists c m,
    _find_closest_composite_date items pivot = inr c /\ In c items /\
    numeric c = inr m /\
    forall x v, In x items -> numeric x = inr v ->
                Z.abs (m - p) <= Z.abs (v - p).
Proof.
  intros NE Hall P.
  assert (Hparse : Forall (fun d => exists v, numeric d = inr v) items).
  { eapply Forall_impl; [|exact Hall]. intros d Hd.
    destruct (plain_roundtrip d Hd) as [v [Hv _]]. eauto. }
  destruct (closest_first_nearest items pivot p NE Hparse P)
    as [pre [d [post [m [E [Hd [C [F1 F2]]]]]]]].
  assert (Hin : In d items).
  { rewrite E. apply in_or_app. right. left. reflexivity. }
  rewrite Forall_forall in Hall.
  rewrite (plain_canonical d m (Hall d Hin) Hd) in C.
  exists d, m. repeat split; auto.
  intros x v Hx Hv. rewrite E in Hx. apply in_app_or in Hx.
  rewrite Forall_forall in F1, F2.
  destruct Hx as [Hx|[<-|Hx]].
  - destruct (F1 x Hx) as [v' [Hv' L]]. rewrite Hv in Hv'. inversion Hv'. lia.
  - rewrite Hd in Hv. inversion Hv. lia.
  - destruct (F2 x Hx) as [v' [Hv' L]]. rewrite Hv in Hv'. inversion Hv'. lia.
Qed.

Lemma find_index_Some_In (x : string) (l : list string) (i : nat) :
  find_index x l = Some i -> In x l.
Proof.
  revert i. induction l as [|y r IH]; simpl; intros i; [discriminate|].
  destruct (String.eqb y x) eqn:E.
  - apply String.eqb_eq in E. auto.
  - destruct (find_index x r) as [k|]; simpl; [|discriminate].
    intros _. right. eapply IH. reflexivity.
Qed.

(** In a list of plain composite dates in ascending order, positions
    follow values. *)
Lemma find_index_monotone (items : list string) :
  Forall (fun d => is_plain_composite_date d = true) items ->
  StronglySorted numeric_le items ->
  forall a b i j va vb,
    find_index a items = Some i -> find_index b items = Some j ->
    numeric a = inr va -> numeric b = inr vb -> va <= vb ->
    (i <= j)%nat.
Proof.
  intros Hall S. induction S as [|y r S IH Hy]; intros a b i j va vb;
    simpl; [discriminate|].
  inversion Hall as [|? ? Py Pr]; subst.
  destruct (String.eqb y a) eqn:Ea.
  - intros H. inversion H. lia.
  - destruct (find_index a r) as [i'|] eqn:Fa; simpl; [|discriminate].
    intros H. inversion H. subst i. clear H.
    destruct (String.eqb y b) eqn:Eb.
    + intros _ Na Nb L. exfalso.
      apply String.eqb_eq in Eb. subst b.
      pose proof (find_index_Some_In _ _ _ Fa) as Ia.
      rewrite Forall_forall in Hy. destruct (Hy a Ia) as [v1 [v2 [N1 [N2 L2]]]].
      assert (E1 : v1 = vb) by congruence.
      assert (E2 : v2 = va) by congruence.
      assert (E3 : va = vb) by lia.
      rewrite E3 in Na.
      rewrite Forall_forall in Pr.
      pose proof (plain_canonical a vb (Pr a Ia) Na) as Ca.
      pose proof (plain_canonical y vb Py Nb) as Cy.
      rewrite <- Ca, Cy, String.eqb_refl in Ea. discriminate.
    + destruct (find_index b r) as [j'|] eqn:Fb; simpl; [|discriminate].
      intros H Na Nb L. inversion H. subst j.
      apply le_n_S. eapply (IH Pr a b); eauto.
Qed.

Lemma sorted_interval_spec (all_dates : list string)
  (start_date end_date : string) (s e : Z) :
  all_dates <> [] ->
  Forall (fun d => is_plain_composite_date d = true) all_dates ->
  StronglySorted numeric_le all_dates ->
  numeric start_date = inr s ->
  numeric end_date = inr e ->
  s <= e ->
  exists sc ec interval,
    _find_closest_composite_date all_dates start_date = inr sc /\
    _find_closest_composite_date all_dates end_date = inr ec /\
    compute_date_interval all_dates start_date end_date = inr interval /\
    interval <> [] /\
    nth_error interval 0 = Some sc /\
    nth_error interval (List.length interval - 1) = Some ec.
Proof.
  intros NE Hall So Hs He Hle.
  destruct (closest_bound all_dates start_date s NE Hall Hs)
    as [sc [ms [S1 [I1 [N1 B1]]]]].
  destruct (closest_bound all_dates end_date e NE Hall He)
    as [ec [me [S2 [I2 [N2 B2]]]]].
  destruct (find_index_In sc all_dates I1) as [i [Fi Ni]].
  destruct (find_index_In ec all_dates I2) as [j [Fj Nj]].
  assert (V : ms <= me).
  { destruct (Z.le_gt_cases ms me) as [L|G]; [exact L|exfalso].
    pose proof (B1 ec me I2 N2) as L1. pose proof (B2 sc ms I1 N1) as L2.
    assert (s = e) by lia. subst e.
    assert (E : inr sc = (inr ec : result string)).
    { rewrite <- S1, <- S2. apply closest_depends_on_value. congruence. }
    inversion E. subst. rewrite N1 in N2. inversion N2. lia. }
  pose proof (find_index_monotone all_dates Hall So sc ec i j ms me Fi Fj N1 N2 V)
    as Hij.
  assert (Hj : (j < List.length all_dates)%nat).
  { apply nth_error_Some. rewrite Nj. discriminate. }
  exists sc, ec, (slice i (j + 1) all_dates).
  split; [exact S1|]. split; [exact S2|]. split.
  { unfold compute_date_interval. rewrite Hs, He. simpl.
    assert (C : (s - e >? 0) = false).
    { destruct (Z.gtb_spec (s - e) 0); [lia|reflexivity]. }
    rewrite C, S1, S2. simpl. unfold index. rewrite Fi, Fj. reflexivity. }
  assert (Len : List.length (slice i (j + 1) all_dates) = (j + 1 - i)%nat).
  { unfold slice. rewrite length_firstn, length_skipn. lia. }
  split.
  { intros E. rewrite E in Len. simpl in Len. lia. }
  split.
  - rewrite slice_nth_error.
    assert (T : (0 <? j + 1 - i)%nat = true) by (apply Nat.ltb_lt; lia).
    rewrite T, Nat.add_0_r. exact Ni.
  - rewrite Len, slice_nth_error.
    assert (T : (j + 1 - i - 1 <? j + 1 - i)%nat = true) by (apply Nat.ltb_lt; lia).
    rewrite T. replace (i + (j + 1 - i - 1))%nat with j by lia. exact Nj.
Qed.


(** X4.  For a non-empty list of plain composite dates in ascending order and
    a valid range, the interval is never empty: it starts at the date
    closest to the start date and ends at the date closest to the end
    date (a range that lies outside the list still yields a date). *)
Theorem interval_of_sorted_list (all_dates : list string)
  (start_date end_date : string) (s e : Z) :
  all_dates <> [] ->
  Forall (fun d => is_plain_composite_date d = true) all_dates ->
  StronglySorted numeric_le all_dates ->
  numeric start_date = inr s ->
  numeric end_date = inr e ->
  s <= e ->
  exists sc ec interval,
    _find_closest_composite_date all_dates start_date = inr sc /\
    _find_closest_composite_date all_dates end_date = inr ec /\
    compute_date_interval all_dates start_date end_date = inr interval /\
    interval <> [] /\
    nth_error interval 0 = Some sc /\
    nth_error interval (List.length interval - 1) = Some ec.
Proof. exact (sorted_interval_spec all_dates start_date end_date s e). Qed.

Lemma interval_of_sorted_list_witness :
  exists sc ec interval,
    _find_closest_composite_date ["A2020330"; "A2020337"; "A2020345"] "A1999001"
    = inr sc /\
    _find_closest_composite_date ["A2020330"; "A2020337"; "A2020345"] "A1999365"
    = inr ec /\
    compute_date_interval ["A2020330"; "A2020337"; "A2020345"] "A1999001" "A1999365"
    = inr interval /\
    interval <> [] /\
    nth_error interval 0 = Some sc /\
    nth_error interval (List.length interval - 1) = Some ec.
Proof.
  apply (interval_of_sorted_list ["A2020330"; "A2020337"; "A2020345"]
           "A1999001" "A1999365" 1999001 1999365).
  - discriminate.
  - repeat constructor.
  - repeat first [apply SSorted_nil | apply SSorted_cons
                  | apply Forall_nil | apply Forall_cons];
      (eexists; eexists; split; [lazy; reflexivity|split; [lazy; reflexivity|lia]]).
  - reflexivity.
  - reflexivity.
  - lia.
Defined.

(** A range that ends before the first date still yields the first
    date. *)
Example interval_before_all_dates :
  compute_date_interval ["A2020330"; "A2020337"; "A2020345"] "A1999001" "A1999365"
  = inr ["A2020330"].
Proof. vm_compute. reflexivity. Qed.

(** ** Literals that [int] rejects *)

Lemma parse_all_digits (s : string) (u : uint) :
  NilEmpty.uint_of_string s = Some u -> all_digits s = true.
Proof.
  revert u. induction s as [|a r IH]; intros u; simpl; [reflexivity|].
  destruct (NilEmpty.uint_of_string r) as [u0|].
  - rewrite (IH u0 eq_refl). ascii_cases a.
  - ascii_cases a.
Qed.

Lemma foreign_not_digit (a : ascii) : is_foreign a = true -> is_digit a = false.
Proof. ascii_cases a. Qed.

Lemma foreign_not_space (a : ascii) : is_foreign a = true -> is_space a = false.
Proof. ascii_cases a. Qed.

Lemma all_digits_no_foreign (s : string) :
  all_digits s = true -> mentions is_foreign s = false.
Proof.
  induction s as [|a r IH]; simpl; [reflexivity|].
  intros H. apply andb_prop in H. destruct H as [Ha Hr]. rewrite (IH Hr).
  destruct (is_foreign a) eqn:F; [|reflexivity].
  rewrite (foreign_not_digit a F) in Ha. discriminate.
Qed.

Lemma mentions_lstrip (s : string) :
  mentions is_foreign s = true -> mentions is_foreign (lstrip s) = true.
Proof.
  induction s as [|a r IH]; simpl; [discriminate|].
  destruct (is_space a) eqn:Sp; [|auto].
  destruct (is_foreign a) eqn:F; [|exact IH].
  rewrite (foreign_not_space a F) in Sp. discriminate.
Qed.

Lemma mentions_rstrip (s : string) :
  mentions is_foreign s = true -> mentions is_foreign (rstrip s) = true.
Proof.
  induction s as [|a r IH]; simpl; [discriminate|].
  destruct (is_foreign a) eqn:F; simpl.
  - intros _. destruct (rstrip r); simpl.
    + rewrite (foreign_not_space a F). simpl. rewrite F. reflexivity.
    + rewrite F. reflexivity.
  - intros H. specialize (IH H). destruct (rstrip r); [discriminate|].
    simpl. rewrite F. exact IH.
Qed.

Lemma parse_foreign (body : string) :
  mentions is_foreign body = true -> NilZero.uint_of_string body = None.
Proof.
  intros M. destruct body as [|a r]; [reflexivity|].
  change (NilZero.uint_of_string (String a r))
    with (NilEmpty.uint_of_string (String a r)).
  destruct (NilEmpty.uint_of_string (String a r)) as [u|] eqn:P; [|reflexivity].
  rewrite (all_digits_no_foreign _ (parse_all_digits _ _ P)) in M. discriminate.
Qed.

(** A literal that holds a character no integer literal can hold is
    rejected. *)
Lemma int_foreign (s : string) :
  mentions is_foreign s = true -> int s = inl (IntLiteral s).
Proof.
  intros M. apply mentions_lstrip, mentions_rstrip in M.
  fold (strip s) in M. unfold int.
  destruct (strip s) as [|a r]; [discriminate|].
  ascii_cases a;
    first [ rewrite (parse_foreign _ M); reflexivity
          | change (mentions is_foreign r = true) in M;
            rewrite (parse_foreign _ M); reflexivity ].
Qed.

(** X5.  A token of the list that holds, besides ['A'], a printable
    character no integer literal can hold (a letter, a slash, a dot)
    makes the closest-date search raise the error of [int], whatever the
    pivot, even when the pivot is in the list. *)
Theorem closest_rejects_malformed_item (items : list string) (pivot d : string)
  (p : Z) :
  numeric pivot = inr p ->
  In d items ->
  mentions is_foreign (remove_char "A" d) = true ->
  exists literal,
    _find_closest_composite_date items pivot = inl (IntLiteral literal).
Proof.
  intros P Hin Hd. apply int_foreign in Hd. fold (numeric d) in Hd.
  unfold _find_closest_composite_date. rewrite P. simpl.
  destruct (traverse numeric items) as [e'|vs] eqn:T; simpl.
  - destruct (traverse_raises _ _ _ T) as [x [_ Hx]].
    unfold numeric in Hx. apply int_raises in Hx. subst e'. eauto.
  - exfalso. pose proof (traverse_Forall2 _ _ _ T) as F.
    clear T. induction F as [|x v xs vs' H _ IH]; [destruct Hin|].
    destruct Hin as [->|Hin]; [congruence|auto].
Qed.

Lemma closest_rejects_malformed_item_witness :
  exists literal,
    _find_closest_composite_date ["A2020330"; "2020/11/25"; "A2020337"] "A2020337"
    = inl (IntLiteral literal).
Proof.
  apply (closest_rejects_malformed_item ["A2020330"; "2020/11/25"; "A2020337"]
           "A2020337" "2020/11/25" 2020337).
  - reflexivity.
  - simpl. auto.
  - reflexivity.
Defined.

(* ================================================================== *)
(** * Further properties of the single-request client *)
(* ================================================================== *)

Section SingleRequest.

Variable session_get : list string -> string -> attempt.

(** X6.  Every endpoint hands exactly one query to the session, whatever the
    outcome (there is no retry), and leaves the base URL and the
    concurrency limit as they were. *)
Theorem endpoints_send_one_request (self : provider) :
  let unchanged (self' : provider) :=
    _url self' = _url self /\
    _MAXIMUM_CONCURRENT_NUMBER self' = _MAXIMUM_CONCURRENT_NUMBER self in
  (forall sensor tool,
     let self' := snd (products session_get sensor tool self) in
     wire self' = (wire self ++
                   [(_url self ++ "/products?sensor=" ++ Sensors.value sensor ++
                     "&tool=" ++ Tools.value tool)%string])%list /\
     unchanged self') /\
  (forall product,
     let self' := snd (bands session_get product self) in
     wire self' = (wire self ++
                   [(_url self ++ "/" ++ Products.value product ++
                     "/bands")%string])%list /\
     unchanged self') /\
  (forall product latitude longitude,
     let self' := snd (dates session_get product latitude longitude self) in
     wire self' = (wire self ++
                   [dates_query self product latitude longitude])%list /\
     unchanged self') /\
  (forall product latitude longitude band start_date end_date above left,
     let self' := snd (subset session_get product latitude longitude band
                         start_date end_date above left self) in
     wire self' = (wire self ++
                   [subset_query self product latitude longitude band
                      start_date end_date above left])%list /\
     unchanged self').
Proof.
  intros unchanged. subst unchanged. simpl.
  repeat split;
    try (apply (_response_state session_get));
    match goal with
    | |- context [_response session_get ?q self] =>
        destruct (_response_state session_get q self) as [W [U X]]; auto
    | _ => idtac
    end.
Qed.

(** X7.  After an attempt that obtained a response, the URL accessor returns
    the URL of that response, also when the response is an HTTP error or
    its body is not JSON. *)
Theorem last_url_after_response (query : string) (self : provider) (r : Response) :
  session_get (wire self) query = Returned r ->
  url r <> "" ->
  fst (get_request_url (snd (_response session_get query self))) = inr (url r).
Proof.
  intros A N. unfold _response. rewrite A.
  assert (E : String.eqb (url r) "" = false).
  { apply String.eqb_neq. exact N. }
  destruct (ok r); [destruct (decoded r)|]; simpl;
    unfold get_request_url; simpl; rewrite E; reflexivity.
Qed.

(** X8.  The time accessor after a response: the [Date] header when there is
    one, [None] (no exception) when the response has no such header, and
    [NameError] when the header is the empty string. *)
Theorem last_time_after_response (query : string) (self : provider) (r : Response) :
  session_get (wire self) query = Returned r ->
  let time := fst (get_request_http_time (snd (_response session_get query self))) in
  (date_header r = None -> time = inr JNull) /\
  (forall d, date_header r = Some d -> d <> "" -> time = inr (JStr d)) /\
  (date_header r = Some "" -> exists msg, time = inl (NameError msg)).
Proof.
  intros A time. subst time. unfold _response. rewrite A.
  assert (S : forall res,
             _requests_time
               (snd (A := result json) (res,
                     set_last_request
                       (match date_header r with Some d => JStr d | None => JNull end)
                       (url r)
                       (sending query (set_last_request (JStr "") "" self))))
             = match date_header r with Some d => JStr d | None => JNull end)
    by reflexivity.
  assert (T : _requests_time (snd (_response session_get query self))
              = match date_header r with Some d => JStr d | None => JNull end).
  { unfold _response. rewrite A.
    destruct (ok r); [destruct (decoded r)|]; apply S. }
  unfold _response in T. rewrite A in T.
  unfold get_request_http_time. rewrite T.
  repeat split.
  - intros ->. reflexivity.
  - intros d -> N. destruct d as [|a d']; [congruence|reflexivity].
  - intros ->. eexists. reflexivity.
Qed.

(** X9.  After an attempt that obtained no response, both accessors raise
    [NameError], as they do on a client that has sent nothing. *)
Theorem accessors_blank_after_failure (query : string) (self : provider)
  (err : exception) :
  session_get (wire self) query = Failed err ->
  let self' := snd (_response session_get query self) in
  (exists msg, fst (get_request_url self') = inl (NameError msg)) /\
  (exists msg, fst (get_request_http_time self') = inl (NameError msg)).
Proof.
  intros A. unfold _response. rewrite A. simpl.
  split; eexists; reflexivity.
Qed.

(** A response that [raise_for_status] accepts passes its decoded body
    through unchanged. *)
Theorem success_body_passes_through (query : string) (self : provider)
  (r : Response) (payload : json) :
  session_get (wire self) query = Returned r ->
  is_error_status r = false ->
  decoded r = Some payload ->
  fst (_response session_get query self) = inr payload.
Proof.
  intros A E D. unfold _response. rewrite A. unfold ok. rewrite E, D. reflexivity.
Qed.

(** X10.  An exception that carries no request is not normalized: reading the
    URL of the missing request raises [AttributeError], which leaves the
    client. *)
Theorem failure_without_request_escapes (query : string) (self : provider)
  (err : exception) :
  session_get (wire self) query = Failed err ->
  request err = None ->
  response err = None ->
  fst (_response session_get query self) = inl (AttributeError "url").
Proof.
  intros A Q R. unfold _response. rewrite A. simpl.
  unfold handle, _error_fault_handling. rewrite Q, R.
  destruct (is_HTTPError (class err)); [reflexivity|].
  destruct (is_ConnectionError (class err)); [reflexivity|].
  destruct (is_Timeout (class err)); reflexivity.
Qed.

(** X11.  A response whose body is not JSON is not normalized either, whatever
    its status: an exception leaves the client. *)
Theorem undecodable_body_escapes (query : string) (self : provider) (r : Response) :
  session_get (wire self) query = Returned r ->
  decoded r = None ->
  exists e, fst (_response session_get query self) = inl e.
Proof.
  intros A D. unfold _response. rewrite A.
  destruct (ok r); simpl.
  - rewrite D. simpl. eexists. reflexivity.
  - unfold handle. simpl. unfold _response_fault_handling. rewrite D.
    eexists. reflexivity.
Qed.

(** X12.  Whatever a user assigns and requests, in any order, starting from a
    new client, the stored concurrency limit never exceeds 10. *)
Theorem limit_never_exceeds_cap (base_url : string) (version : Z)
  (script : list action) :
  maximum_concurrent_number
    (fold_left (perform session_get) script (__init__ base_url version)) <= 10.
Proof.
  assert (G : forall steps self,
             maximum_concurrent_number self <= 10 ->
             maximum_concurrent_number
               (fold_left (perform session_get) steps self) <= 10).
  { intros steps. induction steps as [|a rest IH]; intros self H; simpl;
      [exact H|].
    apply IH. destruct a as [n|query]; simpl.
    - unfold maximum_concurrent_number_setter.
      destruct (Z.gtb_spec n 10); simpl; [exact H|].
      unfold maximum_concurrent_number. simpl. lia.
    - destruct (_response_state session_get query self) as [_ [_ X]].
      unfold maximum_concurrent_number in *. rewrite X. exact H. }
  apply G. unfold maximum_concurrent_number. simpl. lia.
Qed.

End SingleRequest.

Lemma last_url_after_response_witness :
  fst (get_request_url
         (snd (_response Scenarios.bad_band "https://modis.ornl.gov/rst/api/v1/x"
                 Scenarios.client)))
  = inr "https://modis.ornl.gov/rst/api/v1/x".
Proof.
  apply (last_url_after_response Scenarios.bad_band
           "https://modis.ornl.gov/rst/api/v1/x" Scenarios.client
           (Scenarios.reply 500 "INTERNAL SERVER ERROR"
              "https://modis.ornl.gov/rst/api/v1/x"
              (JDict [("detail", JStr "bad band")]))).
  - reflexivity.
  - discriminate.
Defined.

Lemma last_time_after_response_witness :
  let time := fst (get_request_http_time
                     (snd (_response Scenarios.no_date_header "https://modis.ornl.gov/x"
                             Scenarios.client))) in
  (None = (None : option string) -> time = inr JNull) /\
  (forall d, None = Some d -> d <> "" -> time = inr (JStr d)) /\
  (None = Some "" -> exists msg, time = inl (NameError msg)).
Proof.
  apply (last_time_after_response Scenarios.no_date_header
           "https://modis.ornl.gov/x" Scenarios.client
           {| status_code := 200; reason := "OK"; url := "https://modis.ornl.gov/x";
              date_header := None; text := ""; decoded := Some (JDict []) |}).
  reflexivity.
Defined.

Lemma accessors_blank_after_failure_witness :
  let self' := snd (_response Scenarios.unreachable "https://modis.ornl.gov/x"
                      Scenarios.client) in
  (exists msg, fst (get_request_url self') = inl (NameError msg)) /\
  (exists msg, fst (get_request_http_time self') = inl (NameError msg)).
Proof.
  apply (accessors_blank_after_failure Scenarios.unreachable
           "https://modis.ornl.gov/x" Scenarios.client
           {| class := ConnectionError; request := Some "https://modis.ornl.gov/x";
              response := None |}).
  reflexivity.
Defined.

Lemma success_body_passes_through_witness :
  fst (_response Scenarios.under_maintenance "https://modis.ornl.gov/x"
         Scenarios.client)
  = inr (JDict [("status", JStr "maintenance"); ("products", JList [])]).
Proof.
  apply (success_body_passes_through Scenarios.under_maintenance
           "https://modis.ornl.gov/x" Scenarios.client
           (Scenarios.reply 200 "OK" "https://modis.ornl.gov/x"
              (JDict [("status", JStr "maintenance"); ("products", JList [])])));
    reflexivity.
Defined.

Lemma failure_without_request_escapes_witness :
  fst (_response Scenarios.no_request "modis.ornl.gov/x" Scenarios.client)
  = inl (AttributeError "url").
Proof.
  apply (failure_without_request_escapes Scenarios.no_request "modis.ornl.gov/x"
           Scenarios.client
           {| class := MissingSchema; request := None; response := None |});
    reflexivity.
Defined.

Lemma undecodable_body_escapes_witness :
  exists e,
    fst (_response Scenarios.not_json "https://modis.ornl.gov/x" Scenarios.client)
    = inl e.
Proof.
  apply (undecodable_body_escapes Scenarios.not_json "https://modis.ornl.gov/x"
           Scenarios.client
           {| status_code := 200; reason := "OK"; url := "https://modis.ornl.gov/x";
              date_header := None; text := "<html></html>"; decoded := None |});
    reflexivity.
Defined.

(* ================================================================== *)
(** * Chunk splitting *)
(* ================================================================== *)

Section Chunks.

Context {A : Type}.
Variable dates : list A.
Variable n : Z.
Hypothesis n_positive : 1 <= n.

Let len : Z := Z.of_nat (List.length dates).

Lemma slice_z_chunk (k : Z) :
  0 <= k < len ->
  (slice_z k (k + n) dates ++ skipn (Z.to_nat (k + n)) dates)%list
  = skipn (Z.to_nat k) dates /\
  (1 <= List.length (slice_z k (k + n) dates))%nat /\
  Z.of_nat (List.length (slice_z k (k + n) dates)) <= n.
Proof.
  intros Hk. unfold slice_z, slice. fold len.
  destruct (Z.ltb_spec k 0); [lia|].
  destruct (Z.ltb_spec (k + n) 0); [lia|].
  rewrite (Z.min_l k len) by lia.
  assert (L : List.length (skipn (Z.to_nat k) dates)
              = (List.length dates - Z.to_nat k)%nat) by apply length_skipn.
  destruct (Z.le_gt_cases (k + n) len) as [Le|Gt].
  - rewrite (Z.min_l (k + n) len) by lia.
    split.
    + replace (Z.to_nat (k + n)) with (Z.to_nat (k + n) - Z.to_nat k + Z.to_nat k)%nat
        at 2 by lia.
      rewrite <- skipn_skipn. apply firstn_skipn.
    + rewrite length_firstn, L. unfold len in *. lia.
  - rewrite (Z.min_r (k + n) len) by lia.
    split.
    + rewrite (skipn_all2 (n := Z.to_nat (k + n)) dates) by (unfold len in *; lia).
      rewrite List.app_nil_r. apply firstn_all2. rewrite L. unfold len. lia.
    + rewrite length_firstn, L. unfold len in *. lia.
Qed.

Lemma range_from_chunks (fuel : nat) (i : Z) :
  0 <= i -> (Z.to_nat (len - i) <= fuel)%nat ->
  List.concat (map (fun k => slice_z k (k + n) dates) (range_from fuel i len n))
  = skipn (Z.to_nat i) dates /\
  Forall (fun k => 0 <= k < len) (range_from fuel i len n).
Proof.
  revert i. induction fuel as [|fuel IH]; intros i Hi Hf; simpl.
  - split; [|constructor]. symmetry. apply skipn_all2. unfold len in *. lia.
  - destruct (Z.ltb_spec 0 n); [|lia].
    destruct (Z.ltb_spec i len) as [Lt|Ge].
    + destruct (IH (i + n)) as [C F]; [lia|lia|].
      simpl. rewrite C. split.
      * apply (slice_z_chunk i). lia.
      * constructor; [lia|exact F].
    + split; [|constructor]. symmetry. apply skipn_all2. unfold len in *. lia.
Qed.

End Chunks.

(** X13.  With a stored limit of at least 1, chunk splitting loses no date and
    keeps their order: the chunks concatenated are the dates, no chunk
    is empty and none is longer than the limit. *)
Theorem chunks_partition {A} (self : provider) (dates : list A) :
  1 <= maximum_concurrent_number self ->
  exists cs,
    chunks self dates = inr cs /\
    List.concat cs = dates /\
    Forall (fun c => (1 <= List.length c)%nat /\
                     Z.of_nat (List.length c) <= maximum_concurrent_number self) cs.
Proof.
  unfold maximum_concurrent_number. intros H.
  set (n := _MAXIMUM_CONCURRENT_NUMBER self) in *.
  unfold chunks, range. fold n.
  destruct (Z.eqb_spec n 0); [lia|]. simpl.
  eexists. split; [reflexivity|].
  rewrite Z.sub_0_r, Zabs2Nat.id.
  destruct (range_from_chunks dates n H (List.length dates) 0) as [C F];
    [lia|lia|].
  split; [exact C|].
  apply Forall_forall. intros c Hc. apply in_map_iff in Hc.
  destruct Hc as [k [<- Hk]]. rewrite Forall_forall in F.
  apply (slice_z_chunk dates n H k). exact (F k Hk).
Qed.

Lemma chunks_partition_witness :
  exists cs,
    chunks Scenarios.client ["A1"; "A2"; "A3"] = inr cs /\
    List.concat cs = ["A1"; "A2"; "A3"] /\
    Forall (fun c => (1 <= List.length c)%nat /\
                     Z.of_nat (List.length c)
                     <= maximum_concurrent_number Scenarios.client) cs.
Proof.
  apply (chunks_partition Scenarios.client ["A1"; "A2"; "A3"]).
  vm_compute. discriminate.
Defined.

(* ================================================================== *)
(** * Presence, last acquisition and the batch entry points *)
(* ================================================================== *)

Lemma str_in_In (x : string) (l : list json) :
  str_in x l = true <-> In (JStr x) l.
Proof.
  unfold str_in. rewrite existsb_exists. split.
  - intros [v [Hin Hv]]. destruct v; try discriminate.
    apply String.eqb_eq in Hv. subst. exact Hin.
  - intros Hin. exists (JStr x). split; [exact Hin|apply String.eqb_refl].
Qed.

Lemma str_le_refl (a : string) : str_le a a.
Proof.
  unfold str_le, String.leb.
  assert (E : String.compare a a = Eq) by (apply String_as_OT.cmp_eq; reflexivity).
  rewrite E. reflexivity.
Qed.

Lemma str_le_trans (a b c : string) : str_le a b -> str_le b c -> str_le a c.
Proof.
  unfold str_le, String.leb. intros H1 H2.
  destruct (String.compare a b) eqn:C1; try discriminate;
    destruct (String.compare b c) eqn:C2; try discriminate.
  - apply String_as_OT.cmp_eq in C1. subst. rewrite C2. reflexivity.
  - apply String_as_OT.cmp_eq in C1. subst. rewrite C2. reflexivity.
  - apply String_as_OT.cmp_eq in C2. subst. rewrite C1. reflexivity.
  - apply String_as_OT.cmp_lt in C1. apply String_as_OT.cmp_lt in C2.
    pose proof (String_as_OT.lt_trans _ _ _ C1 C2) as T.
    apply String_as_OT.cmp_lt in T. unfold String_as_OT.cmp in T.
    rewrite T. reflexivity.
Qed.

(** [max] returns an element that no element exceeds. *)
Lemma max_from_spec (l : list string) (best : string) :
  let m := max_from best l in
  (m = best \/ In m l) /\ str_le best m /\ Forall (fun x => str_le x m) l.
Proof.
  revert best. induction l as [|x r IH]; intros best; simpl.
  - split; [auto|]. split; [apply str_le_refl|constructor].
  - destruct (String.ltb best x) eqn:C.
    + destruct (IH x) as [H1 [H2 H3]]. split; [|split].
      * destruct H1 as [->|H1]; auto.
      * eapply str_le_trans; [apply ltb_le; exact C|exact H2].
      * constructor; assumption.
    + destruct (IH best) as [H1 [H2 H3]]. split; [|split].
      * destruct H1 as [->|H1]; auto.
      * exact H2.
      * constructor; [|exact H3].
        eapply str_le_trans; [apply not_ltb_le; exact C|exact H2].
Qed.

Lemma max_str_spec (l : list string) :
  l <> [] ->
  exists m, max_str l = inr m /\ In m l /\ Forall (fun x => str_le x m) l.
Proof.
  destruct l as [|x r]; [congruence|]. intros _.
  destruct (max_from_spec r x) as [H1 [H2 H3]].
  exists (max_from x r). split; [reflexivity|]. split.
  - simpl. destruct H1 as [->|H1]; auto.
  - constructor; assumption.
Qed.

Lemma traverse_item_tokens (entries : list json) (tokens : list string) :
  Forall2 (fun e t => py_item _MODIS_DATE e = inr (JStr t)) entries tokens ->
  (ts <- traverse (py_item _MODIS_DATE) entries ;; traverse as_str ts)
  = inr tokens.
Proof.
  induction 1 as [|e t es ts H _ IH]; simpl; [reflexivity|].
  rewrite H. simpl.
  destruct (traverse (py_item _MODIS_DATE) es) as [x|js]; simpl in *;
    [discriminate|].
  rewrite IH. reflexivity.
Qed.

Lemma yield_each_app {A B} (body : A -> M B) (l1 l2 : list A) (self : provider) :
  yield_each body (l1 ++ l2) self
  = let '((ys1, stop1), s1) := yield_each body l1 self in
    match stop1 with
    | Some e => ((ys1, Some e), s1)
    | None =>
        let '((ys2, stop2), s2) := yield_each body l2 s1 in
        ((ys1 ++ ys2)%list, stop2, s2)
    end.
Proof.
  revert self. induction l1 as [|x r IH]; intros self; simpl.
  - destruct (yield_each body l2 self) as [[ys2 stop2] s2]. reflexivity.
  - destruct (body x self) as [[e|y] s']; [reflexivity|].
    rewrite IH. destruct (yield_each body r s') as [[ys1 [e|]] s1];
      [reflexivity|].
    destruct (yield_each body l2 s1) as [[ys2 stop2] s2]. reflexivity.
Qed.

Section Batch.

Variable session_get : list string -> string -> attempt.
Variable product : Products.t.
Variables latitude longitude : float.
Variable band : Bands.t.
Variables km_above_below km_left_right : Z.
Variable render : json -> string.

Lemma failed_attempt_result (query : string) (self : provider) (err : exception)
  (u : string) :
  session_get (wire self) query = Failed err ->
  request err = Some u ->
  response err = None ->
  exists title code,
    _response session_get query self
    = (inr (JDict [("status", JInt code); ("title", JStr title); ("url", JStr u);
                   ("detail", JStr ("Exception for " ++ u))]),
       sending query (set_last_request (JStr "") "" self)).
Proof.
  intros A Q R. unfold _response. rewrite A.
  unfold handle, _error_fault_handling. rewrite Q, R.
  destruct (is_HTTPError (class err)); [eexists; eexists; reflexivity|].
  destruct (is_ConnectionError (class err)); [eexists; eexists; reflexivity|].
  destruct (is_Timeout (class err)); eexists; eexists; reflexivity.
Qed.

(** X14.  [is_present] on top of a dates call that obtained no response raises
    the request exception with the detail of the normalized error,
    ["Exception for <url>"], as its message. *)
Theorem is_present_raises_on_failure (reference_date : string) (self : provider)
  (err : exception) (u : string) :
  session_get (wire self) (dates_query self product latitude longitude)
  = Failed err ->
  request err = Some u ->
  response err = None ->
  fst (is_present session_get product latitude longitude reference_date self)
  = inl (RequestFailure (JStr ("Exception for " ++ u))).
Proof.
  intros A Q R.
  destruct (failed_attempt_result _ _ _ _ A Q R) as [title [code E]].
  unfold is_present, bindM, dates. rewrite E. reflexivity.
Qed.

(** X15.  [is_present] on top of a successful dates call returns whether some
    entry of the date set has the reference date as its [modis_date]; it
    sends no second request. *)
Theorem is_present_is_membership (reference_date : string)
  (self self1 : provider) (payload : json) (tokens : list json) :
  dates session_get product latitude longitude self = (inr payload, self1) ->
  py_in "status" payload = inr false ->
  modis_dates payload = inr tokens ->
  exists present,
    is_present session_get product latitude longitude reference_date self
    = (inr present, self1) /\
    (present = true <-> In (JStr reference_date) tokens).
Proof.
  intros D S T. unfold is_present, bindM, lift. rewrite D, S, T.
  eexists. split; [reflexivity|]. apply str_in_In.
Qed.

(** X16.  [last_product] returns the error mapping of a failed dates call
    unchanged, without a second request.  Otherwise it asks for the
    subset of one date, the greatest token of the date set (as start and
    as end date); on an empty date set [max] raises. *)
Theorem last_product_queries_latest (self self1 : provider) (payload : json) :
  dates session_get product latitude longitude self = (inr payload, self1) ->
  let run := last_product session_get product latitude longitude band
               km_above_below km_left_right self in
  (py_in "status" payload = inr true -> run = (inr payload, self1)) /\
  (py_in "status" payload = inr false ->
   forall entries tokens,
     (slot <- py_get _DATES_SLOT payload ;; py_iter slot) = inr entries ->
     Forall2 (fun e t => py_item _MODIS_DATE e = inr (JStr t)) entries tokens ->
     (tokens = [] -> run = (inl MaxEmpty, self1)) /\
     (tokens <> [] ->
      exists latest,
        In latest tokens /\ Forall (fun t => str_le t latest) tokens /\
        run = subset session_get product latitude longitude band latest latest
                km_above_below km_left_right self1)).
Proof.
  intros D run. subst run. unfold last_product, bindM, lift. rewrite D. split.
  - intros S. rewrite S. reflexivity.
  - intros S entries tokens I F. rewrite S. simpl.
    assert (L : last_date payload = max_str tokens).
    { unfold last_date.
      destruct (py_get _DATES_SLOT payload) as [e|slot]; simpl in *;
        [discriminate|].
      rewrite I. simpl.
      pose proof (traverse_item_tokens entries tokens F) as T.
      destruct (traverse (py_item _MODIS_DATE) entries) as [e|ts]; simpl in *;
        [discriminate|].
      rewrite T. reflexivity. }
    rewrite L. split.
    + intros ->. reflexivity.
    + intros NE. destruct (max_str_spec tokens NE) as [m [Hm [Hin Hle]]].
      exists m. rewrite Hm. auto.
Qed.

(** X17.  [execute_all] yields the error mapping of a failed dates call and
    stops.  Otherwise, on entries that carry string tokens, it runs the
    subset calls of the entries in the order of the service (nothing is
    sorted), one at a time, with the token of the entry as start and as
    end date: run to exhaustion it has yielded one result per entry and
    sent one subset query per entry, in that order; stopped by an
    exception it has yielded the results of the entries before the one
    whose attempt could not be normalized and has requested no later
    entry; and it runs to exhaustion when every attempt can be
    normalized. *)
Theorem execute_all_in_service_order (self self1 : provider) (payload : json) :
  dates session_get product latitude longitude self = (inr payload, self1) ->
  let run := execute_all session_get render product latitude longitude band
               km_above_below km_left_right self in
  let query := fun t =>
                 subset_query self1 product latitude longitude band t t
                   km_above_below km_left_right in
  (py_in "status" payload = inr true -> run = (([payload], None), self1)) /\
  (py_in "status" payload = inr false ->
   forall entries tokens,
     (slot <- py_get _DATES_SLOT payload ;; py_iter slot) = inr entries ->
     Forall2 (fun e t => py_item _MODIS_DATE e = inr (JStr t)) entries tokens ->
     run = yield_each
             (fun t => subset session_get product latitude longitude band t t
                         km_above_below km_left_right)
             tokens self1 /\
     (forall ys self2,
        run = ((ys, None), self2) ->
        List.length ys = List.length entries /\
        wire self2 = (wire self1 ++ map query tokens)%list) /\
     (forall ys e self2,
        run = ((ys, Some e), self2) ->
        exists t,
          nth_error tokens (List.length ys) = Some t /\
          wire self2
          = (wire self1 ++ map query (firstn (S (List.length ys)) tokens))%list /\
          normalizable
            (session_get
               (wire self1 ++ map query (firstn (List.length ys) tokens))%list
               (query t)) = false) /\
     ((forall history q, normalizable (session_get history q) = true) ->
      exists ys self2,
        run = ((ys, None), self2) /\
        List.length ys = List.length entries /\
        wire self2 = (wire self1 ++ map query tokens)%list)).
Proof.
  intros D run query. subst run query. unfold execute_all. rewrite D. split.
  - intros S. rewrite S. reflexivity.
  - intros S entries tokens I F. rewrite S, I. clear D I.
    pose proof (Forall2_length F) as Len.
    assert (E : yield_each
                  (fun d =>
                     time_date <~ lift (py_item _MODIS_DATE d) ;;
                     subset session_get product latitude longitude band
                       (format render time_date) (format render time_date)
                       km_above_below km_left_right) entries self1
                = yield_each
                    (fun t => subset session_get product latitude longitude band t t
                                km_above_below km_left_right) tokens self1).
    { clear Len. revert self1.
      induction F as [|e t es ts H _ IH]; intros self1; simpl; [reflexivity|].
      unfold bindM at 1, lift at 1. rewrite H. simpl.
      destruct (subset session_get product latitude longitude band t t
                  km_above_below km_left_right self1) as [[x|y] s']; [reflexivity|].
      rewrite IH. reflexivity. }
    rewrite E. split; [reflexivity|]. split; [|split].
    + intros ys self2 H. rewrite Len.
      exact (yield_each_exhausted session_get product latitude longitude band
               km_above_below km_left_right tokens self1 self2 ys H).
    + intros ys e self2 H.
      exact (yield_each_stopped session_get product latitude longitude band
               km_above_below km_left_right tokens self1 self2 ys e H).
    + intros N.
      destruct (yield_each_total session_get product latitude longitude band
                  km_above_below km_left_right tokens self1 N) as [ys [self2 Y]].
      exists ys, self2. split; [exact Y|]. rewrite Len.
      exact (yield_each_exhausted session_get product latitude longitude band
               km_above_below km_left_right tokens self1 self2 ys Y).
Qed.

(** X18.  The dates of [execute_all] are looked up one at a time: an entry
    without a [modis_date] stops the generator with [KeyError] after the
    results of the entries before it have been yielded, and the entries
    after it are never requested. *)
Theorem execute_all_stops_at_missing_token (self self1 self2 : provider)
  (payload bad : json) (good rest : list json) (tokens : list string)
  (ys : list json) (e : exn) :
  dates session_get product latitude longitude self = (inr payload, self1) ->
  py_in "status" payload = inr false ->
  (slot <- py_get _DATES_SLOT payload ;; py_iter slot)
  = inr (good ++ bad :: rest)%list ->
  Forall2 (fun d t => py_item _MODIS_DATE d = inr (JStr t)) good tokens ->
  py_item _MODIS_DATE bad = inl e ->
  yield_each
    (fun t => subset session_get product latitude longitude band t t
                km_above_below km_left_right)
    tokens self1 = ((ys, None), self2) ->
  execute_all session_get render product latitude longitude band
    km_above_below km_left_right self
  = ((ys, Some e), self2) /\
  List.length ys = List.length tokens.
Proof.
  intros D S I F B Y. unfold execute_all. rewrite D, S, I.
  rewrite yield_each_app.
  assert (G : yield_each
                (fun d =>
                   time_date <~ lift (py_item _MODIS_DATE d) ;;
                   subset session_get product latitude longitude band
                     (format render time_date) (format render time_date)
                     km_above_below km_left_right) good self1
              = ((ys, None), self2)).
  { rewrite <- Y. clear Y D I. revert self1.
    induction F as [|d t ds ts H _ IH]; intros self1; simpl; [reflexivity|].
    unfold bindM at 1, lift at 1. rewrite H. simpl.
    destruct (subset session_get product latitude longitude band t t
                km_above_below km_left_right self1) as [[x|y] s']; [reflexivity|].
    rewrite IH. reflexivity. }
  rewrite G. simpl. unfold bindM at 1, lift at 1. rewrite B. simpl.
  rewrite List.app_nil_r. split; [reflexivity|].
  destruct (yield_each_exhausted session_get product latitude longitude band
              km_above_below km_left_right tokens self1 self2 ys Y) as [L _].
  exact L.
Qed.

(** X19.  On a date set whose entries carry string tokens, and with an
    inverted range, [execute_many] has made the dates request when the
    resolver raises the invalid-range error: nothing is yielded and no
    subset is requested. *)
Theorem execute_many_rejects_inverted_range (start_date end_date : string)
  (self self1 : provider) (payload : json) (entries : list json)
  (tokens : list string) (s e : Z) :
  dates session_get product latitude longitude self = (inr payload, self1) ->
  py_in "status" payload = inr false ->
  (slot <- py_get _DATES_SLOT payload ;; py_iter slot) = inr entries ->
  Forall2 (fun d t => py_get _MODIS_DATE d = inr (JStr t)) entries tokens ->
  numeric start_date = inr s ->
  numeric end_date = inr e ->
  s > e ->
  exists msg,
    execute_many session_get product latitude longitude band start_date end_date
      km_above_below km_left_right self
    = (([], Some (InvalidRange msg)), self1) /\
    wire self1
    = (wire self ++ [dates_query self product latitude longitude])%list.
Proof.
  intros D S I F Ns Ne G.
  destruct (sorted_time_dates_tokens payload entries tokens I F)
    as [time_dates [T _]].
  unfold execute_many. rewrite D, S, T. simpl.
  unfold compute_date_interval. rewrite Ns, Ne. simpl.
  destruct (Z.gtb_spec (s - e) 0); [|lia]. eexists. split; [reflexivity|].
  pose proof (_response_state session_get
                (dates_query self product latitude longitude) self) as St.
  unfold dates in D. rewrite D in St. simpl in St. exact (proj1 St).
Qed.

(** X20.  On an empty date set [execute_many] raises after the dates request:
    it does not yield an empty sequence. *)
Theorem execute_many_raises_on_no_dates (start_date end_date : string)
  (self self1 : provider) (payload : json) :
  dates session_get product latitude longitude self = (inr payload, self1) ->
  py_in "status" payload = inr false ->
  sorted_time_dates payload = inr [] ->
  exists e,
    execute_many session_get product latitude longitude band start_date end_date
      km_above_below km_left_right self
    = (([], Some e), self1).
Proof.
  intros D S T. unfold execute_many. rewrite D, S, T. simpl.
  unfold compute_date_interval, _find_closest_composite_date.
  destruct (numeric start_date) as [e1|s]; simpl; [eauto|].
  destruct (numeric end_date) as [e2|e]; simpl; [eauto|].
  destruct (s - e >? 0); simpl; eauto.
Qed.

End Batch.

Lemma is_present_raises_on_failure_witness :
  fst (is_present Scenarios.unreachable Products.MOD13Q1 "44.0" "10.3" "A2019305"
         Scenarios.client)
  = inl (RequestFailure
           (JStr ("Exception for " ++
                  "https://modis.ornl.gov/rst/api/v1/MOD13Q1/dates?latitude=44.0&longitude=10.3"))).
Proof.
  apply (is_present_raises_on_failure Scenarios.unreachable Products.MOD13Q1
           "44.0" "10.3" "A2019305" Scenarios.client
           {| class := ConnectionError;
              request := Some "https://modis.ornl.gov/rst/api/v1/MOD13Q1/dates?latitude=44.0&longitude=10.3";
              response := None |}); reflexivity.
Defined.

Lemma is_present_is_membership_witness :
  exists present,
    is_present Scenarios.three_dates Products.MOD13Q1 "44.0" "10.3" "A2020337"
      Scenarios.client
    = (inr present,
       snd (dates Scenarios.three_dates Products.MOD13Q1 "44.0" "10.3"
              Scenarios.client)) /\
    (present = true <->
     In (JStr "A2020337") [JStr "A2020345"; JStr "A2020330"; JStr "A2020337"]).
Proof.
  apply (is_present_is_membership Scenarios.three_dates Products.MOD13Q1
           "44.0" "10.3" "A2020337" Scenarios.client
           (snd (dates Scenarios.three_dates Products.MOD13Q1 "44.0" "10.3"
                   Scenarios.client))
           Scenarios.three_dates_payload); reflexivity.
Defined.

Lemma last_product_queries_latest_witness :
  exists latest,
    In latest ["A2020345"; "A2020330"; "A2020337"] /\
    Forall (fun t => str_le t latest) ["A2020345"; "A2020330"; "A2020337"] /\
    last_product Scenarios.three_dates Products.MOD13Q1 "44.0" "10.3"
      Scenarios.ndvi 0 0 Scenarios.client
    = subset Scenarios.three_dates Products.MOD13Q1 "44.0" "10.3" Scenarios.ndvi
        latest latest 0 0
        (snd (dates Scenarios.three_dates Products.MOD13Q1 "44.0" "10.3"
                Scenarios.client)).
Proof.
  refine (proj2 (proj2 (last_product_queries_latest Scenarios.three_dates
                          Products.MOD13Q1 "44.0" "10.3" Scenarios.ndvi 0 0
                          Scenarios.client
                          (snd (dates Scenarios.three_dates Products.MOD13Q1
                                  "44.0" "10.3" Scenarios.client))
                          Scenarios.three_dates_payload eq_refl)
                   eq_refl
                   [Scenarios.date_entry "A2020345"; Scenarios.date_entry "A2020330";
                    Scenarios.date_entry "A2020337"]
                   ["A2020345"; "A2020330"; "A2020337"] eq_refl _) _).
  - repeat constructor.
  - discriminate.
Defined.

Example last_product_scenario :
  fst (last_product Scenarios.three_dates Products.MOD13Q1 "44.0" "10.3"
         Scenarios.ndvi 0 0 Scenarios.client)
  = inr (JDict [("subset", JStr "https://modis.ornl.gov/rst/api/v1/MOD13Q1/subset?latitude=44.0&longitude=10.3&band=250m_16_days_NDVI&startDate=A2020345&endDate=A2020345&kmAboveBelow=0&kmLeftRight=0")]).
Proof. vm_compute. reflexivity. Qed.

Lemma execute_all_in_service_order_witness :
  let run := execute_all Scenarios.three_dates (fun _ => "") Products.MOD13Q1
               "44.0" "10.3" Scenarios.ndvi 0 0 Scenarios.client in
  let self1 := snd (dates Scenarios.three_dates Products.MOD13Q1 "44.0" "10.3"
                      Scenarios.client) in
  let query := fun t =>
                 subset_query self1 Products.MOD13Q1 "44.0" "10.3" Scenarios.ndvi
                   t t 0 0 in
  let tokens := ["A2020345"; "A2020330"; "A2020337"] in
  run = yield_each
          (fun t => subset Scenarios.three_dates Products.MOD13Q1 "44.0" "10.3"
                      Scenarios.ndvi t t 0 0)
          tokens self1 /\
  (forall ys self2,
     run = ((ys, None), self2) ->
     List.length ys = 3%nat /\
     wire self2 = (wire self1 ++ map query tokens)%list) /\
  (forall ys e self2,
     run = ((ys, Some e), self2) ->
     exists t,
       nth_error tokens (List.length ys) = Some t /\
       wire self2
       = (wire self1 ++ map query (firstn (S (List.length ys)) tokens))%list /\
       normalizable
         (Scenarios.three_dates
            (wire self1 ++ map query (firstn (List.length ys) tokens))%list
            (query t)) = false) /\
  ((forall history q, normalizable (Scenarios.three_dates history q) = true) ->
   exists ys self2,
     run = ((ys, None), self2) /\
     List.length ys = 3%nat /\
     wire self2 = (wire self1 ++ map query tokens)%list).
Proof.
  refine (proj2 (execute_all_in_service_order Scenarios.three_dates
                   Products.MOD13Q1 "44.0" "10.3" Scenarios.ndvi 0 0 (fun _ => "")
                   Scenarios.client
                   (snd (dates Scenarios.three_dates Products.MOD13Q1
                           "44.0" "10.3" Scenarios.client))
                   Scenarios.three_dates_payload eq_refl)
            eq_refl
            [Scenarios.date_entry "A2020345"; Scenarios.date_entry "A2020330";
             Scenarios.date_entry "A2020337"]
            ["A2020345"; "A2020330"; "A2020337"] eq_refl _).
  repeat constructor.
Defined.

Lemma execute_all_stops_at_missing_token_witness :
  let self1 := snd (dates Scenarios.date_without_token Products.MOD13Q1 "44.0" "10.3"
                      Scenarios.client) in
  let first := yield_each
                 (fun t => subset Scenarios.date_without_token Products.MOD13Q1
                             "44.0" "10.3" Scenarios.ndvi t t 0 0)
                 ["A2020345"] self1 in
  execute_all Scenarios.date_without_token (fun _ => "") Products.MOD13Q1
    "44.0" "10.3" Scenarios.ndvi 0 0 Scenarios.client
  = ((fst (fst first), Some (KeyError "modis_date")), snd first) /\
  List.length (fst (fst first)) = List.length ["A2020345"].
Proof.
  apply (execute_all_stops_at_missing_token Scenarios.date_without_token
           Products.MOD13Q1 "44.0" "10.3" Scenarios.ndvi 0 0 (fun _ => "")
           Scenarios.client
           (snd (dates Scenarios.date_without_token Products.MOD13Q1 "44.0" "10.3"
                   Scenarios.client))
           (snd (yield_each
                   (fun t => subset Scenarios.date_without_token Products.MOD13Q1
                               "44.0" "10.3" Scenarios.ndvi t t 0 0)
                   ["A2020345"]
                   (snd (dates Scenarios.date_without_token Products.MOD13Q1
                           "44.0" "10.3" Scenarios.client))))
           (JDict [("dates",
                    JList [Scenarios.date_entry "A2020345";
                           JDict [("calendar_date", JStr "2020-11-25")];
                           Scenarios.date_entry "A2020337"])])
           (JDict [("calendar_date", JStr "2020-11-25")])
           [Scenarios.date_entry "A2020345"] [Scenarios.date_entry "A2020337"]
           ["A2020345"]).
  - reflexivity.
  - reflexivity.
  - reflexivity.
  - repeat constructor.
  - reflexivity.
  - vm_compute. reflexivity.
Defined.

Lemma execute_many_rejects_inverted_range_witness :
  exists msg,
    execute_many Scenarios.three_dates Products.MOD13Q1 "44.0" "10.3" Scenarios.ndvi
      "A2020340" "A2020330" 0 0 Scenarios.client
    = (([], Some (InvalidRange msg)),
       snd (dates Scenarios.three_dates Products.MOD13Q1 "44.0" "10.3"
              Scenarios.client)) /\
    wire (snd (dates Scenarios.three_dates Products.MOD13Q1 "44.0" "10.3"
                 Scenarios.client))
    = (wire Scenarios.client
       ++ [dates_query Scenarios.client Products.MOD13Q1 "44.0" "10.3"])%list.
Proof.
  apply (execute_many_rejects_inverted_range Scenarios.three_dates
           Products.MOD13Q1 "44.0" "10.3" Scenarios.ndvi 0 0
           "A2020340" "A2020330" Scenarios.client
           (snd (dates Scenarios.three_dates Products.MOD13Q1 "44.0" "10.3"
                   Scenarios.client))
           Scenarios.three_dates_payload
           [Scenarios.date_entry "A2020345"; Scenarios.date_entry "A2020330";
            Scenarios.date_entry "A2020337"]
           ["A2020345"; "A2020330"; "A2020337"] 2020340 2020330);
    first [reflexivity | lia | repeat constructor].
Defined.

Lemma execute_many_raises_on_no_dates_witness :
  exists e,
    execute_many Scenarios.no_dates Products.MOD13Q1 "44.0" "10.3" Scenarios.ndvi
      "A2020330" "A2020340" 0 0 Scenarios.client
    = (([], Some e),
       snd (dates Scenarios.no_dates Products.MOD13Q1 "44.0" "10.3"
              Scenarios.client)).
Proof.
  apply (execute_many_raises_on_no_dates Scenarios.no_dates
           Products.MOD13Q1 "44.0" "10.3" Scenarios.ndvi 0 0
           "A2020330" "A2020340" Scenarios.client
           (snd (dates Scenarios.no_dates Products.MOD13Q1 "44.0" "10.3"
                   Scenarios.client))
           (JDict [("dates", JList [])])); reflexivity.
Defined.

(* ================================================================== *)
(** * Further properties of the availability report *)
(* ================================================================== *)

Section ReportEdges.

Variable session_get : list string -> string -> attempt.
Variables latitude longitude : float.
Variable reference_date : string.

(** X22.  For a products call that succeeds with an empty product list the
    function returns [None], not a report; nothing more is requested. *)
Theorem report_of_no_product_is_none (self self1 : provider) (payload : json) :
  products session_get Sensors.ALL Tools.ALL self = (inr payload, self1) ->
  py_in "status" payload = inr false ->
  (slot <- py_get "products" payload ;; py_iter slot) = inr [] ->
  available_products_by_date session_get latitude longitude reference_date self
  = (inr JNull, self1) /\
  JNull <> product_report reference_date [] [].
Proof.
  intros P S L. unfold available_products_by_date, bindM, lift.
  rewrite P, S, L. split; [reflexivity|discriminate].
Qed.

Lemma member_code (m : Products.t) :
  m <> Products.DAYMET ->
  upper (Products.value m) = Products.value m /\
  mem (Products.value m) all_products = true.
Proof. destruct m; intros H; try (split; reflexivity). congruence. Qed.

(** X23.  A product entry whose code is the token of a member of the
    enumeration has its dates requested, for every member but Daymet:
    for Daymet the iteration requests nothing. *)
Theorem every_product_but_daymet_is_looked_up (m : Products.t) (entry : json)
  (self : provider) :
  py_get "product" entry = inr (JStr (Products.value m)) ->
  wire (snd (report_product session_get latitude longitude reference_date
               entry self))
  = match m with
    | Products.DAYMET => wire self
    | _ => (wire self ++ [dates_query self m latitude longitude])%list
    end.
Proof.
  intros G.
  assert (C : (c <- py_get "product" entry ;; py_upper c)
              = inr (upper (Products.value m))).
  { rewrite G. reflexivity. }
  destruct (report_product_spec session_get latitude longitude reference_date
              entry _ self C) as [A B].
  assert (D : m = Products.DAYMET \/ m <> Products.DAYMET).
  { destruct m; try (right; discriminate). left. reflexivity. }
  destruct D as [->|N].
  - rewrite (A eq_refl). reflexivity.
  - destruct (member_code m N) as [U Hm]. rewrite U in A, B.
    destruct (B Hm) as [member [Ga [_ [St _]]]].
    assert (E : member = m).
    { rewrite (getattr_value m N) in Ga. congruence. }
    subst member. rewrite St.
    destruct (_response_state session_get
                (dates_query self m latitude longitude) self) as [W _].
    unfold dates. rewrite W. destruct m; try reflexivity. congruence.
Qed.

End ReportEdges.

Lemma report_of_no_product_is_none_witness :
  available_products_by_date Scenarios.empty_catalog "44.0" "10.3" "A2020337"
    Scenarios.client
  = (inr JNull,
     snd (products Scenarios.empty_catalog Sensors.ALL Tools.ALL Scenarios.client)) /\
  JNull <> product_report "A2020337" [] [].
Proof.
  apply (report_of_no_product_is_none Scenarios.empty_catalog
           "44.0" "10.3" "A2020337" Scenarios.client
           (snd (products Scenarios.empty_catalog Sensors.ALL Tools.ALL
                   Scenarios.client))
           (JDict [("products", JList [])])); reflexivity.
Defined.

Lemma every_product_but_daymet_is_looked_up_witness :
  wire (snd (report_product Scenarios.daymet_first "44.0" "10.3" "A2020337"
               (Scenarios.product_entry "Daymet") Scenarios.client))
  = wire Scenarios.client /\
  wire (snd (report_product Scenarios.daymet_first "44.0" "10.3" "A2020337"
               (Scenarios.product_entry "MOD13Q1") Scenarios.client))
  = (wire Scenarios.client ++
     [dates_query Scenarios.client Products.MOD13Q1 "44.0" "10.3"])%list.
Proof.
  split.
  - apply (every_product_but_daymet_is_looked_up Scenarios.daymet_first
             "44.0" "10.3" "A2020337" Products.DAYMET
             (Scenarios.product_entry "Daymet") Scenarios.client).
    reflexivity.
  - apply (every_product_but_daymet_is_looked_up Scenarios.daymet_first
             "44.0" "10.3" "A2020337" Products.MOD13Q1
             (Scenarios.product_entry "MOD13Q1") Scenarios.client).
    reflexivity.
Defined.

(* ================================================================== *)
(** * Properties of the enumerations *)
(* ================================================================== *)

Lemma products_find_value (m : Products.t) :
  find (fun x => String.eqb (Products.value x) (Products.value m)) Products.members
  = Some m.
Proof. destruct m; reflexivity. Qed.

(** X24.  The tokens of each enumeration are pairwise distinct, and a member
    is found again by its name. *)
Theorem tokens_are_unique :
  (forall a b : Products.t, Products.value a = Products.value b -> a = b) /\
  (forall a b : Sensors.t, Sensors.value a = Sensors.value b -> a = b) /\
  (forall a b : Tools.t, Tools.value a = Tools.value b -> a = b) /\
  (forall m : Products.t, Products.getattr (Products.name m) = inr m).
Proof.
  split; [|split; [|split]].
  - intros a b H. pose proof (products_find_value a) as Fa.
    rewrite H, products_find_value in Fa. congruence.
  - intros a b; destruct a, b; simpl; intros H; try reflexivity; discriminate.
  - intros a b; destruct a, b; simpl; intros H; try reflexivity; discriminate.
  - intros m; destruct m; reflexivity.
Qed.

Lemma tokens_are_unique_witness :
  Products.MOD13Q1 = Products.MOD13Q1.
Proof.
  apply (proj1 tokens_are_unique Products.MOD13Q1 Products.MOD13Q1). reflexivity.
Defined.

(* ================================================================== *)
(** * Properties of the concurrent normalization *)
(* ================================================================== *)

Ltac split_positive p depth :=
  match depth with
  | O => idtac
  | S ?d => destruct p as [p|p|]; [split_positive p d|split_positive p d|]
  end.

(** X25.  Only the codes from 200 to 511 have a label. *)
Theorem label_only_between_200_and_511 (status_code : Z) :
  status_code < 200 \/ 511 < status_code ->
  aiohttp_handler_exception status_code = "Unknown status code".
Proof.
  intros H. destruct status_code as [|p|p]; try reflexivity.
  split_positive p 9%nat; try reflexivity; exfalso; lia.
Qed.

Lemma label_only_between_200_and_511_witness :
  aiohttp_handler_exception 599 = "Unknown status code".
Proof. apply (label_only_between_200_and_511 599). lia. Defined.

(** X26.  In a concurrent task a response with a status of 400 or more is
    normalized without reading its body: the detail is the label of the
    status code, and the last-request state is left blank. *)
Theorem asynchronous_http_error_labelled (session_get : string -> Aiohttp.attempt)
  (request_url : string) (self : provider) (r : Aiohttp.Response) :
  session_get request_url = Aiohttp.Returned r ->
  400 <= Aiohttp.status r ->
  let self' := snd (_asynchronous_response session_get request_url self) in
  fst (_asynchronous_response session_get request_url self)
  = inr (JDict [("status", JInt (Aiohttp.status r));
                ("title", JStr (Aiohttp.reason r));
                ("url", JStr (Aiohttp.url r));
                ("detail", JStr (aiohttp_handler_exception (Aiohttp.status r)))]) /\
  _requests_time self' = JStr "" /\ _requests_url self' = "".
Proof.
  intros A H. unfold _asynchronous_response. rewrite A. unfold Aiohttp.ok.
  destruct (Z.ltb_spec (Aiohttp.status r) 400); [lia|].
  repeat split.
Qed.

Lemma asynchronous_http_error_labelled_witness :
  let self' := snd (_asynchronous_response Scenarios.unavailable
                      "https://modis.ornl.gov/x" Scenarios.client) in
  fst (_asynchronous_response Scenarios.unavailable "https://modis.ornl.gov/x"
         Scenarios.client)
  = inr (JDict [("status", JInt 503);
                ("title", JStr "Service Unavailable");
                ("url", JStr "https://modis.ornl.gov/x");
                ("detail", JStr (aiohttp_handler_exception 503))]) /\
  _requests_time self' = JStr "" /\ _requests_url self' = "".
Proof.
  apply (asynchronous_http_error_labelled Scenarios.unavailable
           "https://modis.ornl.gov/x" Scenarios.client
           {| Aiohttp.status := 503; Aiohttp.reason := "Service Unavailable";
              Aiohttp.url := "https://modis.ornl.gov/x";
              Aiohttp.date_header := Some "Mon";
              Aiohttp.body := Aiohttp.Decoded (JDict [("detail", JStr "down")]) |}).
  - reflexivity.
  - simpl. lia.
Defined.

(** X27.  In a concurrent task an exception of one of the four caught
    families is normalized to status 777 with the requested URL and the
    text of the exception as detail; an exception of another class
    leaves the client. *)
Theorem asynchronous_failure_normalized (session_get : string -> Aiohttp.attempt)
  (request_url : string) (self : provider) (err : Aiohttp.exception) :
  session_get request_url = Aiohttp.Failed err ->
  fst (_asynchronous_response session_get request_url self)
  = match asynchronous_title (Aiohttp.class err) with
    | Some title =>
        inr (JDict [("status", JInt 777); ("title", JStr title);
                    ("url", JStr request_url);
                    ("detail", JStr (Aiohttp.message err))])
    | None => inl (ClientError (Aiohttp.message err))
    end.
Proof.
  intros A. unfold _asynchronous_response. rewrite A. simpl.
  unfold handle_asynchronous, asynchronous_title.
  destruct (Aiohttp.is_ClientConnectorError (Aiohttp.class err)); [reflexivity|].
  destruct (Aiohttp.is_ClientResponseError (Aiohttp.class err)); [reflexivity|].
  destruct (Aiohttp.is_ClientPayloadError (Aiohttp.class err)); [reflexivity|].
  destruct (Aiohttp.is_InvalidURL (Aiohttp.class err)); reflexivity.
Qed.

Lemma asynchronous_failure_normalized_witness :
  fst (_asynchronous_response Scenarios.cannot_connect "https://modis.ornl.gov/x"
         Scenarios.client)
  = inr (JDict [("status", JInt 777); ("title", JStr "CLIENT CONNECTION ERROR");
                ("url", JStr "https://modis.ornl.gov/x");
                ("detail", JStr "Cannot connect to host")]).
Proof.
  apply (asynchronous_failure_normalized Scenarios.cannot_connect
           "https://modis.ornl.gov/x" Scenarios.client
           {| Aiohttp.class := Aiohttp.ClientConnectorError;
              Aiohttp.message := "Cannot connect to host" |}).
  reflexivity.
Defined.

(* ================================================================== *)
(** * String order and numeric order of composite dates *)
(* ================================================================== *)

Lemma value_cons (u : uint) :
  let P := (10 ^ Unsigned.usize u)%N in
  let v := Pos.of_uint u in
  (Pos.of_uint (D0 u) = v + 0 * P /\ Pos.of_uint (D1 u) = v + 1 * P /\
   Pos.of_uint (D2 u) = v + 2 * P /\ Pos.of_uint (D3 u) = v + 3 * P /\
   Pos.of_uint (D4 u) = v + 4 * P /\ Pos.of_uint (D5 u) = v + 5 * P /\
   Pos.of_uint (D6 u) = v + 6 * P /\ Pos.of_uint (D7 u) = v + 7 * P /\
   Pos.of_uint (D8 u) = v + 8 * P /\ Pos.of_uint (D9 u) = v + 9 * P)%N.
Proof.
  intros P v. subst P v.
  repeat split; rewrite !Unsigned.of_uint_alt; unfold rev; simpl revapp;
    rewrite Unsigned.of_lu_revapp; reflexivity.
Qed.

(** The value of a digit in front of a number. *)
Lemma value_of_char (a : ascii) (u' u : uint) :
  uint_of_char a (Some u') = Some u ->
  (48 <= N_of_ascii a <= 57 /\
   Pos.of_uint u
   = Pos.of_uint u' + (N_of_ascii a - 48) * 10 ^ Unsigned.usize u' /\
   Unsigned.usize u = N.succ (Unsigned.usize u'))%N.
Proof.
  intros H. apply uint_of_char_spec in H.
  pose proof (value_cons u') as V. simpl in V.
  destruct V as [V0 [V1 [V2 [V3 [V4 [V5 [V6 [V7 [V8 V9]]]]]]]]].
  decompose [or and] H; subst; (split; [vm_compute; split; discriminate|]);
    (split; [|reflexivity]);
    first [exact V0|exact V1|exact V2|exact V3|exact V4
          |exact V5|exact V6|exact V7|exact V8|exact V9].
Qed.

Lemma value_bound (s : string) (u : uint) :
  NilEmpty.uint_of_string s = Some u ->
  (Pos.of_uint u < 10 ^ Unsigned.usize u)%N /\
  Unsigned.usize u = N.of_nat (String.length s).
Proof.
  revert u. induction s as [|a r IH]; simpl; intros u H.
  - inversion H. subst. split; [reflexivity|reflexivity].
  - destruct (NilEmpty.uint_of_string r) as [u'|] eqn:R; [|discriminate].
    destruct (IH u' eq_refl) as [B L].
    destruct (value_of_char a u' u H) as [D [V S]].
    split.
    + rewrite V, S, N.pow_succ_r'.
      assert (Hm : ((N_of_ascii a - 48) * 10 ^ Unsigned.usize u'
                    <= 9 * 10 ^ Unsigned.usize u')%N).
      { apply N.mul_le_mono_r. lia. }
      lia.
    + rewrite S, L. lia.
Qed.

(** On digit strings of the same length the order of strings is the
    order of values. *)
Lemma digits_order (s1 : string) :
  forall (s2 : string) (u1 u2 : uint),
    String.length s1 = String.length s2 ->
    NilEmpty.uint_of_string s1 = Some u1 ->
    NilEmpty.uint_of_string s2 = Some u2 ->
    str_le s1 s2 ->
    (Pos.of_uint u1 <= Pos.of_uint u2)%N.
Proof.
  induction s1 as [|a r1 IH]; intros s2 u1 u2 L H1 H2 Le.
  - destruct s2; [|discriminate]. simpl in *. inversion H1. inversion H2. lia.
  - destruct s2 as [|b r2]; [discriminate|]. simpl in L, H1, H2.
    destruct (NilEmpty.uint_of_string r1) as [u1'|] eqn:R1; [|discriminate].
    destruct (NilEmpty.uint_of_string r2) as [u2'|] eqn:R2; [|discriminate].
    destruct (value_of_char a u1' u1 H1) as [D1 [V1 _]].
    destruct (value_of_char b u2' u2 H2) as [D2 [V2 _]].
    destruct (value_bound r1 u1' R1) as [B1 S1].
    destruct (value_bound r2 u2' R2) as [B2 S2].
    assert (S : Unsigned.usize u1' = Unsigned.usize u2').
    { rewrite S1, S2. f_equal. congruence. }
    rewrite V1, V2, S. rewrite S in B1.
    set (P := (10 ^ Unsigned.usize u2')%N) in *.
    unfold str_le, String.leb in Le. simpl in Le.
    unfold Ascii.compare in Le.
    destruct (N.compare_spec (N_of_ascii a) (N_of_ascii b)) as [E|Lt|Gt].
    + rewrite E.
      assert (Le' : str_le r1 r2) by exact Le.
      pose proof (IH r2 u1' u2' (eq_add_S _ _ L) eq_refl R2 Le'). lia.
    + assert (Hm : ((N_of_ascii a - 48 + 1) * P <= (N_of_ascii b - 48) * P)%N).
      { apply N.mul_le_mono_r. lia. }
      lia.
    + discriminate.
Qed.

Lemma plain_order (a b : string) :
  is_plain_composite_date a = true -> is_plain_composite_date b = true ->
  str_le a b -> numeric_le a b.
Proof.
  intros Pa Pb Le.
  pose proof (plain_is_composite a Pa) as Ca.
  pose proof (plain_is_composite b Pb) as Cb.
  destruct (composite_date_inv a Ca) as [x [r [-> Da]]].
  destruct (composite_date_inv b Cb) as [y [t [-> Db]]].
  assert (La : String.length (String x r) = 7%nat).
  { simpl in Ca. apply andb_prop in Ca. destruct Ca as [L _].
    apply Nat.eqb_eq in L. simpl. lia. }
  assert (Lb : String.length (String y t) = 7%nat).
  { simpl in Cb. apply andb_prop in Cb. destruct Cb as [L _].
    apply Nat.eqb_eq in L. simpl. lia. }
  destruct (int_digits x r Da) as [ua [Ua Ia]].
  destruct (int_digits y t Db) as [ub [Ub Ib]].
  exists (Z.of_uint ua), (Z.of_uint ub).
  unfold numeric.
  change (remove_char "A" (String "A" (String x r)))
    with (remove_char "A" (String x r)).
  change (remove_char "A" (String "A" (String y t)))
    with (remove_char "A" (String y t)).
  rewrite (all_digits_remove_A _ Da), (all_digits_remove_A _ Db).
  split; [exact Ia|]. split; [exact Ib|].
  unfold Z.of_uint. apply N2Z.inj_le.
  apply (digits_order (String x r) (String y t)).
  - congruence.
  - exact Ua.
  - exact Ub.
  - exact Le.
Qed.

Lemma StronglySorted_weaken {A} (R R' : A -> A -> Prop) (l : list A) :
  (forall a b, In a l -> In b l -> R a b -> R' a b) ->
  StronglySorted R l -> StronglySorted R' l.
Proof.
  intros W S. induction S as [|x r S IH H]; constructor.
  - apply IH. intros a b Ha Hb. apply W; right; assumption.
  - rewrite Forall_forall in *. intros y Hy.
    apply W; [left; reflexivity|right; exact Hy|exact (H y Hy)].
Qed.

Lemma sorted_plain_dates_ascend (l : list string) :
  Forall (fun d => is_plain_composite_date d = true) l ->
  Sorted str_le l -> StronglySorted numeric_le l.
Proof.
  intros P S.
  apply (StronglySorted_weaken str_le numeric_le).
  - rewrite Forall_forall in P. intros a b Ha Hb. apply plain_order; auto.
  - apply Sorted_StronglySorted; [|exact S].
    intros a b c. apply str_le_trans.
Qed.

Section AtLeastOnce.

Variable session_get : list string -> string -> attempt.
Variable product : Products.t.
Variables latitude longitude : float.
Variable band : Bands.t.
Variables km_above_below km_left_right : Z.

(** X21.  For a valid range and a non-empty set of plain composite dates,
    [execute_many] requests at least one subset, the first for the date
    closest to the start date, even when the range lies outside the
    dates of the set; against a service whose every attempt can be
    normalized it yields at least one result. *)
Theorem execute_many_requests_some_date (start_date end_date : string)
  (self self1 : provider) (payload : json) (time_dates : list string) (s e : Z) :
  dates session_get product latitude longitude self = (inr payload, self1) ->
  py_in "status" payload = inr false ->
  sorted_time_dates payload = inr time_dates ->
  time_dates <> [] ->
  Forall (fun d => is_plain_composite_date d = true) time_dates ->
  numeric start_date = inr s ->
  numeric end_date = inr e ->
  s <= e ->
  let run := execute_many session_get product latitude longitude band
               start_date end_date km_above_below km_left_right self in
  exists first rest,
    _find_closest_composite_date time_dates start_date = inr first /\
    run = yield_each
            (fun time_date =>
               subset session_get product latitude longitude band
                 time_date time_date km_above_below km_left_right)
            (first :: rest) self1 /\
    ((forall history query, normalizable (session_get history query) = true) ->
     exists y ys self2, run = ((y :: ys, None), self2)).
Proof.
  intros D S T NE P Ns Ne Hle run. subst run.
  destruct (sorted_time_dates_spec payload time_dates T) as [So _].
  pose proof (sorted_plain_dates_ascend time_dates P So) as Asc.
  destruct (sorted_interval_spec time_dates start_date end_date s e
              NE P Asc Ns Ne Hle) as [sc [ec [interval [C1 [_ [I [N [H0 _]]]]]]]].
  destruct interval as [|first rest]; [congruence|].
  simpl in H0. inversion H0. subst first.
  exists sc, rest. split; [exact C1|].
  assert (E : execute_many session_get product latitude longitude band
                start_date end_date km_above_below km_left_right self
              = yield_each
                  (fun time_date =>
                     subset session_get product latitude longitude band
                       time_date time_date km_above_below km_left_right)
                  (sc :: rest) self1).
  { unfold execute_many. rewrite D, S, T. simpl. rewrite I. reflexivity. }
  split; [exact E|].
  intros Nm. rewrite E.
  destruct (yield_each_total session_get product latitude longitude band
              km_above_below km_left_right (sc :: rest) self1 Nm) as [ys [self2 Y]].
  destruct (yield_each_exhausted session_get product latitude longitude band
              km_above_below km_left_right (sc :: rest) self1 self2 ys Y) as [L _].
  destruct ys as [|y ys']; [discriminate|].
  exists y, ys', self2. exact Y.
Qed.

End AtLeastOnce.

Lemma execute_many_requests_some_date_witness :
  let run := execute_many Scenarios.three_dates Products.MOD13Q1 "44.0" "10.3"
               Scenarios.ndvi "A1999001" "A1999365" 0 0 Scenarios.client in
  exists first rest,
    _find_closest_composite_date ["A2020330"; "A2020337"; "A2020345"] "A1999001"
    = inr first /\
    run = yield_each
            (fun time_date =>
               subset Scenarios.three_dates Products.MOD13Q1 "44.0" "10.3"
                 Scenarios.ndvi time_date time_date 0 0)
            (first :: rest)
            (snd (dates Scenarios.three_dates Products.MOD13Q1 "44.0" "10.3"
                    Scenarios.client)) /\
    ((forall history query,
        normalizable (Scenarios.three_dates history query) = true) ->
     exists y ys self2, run = ((y :: ys, None), self2)).
Proof.
  apply (execute_many_requests_some_date Scenarios.three_dates Products.MOD13Q1
           "44.0" "10.3" Scenarios.ndvi 0 0 "A1999001" "A1999365" Scenarios.client
           (snd (dates Scenarios.three_dates Products.MOD13Q1 "44.0" "10.3"
                   Scenarios.client))
           Scenarios.three_dates_payload
           ["A2020330"; "A2020337"; "A2020345"] 1999001 1999365).
  - reflexivity.
  - reflexivity.
  - reflexivity.
  - discriminate.
  - repeat constructor.
  - reflexivity.
  - reflexivity.
  - lia.
Defined.

Example execute_many_outside_the_dates :
  fst (execute_many Scenarios.three_dates Products.MOD13Q1 "44.0" "10.3"
         Scenarios.ndvi "A1999001" "A1999365" 0 0 Scenarios.client)
  = ([JDict [("subset", JStr "https://modis.ornl.gov/rst/api/v1/MOD13Q1/subset?latitude=44.0&longitude=10.3&band=250m_16_days_NDVI&startDate=A2020330&endDate=A2020330&kmAboveBelow=0&kmLeftRight=0")]],
     None).
Proof. vm_compute. reflexivity. Qed.
